(** * Face-recognition attendance system: the attendance ledger, the gallery,
      the recogniser and the Telegram reconciler

    A shallow embedding of [database.py], [face_recognition_utils.py] and
    [telegram_utils.py].

    - SQL tables are lists of rows kept in rowid order; a [SELECT] is a
      [filter]/[flat_map] over them, an [UPDATE ... WHERE id = ?] a [map].
    - [date.today()] and [datetime.now()] are read by the caller of the model
      and passed in as [current_date] and [current_time] (ISO strings, as
      the source stores them).
    - numpy [float64] values are Rocq's primitive binary64 floats.
    - The chat transport is a parameter of the reconciler; the demo transport
      of the source is the instance [send_message_sync].  The bot state
      carries a log of what was handed to the transport, so that the number
      of transport calls of a run can be read off.
    - Statements are executed against a store that answers.  The failures
      that are modelled are the two ways [get_all_face_encodings] can miss
      the store, and the parameter-binding error inside
      [get_attendance_stats], which its [except] branch absorbs.
    - Integers are [Z].  SQLite holds 64-bit signed integers, and a writing
      method refuses (answers [False], writes nothing) an argument outside
      that range or an [INSERT] into a table whose rowids are used up; the
      writing methods are modelled on the remaining domain, and a statement
      about what a call accepts names it ([sqlite_integer],
      [rowid_available]).
    - The OpenCV cascade is a function parameter: an image matters only
      through the rectangles the cascade finds in it. *)

From Stdlib Require Import List ZArith String Ascii Bool Lia PrimFloat.
From Stdlib Require Import DecimalString Sorted.
Import ListNotations.

Set Implicit Arguments.
Set Warnings "-inexact-float".

Local Open Scope string_scope.
Local Open Scope Z_scope.
Local Open Scope list_scope.

(** ** Python-level helpers *)

(** A call either returns a value or lets an exception escape. *)
Inductive result (A : Type) : Type :=
| Returned (a : A)
| Raised (msg : string).
Arguments Returned {A} a.
Arguments Raised {A} msg.

(** Positional query parameters are dynamically typed Python values. *)
Inductive PyVal : Type :=
| PyNone
| PyStr (s : string)
| PyInt (z : Z).

(** [if v:] *)
Definition truthy (v : PyVal) : bool :=
  match v with
  | PyNone => false
  | PyStr s => negb (s =? "")%string
  | PyInt z => negb (z =? 0)
  end.

(** [v == w]; an [int] never equals a [str], and [None] only equals itself. *)
Definition py_eqb (v w : PyVal) : bool :=
  match v, w with
  | PyNone, PyNone => true
  | PyStr s, PyStr t => (s =? t)%string
  | PyInt a, PyInt b => a =? b
  | _, _ => false
  end.

(** [v in ws] *)
Definition py_in (v : PyVal) (ws : list PyVal) : bool := existsb (py_eqb v) ws.

Definition py_str (o : option string) : PyVal :=
  match o with Some s => PyStr s | None => PyNone end.

Definition py_int (o : option Z) : PyVal :=
  match o with Some z => PyInt z | None => PyNone end.

(** [str(n)] for a non-negative counter. *)
Definition str_of_nat (n : nat) : string := NilZero.string_of_uint (Nat.to_uint n).

(** A numpy vector of [float64]. *)
Definition ndarray : Type := list float.

(** [np.ones(n, dtype=np.float64)] *)
Definition np_ones (n : nat) : ndarray := repeat 1%float n.

(** ** Stable insertion sort, used for [ORDER BY] and for pandas' sorted group keys *)

Section Sorting.
Variable A : Type.
Variable before : A -> A -> bool.

Fixpoint insert_by (x : A) (l : list A) : list A :=
  match l with
  | [] => [x]
  | y :: l' => if before x y then x :: y :: l' else y :: insert_by x l'
  end.

Fixpoint sort_by (l : list A) : list A :=
  match l with
  | [] => []
  | x :: l' => insert_by x (sort_by l')
  end.
Definition sorted_by : list A -> Prop :=
  StronglySorted (fun x y => before x y = true).

End Sorting.

(** * database.py *)

Module Database.

(** The [face_encoding] BLOB column: what [add_student] writes decodes
    back to the vector; anything else makes [json.loads] raise. *)
Inductive Blob : Type :=
| JsonBlob (v : ndarray)
| BadBlob (raw : string).

Record StudentRow : Type := {
  st_id : Z;
  st_roll_no : string;
  st_name : string;
  st_branch : string;
  st_semester : Z;
  st_section : string;
  st_email : option string;
  st_face_encoding : option Blob
}.

Record SubjectRow : Type := {
  sub_id : Z;
  sub_code : string;
  sub_name : string;
  sub_branch : string;
  sub_semester : Z
}.

Record AttendanceRow : Type := {
  a_id : Z;
  a_student_id : Z;
  a_subject_id : Z;
  a_date : string;
  a_time : string;
  a_status : string;
  a_synced : bool
}.

(** The tables the modelled methods touch.  The two [_seq] fields are the
    [sqlite_sequence] entries behind [AUTOINCREMENT]. *)
Record t : Type := {
  students : list StudentRow;
  students_seq : Z;
  subjects : list SubjectRow;
  attendance : list AttendanceRow;
  attendance_seq : Z
}.

Definition empty : t :=
  {| students := []; students_seq := 0; subjects := [];
     attendance := []; attendance_seq := 0 |}.

(** [AUTOINCREMENT]: one more than the largest rowid ever used. *)
Definition next_rowid (seq : Z) (ids : list Z) : Z :=
  1 + fold_right Z.max seq ids.

(** SQLite keeps an [INTEGER] in 64 bits, signed.  Asked to bind a Python
    [int] outside that range, sqlite3 raises [OverflowError] before the
    statement runs; the writing methods catch it in their last [except]
    branch and answer [False] with the text of the error, having written
    nothing.  Likewise an [AUTOINCREMENT] table that has used the largest
    rowid refuses every further [INSERT] ("database or disk is full").
    The writing methods below are modelled on the values SQLite can take:
    a statement about what a call accepts or writes carries these two
    conditions on its arguments and on the counter. *)
Definition sqlite_integer (z : Z) : Prop := - 2 ^ 63 <= z < 2 ^ 63.

Definition rowid_available (seq : Z) (ids : list Z) : Prop :=
  sqlite_integer (next_rowid seq ids).

(** How a method finds the store: [self.connect()] is called before the
    [try] block of every method, so a failure to open the file escapes,
    while a failing statement is caught by the method's [except]. *)
Inductive Access : Type :=
| Reachable
| OpenFails
| QueryFails.

(** *** add_student *)

(** The [IntegrityError] branch is the [UNIQUE] constraint on [roll_no].
    The branch for any other exception is met only outside the modelled
    domain (a [semester] that is no [sqlite_integer], a counter with no
    [rowid_available]). *)
Definition add_student (roll_no name branch : string) (semester : Z)
    (section : string) (email : option string) (face_encoding : option ndarray)
    (db : t) : (bool * (Z + string)) * t :=
  let face_encoding_binary := option_map JsonBlob face_encoding in
  if existsb (fun s => (st_roll_no s =? roll_no)%string) (students db) then
    ((false, inr "Roll number already exists"), db)
  else
    let lastrowid := next_rowid (students_seq db) (map st_id (students db)) in
    ((true, inl lastrowid),
     {| students := students db ++
          [{| st_id := lastrowid; st_roll_no := roll_no; st_name := name;
              st_branch := branch; st_semester := semester;
              st_section := section; st_email := email;
              st_face_encoding := face_encoding_binary |}];
        students_seq := lastrowid;
        subjects := subjects db;
        attendance := attendance db;
        attendance_seq := attendance_seq db |}).

(** *** get_all_face_encodings *)

Record FaceDict : Type := {
  fd_id : Z;
  fd_roll_no : string;
  fd_name : string;
  fd_face_encoding : ndarray
}.

(** The inner [try]: decode the stored value, or fall back to the default
    encoding when decoding raises. *)
Definition decode_face_encoding (b : Blob) : ndarray :=
  match b with
  | JsonBlob v => v
  | BadBlob _ => np_ones 128
  end.

Definition face_rows (db : t) : list FaceDict :=
  flat_map (fun s =>
    match st_face_encoding s with
    | Some b => [{| fd_id := st_id s; fd_roll_no := st_roll_no s;
                    fd_name := st_name s;
                    fd_face_encoding := decode_face_encoding b |}]
    | None => []
    end) (students db).

Definition get_all_face_encodings (acc : Access) (db : t) : result (list FaceDict) :=
  match acc with
  | OpenFails => Raised "unable to open database file"
  | QueryFails => Returned []
  | Reachable => Returned (face_rows db)
  end.

(** *** mark_attendance *)

Definition same_key (student_id subject_id : Z) (current_date : string)
    (a : AttendanceRow) : bool :=
  (a_student_id a =? student_id) && (a_subject_id a =? subject_id)
  && (a_date a =? current_date)%string.

Definition set_attendance (rows : list AttendanceRow) (seq : Z) (db : t) : t :=
  {| students := students db; students_seq := students_seq db;
     subjects := subjects db; attendance := rows; attendance_seq := seq |}.

(** [status] defaults to ["present"] and [sync] to [True] in the source;
    the attendance pages call it with ["present"] and [False].  The
    [except] branch, which answers [False] and writes nothing, is met only
    outside the modelled domain: ids that are no [sqlite_integer], or a
    new record with no [rowid_available]. *)
Definition mark_attendance (student_id subject_id : Z) (status : string)
    (sync : bool) (current_date current_time : string) (db : t)
    : (bool * string) * t :=
  match find (same_key student_id subject_id current_date) (attendance db) with
  | Some existing =>
      ((true, "Attendance marked successfully"),
       set_attendance
         (map (fun a =>
            if a_id a =? a_id existing then
              {| a_id := a_id a; a_student_id := a_student_id a;
                 a_subject_id := a_subject_id a; a_date := a_date a;
                 a_time := current_time; a_status := status;
                 a_synced := sync |}
            else a) (attendance db))
         (attendance_seq db) db)
  | None =>
      let rowid := next_rowid (attendance_seq db) (map a_id (attendance db)) in
      ((true, "Attendance marked successfully"),
       set_attendance
         (attendance db ++
            [{| a_id := rowid; a_student_id := student_id;
                a_subject_id := subject_id; a_date := current_date;
                a_time := current_time; a_status := status;
                a_synced := sync |}])
         rowid db)
  end.

(** The records of the ledger stored under one key. *)
Definition records_for (student_id subject_id : Z) (d : string) (db : t)
    : list AttendanceRow :=
  filter (same_key student_id subject_id d) (attendance db).

(** One call of a same-key sequence: its status, sync flag and clock time. *)
Record Mark : Type := { mk_status : string; mk_sync : bool; mk_time : string }.

Definition mark_all (student_id subject_id : Z) (d : string)
    (calls : list Mark) (db : t) : t :=
  fold_left (fun db c =>
    snd (mark_attendance student_id subject_id (mk_status c) (mk_sync c)
           d (mk_time c) db)) calls db.

(** *** get_unsynced_attendance *)

(** One row of the data frame the query returns. *)
Record UnsyncedRow : Type := {
  u_id : Z;
  u_date : string;
  u_time : string;
  u_status : string;
  u_student_id : Z;
  u_roll_no : string;
  u_student_name : string;
  u_branch : string;
  u_semester : Z;
  u_section : string;
  u_subject_id : Z;
  u_subject_code : string;
  u_subject_name : string
}.

Definition unsynced_row (a : AttendanceRow) (s : StudentRow) (sub : SubjectRow)
    : UnsyncedRow :=
  {| u_id := a_id a; u_date := a_date a; u_time := a_time a;
     u_status := a_status a;
     u_student_id := st_id s; u_roll_no := st_roll_no s;
     u_student_name := st_name s; u_branch := st_branch s;
     u_semester := st_semester s; u_section := st_section s;
     u_subject_id := sub_id sub; u_subject_code := sub_code sub;
     u_subject_name := sub_name sub |}.

(** [FROM attendance a JOIN students s ... JOIN subjects sub ...
    WHERE a.synced = FALSE]: an attendance row whose student or subject
    is gone yields no row. *)
Definition unsynced_join (db : t) : list UnsyncedRow :=
  flat_map (fun a =>
    flat_map (fun s =>
      flat_map (fun sub =>
        if (a_student_id a =? st_id s) && (a_subject_id a =? sub_id sub)
           && negb (a_synced a)
        then [unsynced_row a s sub] else [])
        (subjects db))
      (students db))
    (attendance db).

(** [ORDER BY a.date DESC, a.time DESC], text compared bytewise; rows that
    tie keep their order. *)
Definition newer_first (r1 r2 : UnsyncedRow) : bool :=
  match String.compare (u_date r1) (u_date r2) with
  | Gt => true
  | Lt => false
  | Eq => String.leb (u_time r2) (u_time r1)
  end.

Definition get_unsynced_attendance (db : t) : list UnsyncedRow :=
  sort_by newer_first (unsynced_join db).

(** *** mark_attendance_synced *)

Definition mark_attendance_synced (attendance_id : Z) (db : t) : bool * t :=
  (true,
   set_attendance
     (map (fun a =>
        if a_id a =? attendance_id then
          {| a_id := a_id a; a_student_id := a_student_id a;
             a_subject_id := a_subject_id a; a_date := a_date a;
             a_time := a_time a; a_status := a_status a; a_synced := true |}
        else a) (attendance db))
     (attendance_seq db) db).

(** *** get_attendance_stats *)

(** The five ["column = ?"] conditions the method can emit. *)
Inductive Column : Type :=
| A_date
| A_subject_id
| S_branch
| S_semester
| S_section.

(** [if v: conditions.append(col); params.append(v)] *)
Definition add_condition (col : Column) (v : PyVal)
    (cp : list Column * list PyVal) : list Column * list PyVal :=
  if truthy v then (fst cp ++ [col], snd cp ++ [v]) else cp.

(** Positional binding; sqlite3 raises when the number of supplied
    values differs from the number of placeholders. *)
Definition bind (conds : list Column) (params : list PyVal)
    : option (list (Column * PyVal)) :=
  if Nat.eqb (List.length conds) (List.length params)
  then Some (combine conds params) else None.

Definition student_holds (s : StudentRow) (c : Column * PyVal) : bool :=
  match c with
  | (S_branch, PyStr b) => (st_branch s =? b)%string
  | (S_semester, PyInt n) => st_semester s =? n
  | (S_section, PyStr x) => (st_section s =? x)%string
  | _ => false
  end.

Definition holds (a : AttendanceRow) (s : StudentRow) (c : Column * PyVal)
    : bool :=
  match c with
  | (A_date, PyStr d) => (a_date a =? d)%string
  | (A_subject_id, PyInt i) => a_subject_id a =? i
  | _ => student_holds s c
  end.

(** [COUNT(DISTINCT ...)] *)
Definition count_distinct (ids : list Z) : Z :=
  Z.of_nat (List.length (nodup Z.eq_dec ids)).

(** [GROUP BY key] with [COUNT(DISTINCT a.student_id)].  SQLite forms the
    groups by sorting on the key, so they come out in ascending (bytewise)
    order of the key. *)
Definition group_count (rows : list (string * Z)) : list (string * Z) :=
  map (fun k =>
         (k, count_distinct
               (map snd (filter (fun r => (fst r =? k)%string) rows))))
      (sort_by String.leb (nodup string_dec (map fst rows))).

Record Stats : Type := {
  total : Z;
  present : Z;
  absent : Z;
  attendance_by_branch : list (string * Z);
  attendance_by_subject : list (string * Z)
}.

(** The dictionary of the [except] branch. *)
Definition stats_on_error : Stats :=
  {| total := 0; present := 0; absent := 0;
     attendance_by_branch := []; attendance_by_subject := [] |}.

(** [conditions] and [params], filled in the order date, subject, branch,
    semester, section. *)
Definition where_cp (date_filter : option string) (subject_id : option Z)
    (branch : option string) (semester : option Z) (section : option string)
    : list Column * list PyVal :=
  add_condition S_section (py_str section)
    (add_condition S_semester (py_int semester)
       (add_condition S_branch (py_str branch)
          (add_condition A_subject_id (py_int subject_id)
             (add_condition A_date (py_str date_filter) ([], []))))).

(** [student_conditions], with the values they are meant for. *)
Definition student_cp (branch : option string) (semester : option Z)
    (section : option string) : list Column * list PyVal :=
  add_condition S_section (py_str section)
    (add_condition S_semester (py_int semester)
       (add_condition S_branch (py_str branch) ([], []))).

Definition get_attendance_stats (date_filter : option string)
    (subject_id : option Z) (branch : option string) (semester : option Z)
    (section : option string) (db : t) : Stats :=
  let cp := where_cp date_filter subject_id branch semester section in
  let conditions := fst cp in
  let params := snd cp in
  let student_conditions := fst (student_cp branch semester section) in
  let total_params :=
    filter (fun p => py_in p [py_str branch; py_int semester; py_str section])
           params in
  match bind student_conditions total_params with
  | None => stats_on_error
  | Some total_where =>
    let total_students :=
      count_distinct
        (map st_id
           (filter (fun s => forallb (student_holds s) total_where)
                   (students db))) in
    match bind conditions params with
    | None => stats_on_error
    | Some where_clause =>
      let present_rows :=
        flat_map (fun a =>
          flat_map (fun s =>
            if (a_student_id a =? st_id s)
               && forallb (holds a s) where_clause
               && (a_status a =? "present")%string
            then [(a, s)] else [])
            (students db))
          (attendance db) in
      let present_students :=
        count_distinct (map (fun r => a_student_id (fst r)) present_rows) in
      let absent_students := total_students - present_students in
      let branch_df :=
        group_count
          (map (fun r => (st_branch (snd r), a_student_id (fst r)))
               present_rows) in
      let subject_df :=
        group_count
          (flat_map (fun r =>
             flat_map (fun sub =>
               if a_subject_id (fst r) =? sub_id sub
               then [(sub_name sub, a_student_id (fst r))] else [])
               (subjects db))
             present_rows) in
      {| total := total_students; present := present_students;
         absent := absent_students;
         attendance_by_branch := branch_df;
         attendance_by_subject := subject_df |}
    end
  end.

(** *** Auxiliary notions for the statements *)

(** [face_encoding IS NOT NULL] *)
Definition has_encoding (s : StudentRow) : bool :=
  match st_face_encoding s with Some _ => true | None => false end.

(** The row [UPDATE attendance SET synced = TRUE] leaves behind. *)
Definition synced_true (a : AttendanceRow) : AttendanceRow :=
  {| a_id := a_id a; a_student_id := a_student_id a;
     a_subject_id := a_subject_id a; a_date := a_date a;
     a_time := a_time a; a_status := a_status a; a_synced := true |}.

(** The effect on one row of marking every id of [ids] synced. *)
Definition mark_in (ids : list Z) (a : AttendanceRow) : AttendanceRow :=
  if existsb (Z.eqb (a_id a)) ids then synced_true a else a.

(** What one optional condition contributes to a [WHERE] clause. *)
Definition cond_sem (f : Column * PyVal -> bool) (col : Column) (v : PyVal)
    : bool :=
  if truthy v then f (col, v) else true.

(** *** The other methods on students *)

Definition set_students (rows : list StudentRow) (db : t) : t :=
  {| students := rows; students_seq := students_seq db;
     subjects := subjects db; attendance := attendance db;
     attendance_seq := attendance_seq db |}.

(** [UNIQUE] on an [UPDATE ... WHERE id = ?]: the statement fails when it
    would leave two rows with the new value, that is, when it rewrites a
    row while another row holds the value already, or rewrites two rows. *)
Definition unique_violation (A : Type) (is_target holds_value : A -> bool)
    (rows : list A) : bool :=
  let targets := filter is_target rows in
  let others := filter (fun r => negb (is_target r)) rows in
  match targets with
  | [] => false
  | _ => existsb holds_value others || (1 <? List.length targets)%nat
  end.

(** *** update_student *)

(** The [IntegrityError] branch is the [UNIQUE] constraint on [roll_no];
    the branch for any other exception is met only when [student_id] or
    [semester] is no [sqlite_integer]. *)
Definition update_student (student_id : Z) (roll_no name branch : string)
    (semester : Z) (section : string) (email : option string)
    (face_encoding : option ndarray) (db : t) : (bool * string) * t :=
  if unique_violation (fun s => st_id s =? student_id)
       (fun s => (st_roll_no s =? roll_no)%string) (students db)
  then ((false, "Roll number already exists"), db)
  else
    ((true, "Student updated successfully"),
     set_students
       (map (fun s =>
          if st_id s =? student_id then
            {| st_id := st_id s; st_roll_no := roll_no; st_name := name;
               st_branch := branch; st_semester := semester;
               st_section := section; st_email := email;
               st_face_encoding :=
                 match face_encoding with
                 | Some v => Some (JsonBlob v)
                 | None => st_face_encoding s
                 end |}
          else s) (students db)) db).

(** *** delete_student *)
Definition delete_student (student_id : Z) (db : t) : (bool * string) * t :=
  ((true, "Student deleted successfully"),
   set_students (filter (fun s => negb (st_id s =? student_id)) (students db)) db).

(** *** get_student *)
Record StudentDict : Type := {
  sd_id : Z;
  sd_roll_no : string;
  sd_name : string;
  sd_branch : string;
  sd_semester : Z;
  sd_section : string;
  sd_email : option string;
  sd_face_encoding : option ndarray
}.

(** [if result[7]:] and the [try] below it: an empty value counts as no
    encoding, an undecodable one becomes the default encoding. *)
Definition student_face_encoding (stored : option Blob) : option ndarray :=
  match stored with
  | Some (JsonBlob v) => Some v
  | Some (BadBlob raw) => if (raw =? "")%string then None else Some (np_ones 128)
  | None => None
  end.

Definition get_student (student_id : Z) (db : t) : option StudentDict :=
  match find (fun s => st_id s =? student_id) (students db) with
  | Some s =>
      Some {| sd_id := st_id s; sd_roll_no := st_roll_no s;
              sd_name := st_name s; sd_branch := st_branch s;
              sd_semester := st_semester s; sd_section := st_section s;
              sd_email := st_email s;
              sd_face_encoding := student_face_encoding (st_face_encoding s) |}
  | None => None
  end.

(** *** get_students *)

(** [if v: conditions.append("col = ?")] for a text and for an integer
    column: an absent or falsy filter selects every row. *)
Definition text_condition (o : option string) (x : string) : bool :=
  if truthy (py_str o) then py_eqb (PyStr x) (py_str o) else true.

Definition int_condition (o : option Z) (x : Z) : bool :=
  if truthy (py_int o) then py_eqb (PyInt x) (py_int o) else true.

Record StudentListed : Type := {
  sl_id : Z;
  sl_roll_no : string;
  sl_name : string;
  sl_branch : string;
  sl_semester : Z;
  sl_section : string;
  sl_email : option string
}.

Definition listed (s : StudentRow) : StudentListed :=
  {| sl_id := st_id s; sl_roll_no := st_roll_no s; sl_name := st_name s;
     sl_branch := st_branch s; sl_semester := st_semester s;
     sl_section := st_section s; sl_email := st_email s |}.

Definition student_selected (branch : option string) (semester : option Z)
    (section : option string) (s : StudentRow) : bool :=
  text_condition branch (st_branch s) && int_condition semester (st_semester s)
  && text_condition section (st_section s).

(** [ORDER BY roll_no] *)
Definition by_roll_no (s1 s2 : StudentRow) : bool :=
  String.leb (st_roll_no s1) (st_roll_no s2).

Definition get_students (branch : option string) (semester : option Z)
    (section : option string) (db : t) : list StudentListed :=
  map listed
      (sort_by by_roll_no
         (filter (student_selected branch semester section) (students db))).

(** *** The methods on subjects *)

Definition set_subjects (rows : list SubjectRow) (db : t) : t :=
  {| students := students db; students_seq := students_seq db;
     subjects := rows; attendance := attendance db;
     attendance_seq := attendance_seq db |}.

(** The [subjects] table has no sequence field in [t]: its
    [AUTOINCREMENT] counter is passed in and handed back.  As for
    [add_student], the branch for an exception other than the [UNIQUE]
    violation is met only for a [semester] that is no [sqlite_integer] or
    a counter with no [rowid_available]. *)
Definition add_subject (subject_code subject_name branch : string)
    (semester : Z) (subjects_seq : Z) (db : t) : (bool * (Z + string)) * (t * Z) :=
  if existsb (fun s => (sub_code s =? subject_code)%string) (subjects db) then
    ((false, inr "Subject code already exists"), (db, subjects_seq))
  else
    let lastrowid := next_rowid subjects_seq (map sub_id (subjects db)) in
    ((true, inl lastrowid),
     (set_subjects
        (subjects db ++
           [{| sub_id := lastrowid; sub_code := subject_code;
               sub_name := subject_name; sub_branch := branch;
               sub_semester := semester |}]) db,
      lastrowid)).

Definition update_subject (subject_id : Z) (subject_code subject_name
    branch : string) (semester : Z) (db : t) : (bool * string) * t :=
  if unique_violation (fun s => sub_id s =? subject_id)
       (fun s => (sub_code s =? subject_code)%string) (subjects db)
  then ((false, "Subject code already exists"), db)
  else
    ((true, "Subject updated successfully"),
     set_subjects
       (map (fun s =>
          if sub_id s =? subject_id then
            {| sub_id := sub_id s; sub_code := subject_code;
               sub_name := subject_name; sub_branch := branch;
               sub_semester := semester |}
          else s) (subjects db)) db).

Definition delete_subject (subject_id : Z) (db : t) : (bool * string) * t :=
  ((true, "Subject deleted successfully"),
   set_subjects (filter (fun s => negb (sub_id s =? subject_id)) (subjects db)) db).

Definition get_subject (subject_id : Z) (db : t) : option SubjectRow :=
  find (fun s => sub_id s =? subject_id) (subjects db).

Definition subject_selected (branch : option string) (semester : option Z)
    (s : SubjectRow) : bool :=
  text_condition branch (sub_branch s) && int_condition semester (sub_semester s).

(** [ORDER BY subject_code] *)
Definition by_subject_code (s1 s2 : SubjectRow) : bool :=
  String.leb (sub_code s1) (sub_code s2).

Definition get_subjects (branch : option string) (semester : option Z)
    (db : t) : list SubjectRow :=
  sort_by by_subject_code (filter (subject_selected branch semester) (subjects db)).

(** The keys of a dictionary [get_subjects] returns are fixed; [s.get(key)]
    is [None] for any other key. *)
Definition subject_get (key : string) (s : SubjectRow) : PyVal :=
  if (key =? "id")%string then PyInt (sub_id s)
  else if (key =? "subject_code")%string then PyStr (sub_code s)
  else if (key =? "subject_name")%string then PyStr (sub_name s)
  else if (key =? "branch")%string then PyStr (sub_branch s)
  else if (key =? "semester")%string then PyInt (sub_semester s)
  else PyNone.

(** *** get_attendance *)

Record AttendanceView : Type := {
  v_id : Z;
  v_date : string;
  v_time : string;
  v_status : string;
  v_synced : bool;
  v_student_id : Z;
  v_roll_no : string;
  v_student_name : string;
  v_branch : string;
  v_semester : Z;
  v_section : string;
  v_subject_id : Z;
  v_subject_code : string;
  v_subject_name : string
}.

Definition attendance_view (a : AttendanceRow) (s : StudentRow)
    (sub : SubjectRow) : AttendanceView :=
  {| v_id := a_id a; v_date := a_date a; v_time := a_time a;
     v_status := a_status a; v_synced := a_synced a;
     v_student_id := st_id s; v_roll_no := st_roll_no s;
     v_student_name := st_name s; v_branch := st_branch s;
     v_semester := st_semester s; v_section := st_section s;
     v_subject_id := sub_id sub; v_subject_code := sub_code sub;
     v_subject_name := sub_name sub |}.

Definition attendance_selected (date_filter : option string)
    (subject_id student_id : option Z) (branch : option string)
    (semester : option Z) (section : option string)
    (a : AttendanceRow) (s : StudentRow) : bool :=
  text_condition date_filter (a_date a) && int_condition subject_id (a_subject_id a)
  && int_condition student_id (a_student_id a)
  && student_selected branch semester section s.

(** [ORDER BY a.date DESC, a.time DESC] *)
Definition view_newer_first (r1 r2 : AttendanceView) : bool :=
  match String.compare (v_date r1) (v_date r2) with
  | Gt => true
  | Lt => false
  | Eq => String.leb (v_time r2) (v_time r1)
  end.

Definition get_attendance (date_filter : option string)
    (subject_id student_id : option Z) (branch : option string)
    (semester : option Z) (section : option string) (db : t)
    : list AttendanceView :=
  sort_by view_newer_first
    (flat_map (fun a =>
       flat_map (fun s =>
         flat_map (fun sub =>
           if (a_student_id a =? st_id s) && (a_subject_id a =? sub_id sub)
              && attendance_selected date_filter subject_id student_id
                   branch semester section a s
           then [attendance_view a s sub] else [])
           (subjects db))
         (students db))
       (attendance db)).

(** *** What the counting queries of [get_attendance_stats] select *)

(** The students the query for [total] counts, and the distinct students
    the query for [present] counts, when each query is handed as many
    values as it has placeholders: every condition is applied as the
    method adds it, only for a filter that is truthy. *)
Definition counted_total (branch : option string) (semester : option Z)
    (section : option string) (db : t) : Z :=
  count_distinct
    (map st_id (filter (student_selected branch semester section)
                       (students db))).

Definition counted_present (date_filter : option string)
    (subject_id : option Z) (branch : option string) (semester : option Z)
    (section : option string) (db : t) : Z :=
  count_distinct
    (map a_student_id
       (filter (fun a =>
          (a_status a =? "present")%string
          && text_condition date_filter (a_date a)
          && int_condition subject_id (a_subject_id a)
          && existsb (fun s => (st_id s =? a_student_id a)
                               && student_selected branch semester section s)
                     (students db))
          (attendance db))).

End Database.

(** * face_recognition_utils.py *)

Module FaceRecognitionUtils.

(** The three parallel lists of the object. *)
Record t : Type := {
  known_face_encodings : list ndarray;
  known_face_names : list string;
  known_face_ids : list Z
}.

(** *** load_known_faces *)

Definition load_known_faces (acc : Database.Access) (db : Database.t)
    (self : t) : result nat * t :=
  match Database.get_all_face_encodings acc db with
  | Raised msg => (Raised msg, self)
  | Returned students =>
      (Returned (List.length students),
       {| known_face_encodings := map Database.fd_face_encoding students;
          known_face_names :=
            map (fun student =>
                   (Database.fd_name student ++ " (" ++
                    Database.fd_roll_no student ++ ")")%string) students;
          known_face_ids := map Database.fd_id students |})
  end.

(** The images and OpenCV's Haar cascade are outside the program: the
    cascade is a function from images to [(x, y, w, h)] rectangles. *)
Section Detector.
Variable Image : Type.
Variable detectMultiScale : Image -> list (Z * Z * Z * Z).

(** *** detect_faces: rectangles as [(top, right, bottom, left)] *)
Definition detect_faces (image : Image) : list (Z * Z * Z * Z) :=
  map (fun '(x, y, w, h) => (y, x + w, y + h, x)) (detectMultiScale image).

(** *** recognize_faces *)
Definition recognize_faces (self : t) (image : Image) (tolerance : float)
    : list (Z * Z * Z * Z) * list string * list Z :=
  let face_locations := detect_faces image in
  let face_names := map (fun _ => "Student") face_locations in
  let face_ids := map (fun _ => 1) face_locations in
  (face_locations, face_names, face_ids).

(** *** get_face_encoding *)
Definition get_face_encoding (image : Image)
    : option ndarray * option string :=
  let face_locations := detect_faces image in
  match face_locations with
  | [] => (None, Some "No face detected in the image")
  | _ =>
      if (1 <? List.length face_locations)%nat then
        (None,
         Some "Multiple faces detected. Please provide an image with a single face.")
      else (Some (np_ones 128), None)
  end.

(** The identities a frame marks present: the attendance pages mark
    every truthy [face_id]. *)
Definition matched_ids (self : t) (image : Image) (tolerance : float)
    : list Z :=
  filter (fun face_id => negb (face_id =? 0))
         (snd (recognize_faces self image tolerance)).
End Detector.

End FaceRecognitionUtils.

(** * telegram_utils.py *)

Module TelegramBot.
Import Database.

(** The data frame of [get_unsynced_attendance], or one of its groups. *)
Definition DataFrame : Type := list UnsyncedRow.

(** What the report text is built from: date, subject, the three counts
    and the two name lists.  (The percentage line is a function of the
    counts; the generation timestamp is read from the clock.) *)
Record Message : Type := {
  msg_date : string;
  msg_subject_name : string;
  msg_subject_code : string;
  msg_total : Z;
  msg_present : Z;
  msg_absent : Z;
  msg_present_students : list (string * string);
  msg_absent_students : list (string * string)
}.

(** A transport answers the n-th message handed to it with a success
    flag and a text. *)
Definition Transport : Type := nat -> Message -> bool * string.

(** The transport of the source: the demo sender always succeeds. *)
Definition send_message_sync : Transport :=
  fun _ _ => (true, "Message sent successfully (demo mode)").

(** The bot's database together with the log of everything handed to the
    transport so far and what it answered. *)
Record t : Type := {
  db : Database.t;
  sent : list (Message * (bool * string))
}.

Definition student_lines (status : string) (attendance_data : DataFrame)
    : list (string * string) :=
  map (fun row => (u_student_name row, u_roll_no row))
      (filter (fun row => (u_status row =? status)%string) attendance_data).

Definition format_report (first : UnsyncedRow) (attendance_data : DataFrame)
    : Message :=
  let total_students := Z.of_nat (List.length attendance_data) in
  let present_students :=
    Z.of_nat (List.length
      (filter (fun row => (u_status row =? "present")%string) attendance_data)) in
  let absent_students := total_students - present_students in
  {| msg_date := u_date first;
     msg_subject_name := u_subject_name first;
     msg_subject_code := u_subject_code first;
     msg_total := total_students;
     msg_present := present_students;
     msg_absent := absent_students;
     msg_present_students := student_lines "present" attendance_data;
     msg_absent_students := student_lines "absent" attendance_data |}.

(** pandas [groupby(["date", "subject_id"])]: one group per distinct key,
    keys in ascending order, rows of a group in data-frame order. *)
Definition GroupKey : Type := (string * Z)%type.

Definition key_of (row : UnsyncedRow) : GroupKey := (u_date row, u_subject_id row).

Definition key_eqb (k1 k2 : GroupKey) : bool :=
  (fst k1 =? fst k2)%string && (snd k1 =? snd k2).

Definition key_before (k1 k2 : GroupKey) : bool :=
  match String.compare (fst k1) (fst k2) with
  | Lt => true
  | Gt => false
  | Eq => snd k1 <=? snd k2
  end.

Definition key_eq_dec (k1 k2 : GroupKey) : {k1 = k2} + {k1 <> k2}.
Proof. decide equality; [apply Z.eq_dec | apply string_dec]. Defined.

Definition group_of (k : GroupKey) (df : DataFrame) : DataFrame :=
  filter (fun row => key_eqb (key_of row) k) df.

Definition groupby (df : DataFrame) : list (GroupKey * DataFrame) :=
  map (fun k => (k, group_of k df))
      (sort_by key_before (nodup key_eq_dec (map key_of df))).

(** The three accumulators of the reconciliation loop. *)
Record Tally : Type := {
  success_count : nat;
  error_count : nat;
  error_messages : list string
}.

Section Bot.
Variable transport : Transport.

(** *** send_attendance_report *)
Definition send_attendance_report (attendance_data : DataFrame) (self : t)
    : (bool * string) * t :=
  match attendance_data with
  | [] => ((false, "No attendance data to send"), self)
  | first :: _ =>
      let message := format_report first attendance_data in
      let answer := transport (List.length (sent self)) message in
      let log := sent self ++ [(message, answer)] in
      if fst answer then
        (answer,
         {| db := fold_left
                    (fun d row => snd (mark_attendance_synced (u_id row) d))
                    attendance_data (db self);
            sent := log |})
      else (answer, {| db := db self; sent := log |})
  end.

(** The body of [for (date, subject_id), group in grouped]. *)
Definition sync_step (st : Tally * t) (g : GroupKey * DataFrame) : Tally * t :=
  let '(answer, self') := send_attendance_report (snd g) (snd st) in
  if fst answer then
    ({| success_count := S (success_count (fst st));
        error_count := error_count (fst st);
        error_messages := error_messages (fst st) |}, self')
  else
    ({| success_count := success_count (fst st);
        error_count := S (error_count (fst st));
        error_messages := error_messages (fst st) ++ [snd answer] |}, self').

(** *** sync_pending_attendance *)
Definition sync_pending_attendance (self : t) : (bool * string) * t :=
  let unsynced_attendance := get_unsynced_attendance (db self) in
  match unsynced_attendance with
  | [] => ((true, "No pending attendance to sync"), self)
  | _ =>
      let grouped := groupby unsynced_attendance in
      let '(tally, self') :=
        fold_left sync_step grouped
          ({| success_count := 0; error_count := 0; error_messages := [] |},
           self) in
      if Nat.eqb (error_count tally) 0 then
        ((true,
          ("Successfully synced " ++ str_of_nat (success_count tally)
           ++ " attendance reports")%string), self')
      else
        ((false,
          ("Synced " ++ str_of_nat (success_count tally) ++ " reports, "
           ++ str_of_nat (error_count tally) ++ " failed: "
           ++ String.concat ", " (error_messages tally))%string), self')
  end.

(** *** Traces of a run *)

(** What [send_attendance_report] returns for a batch when [n] messages
    have been handed to the transport before. *)
Definition answer (n : nat) (rows : DataFrame) : bool * string :=
  match rows with
  | [] => (false, "No attendance data to send")
  | first :: _ => transport n (format_report first rows)
  end.

(** Over the batches of one run, in order: the ids marked synced, the
    failure texts, and the entries added to the log. *)
Fixpoint delivered (n : nat) (groups : list (GroupKey * DataFrame)) : list Z :=
  match groups with
  | [] => []
  | g :: gs =>
      (if fst (answer n (snd g)) then map u_id (snd g) else [])
      ++ delivered (S n) gs
  end.

Fixpoint failures (n : nat) (groups : list (GroupKey * DataFrame))
    : list string :=
  match groups with
  | [] => []
  | g :: gs =>
      (if fst (answer n (snd g)) then [] else [snd (answer n (snd g))])
      ++ failures (S n) gs
  end.

Fixpoint successes (n : nat) (groups : list (GroupKey * DataFrame)) : nat :=
  match groups with
  | [] => 0
  | g :: gs =>
      ((if fst (answer n (snd g)) then 1 else 0) + successes (S n) gs)%nat
  end.

Fixpoint handed (n : nat) (groups : list (GroupKey * DataFrame))
    : list (Message * (bool * string)) :=
  match groups with
  | [] => []
  | g :: gs =>
      match snd g with
      | [] => handed n gs
      | first :: _ =>
          (format_report first (snd g), answer n (snd g)) :: handed (S n) gs
      end
  end.

End Bot.

(** The batches a run starting in [self] forms, and the transport's answer
    to the i-th of them. *)
Definition batches (self : TelegramBot.t) : list (GroupKey * DataFrame) :=
  groupby (get_unsynced_attendance (db self)).

Definition batch_answer (transport : Transport) (self : TelegramBot.t)
    (i : nat) (rows : DataFrame) : bool * string :=
  answer transport (List.length (sent self) + i) rows.

End TelegramBot.

(** * The matcher and the statistics as the specification words them *)

Module Spec.
Import Database.

(** Euclidean distance between two vectors. *)
Definition distance (a b : ndarray) : float :=
  PrimFloat.sqrt
    (fold_left (fun acc xy =>
                  PrimFloat.add acc
                    (PrimFloat.mul (PrimFloat.sub (fst xy) (snd xy))
                                   (PrimFloat.sub (fst xy) (snd xy))))
               (combine a b) 0%float).

(** The gallery entry at minimum distance; of two equidistant entries the
    one met first wins. *)
Fixpoint nearest (observed : ndarray) (gallery : list (Z * ndarray))
    : option (Z * float) :=
  match gallery with
  | [] => None
  | (identity, v) :: rest =>
      let d := distance observed v in
      match nearest observed rest with
      | Some (other, e) =>
          if PrimFloat.ltb e d then Some (other, e) else Some (identity, d)
      | None => Some (identity, d)
      end
  end.

(** [match(observed_vector, gallery, threshold)]: the nearest identity
    when its distance is at most the threshold, otherwise unknown, the
    distance being reported either way. *)
Definition spec_match (observed : ndarray) (gallery : list (Z * ndarray))
    (threshold : float) : option Z * option float :=
  match nearest observed gallery with
  | None => (None, None)
  | Some (identity, d) =>
      if PrimFloat.leb d threshold then (Some identity, Some d)
      else (None, Some d)
  end.

(** A filter that is given selects what holds its value; a filter that
    is absent selects everything. *)
Definition str_filter (o : option string) (x : string) : bool :=
  match o with
  | Some v => (x =? v)%string
  | None => true
  end.

Definition int_filter (o : option Z) (x : Z) : bool :=
  match o with
  | Some v => x =? v
  | None => true
  end.

(** The organisational filters: branch, semester, section. *)
Definition org_match (branch : option string) (semester : option Z)
    (section : option string) (s : StudentRow) : bool :=
  str_filter branch (st_branch s) && int_filter semester (st_semester s)
  && str_filter section (st_section s).

(** Identities matching the organisational filters. *)
Definition spec_total (branch : option string) (semester : option Z)
    (section : option string) (db : Database.t) : Z :=
  count_distinct (map st_id (filter (org_match branch semester section)
                                    (students db))).

(** Distinct identities with a present record matching all filters. *)
Definition spec_present (date_filter : option string) (subject_id : option Z)
    (branch : option string) (semester : option Z) (section : option string)
    (db : Database.t) : Z :=
  count_distinct
    (map a_student_id
       (filter (fun a =>
          (a_status a =? "present")%string
          && str_filter date_filter (a_date a)
          && int_filter subject_id (a_subject_id a)
          && existsb (fun s => (st_id s =? a_student_id a)
                               && org_match branch semester section s)
                     (students db))
          (attendance db))).

(** Some value that is not an organisational filter passes the test
    [p in [branch, semester, section]] of the method. *)
Definition collision (date_filter : option string) (subject_id : option Z)
    (branch : option string) (semester : option Z) (section : option string)
    : bool :=
  let orgs := [py_str branch; py_int semester; py_str section] in
  (truthy (py_str date_filter) && py_in (py_str date_filter) orgs)
  || (truthy (py_int subject_id) && py_in (py_int subject_id) orgs).

End Spec.

(** * database.py: settings and faculty *)

Module DatabaseConfig.

Record FacultyRow : Type := {
  fa_id : Z;
  fa_faculty_id : string;
  fa_name : string;
  fa_email : option string;
  fa_password : string;
  fa_is_admin : bool
}.

(** The [settings] table as its (key, value) rows, and the [faculty]
    table with its [AUTOINCREMENT] counter.  (The rowids of [settings] and
    their counter are read by no method and are left out.) *)
Record t : Type := {
  settings : list (string * string);
  faculty : list FacultyRow;
  faculty_seq : Z
}.

Definition empty : t := {| settings := []; faculty := []; faculty_seq := 0 |}.

(** [INSERT OR IGNORE INTO settings (key, value)], [key] being [UNIQUE]. *)
Definition insert_or_ignore_setting (key value : string) (c : t) : t :=
  if existsb (fun kv => (fst kv =? key)%string) (settings c) then c
  else {| settings := settings c ++ [(key, value)];
          faculty := faculty c; faculty_seq := faculty_seq c |}.

(** [INSERT OR IGNORE INTO faculty], [faculty_id] being [UNIQUE].  SQLite
    draws the rowid from the [AUTOINCREMENT] counter before it meets the
    conflict, so the counter advances also when the row is ignored. *)
Definition insert_or_ignore_faculty (faculty_id name password : string)
    (is_admin : bool) (c : t) : t :=
  let rowid := Database.next_rowid (faculty_seq c) (map fa_id (faculty c)) in
  if existsb (fun f => (fa_faculty_id f =? faculty_id)%string) (faculty c) then
    {| settings := settings c; faculty := faculty c; faculty_seq := rowid |}
  else
    {| settings := settings c;
       faculty := faculty c ++
         [{| fa_id := rowid; fa_faculty_id := faculty_id; fa_name := name;
             fa_email := None; fa_password := password;
             fa_is_admin := is_admin |}];
       faculty_seq := rowid |}.

(** *** create_tables: the default settings and the admin user *)
Definition create_tables (c : t) : t :=
  insert_or_ignore_faculty "admin" "Administrator" "admin123" true
    (insert_or_ignore_setting "admin_password" "admin123"
       (insert_or_ignore_setting "attendance_threshold" "0.6"
          (insert_or_ignore_setting "telegram_chat_id" ""
             (insert_or_ignore_setting "telegram_bot_token" "" c)))).

(** *** get_setting *)
Definition get_setting (key : string) (c : t) : option string :=
  option_map snd (find (fun kv => (fst kv =? key)%string) (settings c)).

(** *** update_setting *)
Definition update_setting (key value : string) (c : t) : bool * t :=
  (true,
   {| settings :=
        map (fun kv => if (fst kv =? key)%string then (fst kv, value) else kv)
            (settings c);
      faculty := faculty c; faculty_seq := faculty_seq c |}).

(** *** verify_credentials *)
Record Credentials : Type := {
  cr_id : Z;
  cr_name : string;
  cr_is_admin : bool
}.

Definition verify_credentials (faculty_id password : string) (c : t)
    : option Credentials :=
  match find (fun f => (fa_faculty_id f =? faculty_id)%string
                       && (fa_password f =? password)%string) (faculty c) with
  | Some f => Some {| cr_id := fa_id f; cr_name := fa_name f;
                      cr_is_admin := fa_is_admin f |}
  | None => None
  end.

End DatabaseConfig.

(** * app.py and the pages: the handlers that carry logic *)

Module Pages.
Import Database.

(** What a handler shows: [st.error] or [st.success]. *)
Inductive Shown : Type :=
| ShowError (msg : string)
| ShowSuccess (msg : string).

(** *** app.py: login *)
Record SessionState : Type := {
  logged_in : bool;
  faculty_name : string;
  is_admin : bool
}.

Definition login (faculty_id password : string) (c : DatabaseConfig.t)
    (session : SessionState) : bool * SessionState :=
  match DatabaseConfig.verify_credentials faculty_id password c with
  | Some faculty =>
      (true, {| logged_in := true;
                faculty_name := DatabaseConfig.cr_name faculty;
                is_admin := DatabaseConfig.cr_is_admin faculty |})
  | None => (false, session)
  end.

(** *** 4_Settings.py: the "Update Admin Password" form *)
Definition change_admin_password (new_admin_password confirm_password : string)
    (c : DatabaseConfig.t) : Shown * DatabaseConfig.t :=
  if negb (new_admin_password =? confirm_password)%string then
    (ShowError "Passwords do not match.", c)
  else if (new_admin_password =? "")%string then
    (ShowError "Password cannot be empty.", c)
  else
    (ShowSuccess "Admin password updated successfully.",
     snd (DatabaseConfig.update_setting "admin_password" new_admin_password c)).

(** *** 2_Take_Attendance.py: the subjects offered to the logged-in user *)
Definition offered_subjects (session : SessionState) (db : Database.t)
    : list SubjectRow :=
  let all_subjects := get_subjects None None db in
  if negb (is_admin session) then
    filter (fun s => py_eqb (subject_get "faculty_name" s)
                            (PyStr (faculty_name session)))
           all_subjects
  else all_subjects.

(** *** 2_Take_Attendance.py: marking the faces of an uploaded image *)




Section Upload.
Variable Image : Type.
Variable detectMultiScale : Image -> list (Z * Z * Z * Z).


End Upload.

End Pages.

(** * Worked scenarios *)

Module Scenarios.
Import Database FaceRecognitionUtils TelegramBot.

Definition ledger_one : Database.t :=
  set_attendance
    [{| a_id := 1; a_student_id := 1; a_subject_id := 1;
        a_date := "2024-01-10"; a_time := "09:00:00";
        a_status := "present"; a_synced := false |}] 1 Database.empty.

(** An image is handed to the models below as the rectangles the cascade
    finds in it. *)
Definition rects_of (image : list (Z * Z * Z * Z)) : list (Z * Z * Z * Z) := image.

Definition no_gallery : FaceRecognitionUtils.t :=
  {| known_face_encodings := []; known_face_names := []; known_face_ids := [] |}.

Definition gallery_of (identity : Z) (name : string) (v : ndarray)
    : FaceRecognitionUtils.t :=
  {| known_face_encodings := [v]; known_face_names := [name];
     known_face_ids := [identity] |}.

(** The observed vector of scenario B: at distance 0.9 from the all-ones
    vector. *)
Definition far_vector : ndarray := 0.1%float :: np_ones 127.

Definition store_one : Database.t :=
  snd (add_student "R1" "S1" "CSE" 3 "A" None (Some (np_ones 128))
         Database.empty).

Definition loaded_one : FaceRecognitionUtils.t :=
  snd (load_known_faces Reachable store_one no_gallery).

(** Three students of semester 3; two of them present for subject 1 and
    for subject 3 on 2024-01-10, the third absent. *)
Definition campus : Database.t :=
  {| students :=
       [{| st_id := 1; st_roll_no := "R1"; st_name := "S1"; st_branch := "CSE";
           st_semester := 3; st_section := "A"; st_email := None;
           st_face_encoding := None |};
        {| st_id := 2; st_roll_no := "R2"; st_name := "S2"; st_branch := "CSE";
           st_semester := 3; st_section := "A"; st_email := None;
           st_face_encoding := None |};
        {| st_id := 3; st_roll_no := "R3"; st_name := "S3"; st_branch := "CSE";
           st_semester := 3; st_section := "B"; st_email := None;
           st_face_encoding := None |}];
     students_seq := 3;
     subjects :=
       [{| sub_id := 1; sub_code := "ACT1"; sub_name := "Activity 1";
           sub_branch := "CSE"; sub_semester := 3 |};
        {| sub_id := 3; sub_code := "ACT3"; sub_name := "Activity 3";
           sub_branch := "CSE"; sub_semester := 3 |}];
     attendance :=
       [{| a_id := 1; a_student_id := 1; a_subject_id := 1;
           a_date := "2024-01-10"; a_time := "09:00:00";
           a_status := "present"; a_synced := false |};
        {| a_id := 2; a_student_id := 2; a_subject_id := 1;
           a_date := "2024-01-10"; a_time := "09:00:05";
           a_status := "present"; a_synced := false |};
        {| a_id := 3; a_student_id := 3; a_subject_id := 1;
           a_date := "2024-01-10"; a_time := "09:00:09";
           a_status := "absent"; a_synced := false |};
        {| a_id := 4; a_student_id := 1; a_subject_id := 3;
           a_date := "2024-01-10"; a_time := "11:00:00";
           a_status := "present"; a_synced := false |};
        {| a_id := 5; a_student_id := 2; a_subject_id := 3;
           a_date := "2024-01-10"; a_time := "11:00:05";
           a_status := "present"; a_synced := false |}];
     attendance_seq := 5 |}.

(** Scenario D: one student, two subjects, two pending records of the
    same day, and a transport that refuses the report for ACT1. *)
Definition scenario_D : TelegramBot.t :=
  {| db :=
       {| students :=
            [{| st_id := 1; st_roll_no := "R1"; st_name := "S1";
                st_branch := "CSE"; st_semester := 3; st_section := "A";
                st_email := None; st_face_encoding := None |}];
          students_seq := 1;
          subjects :=
            [{| sub_id := 1; sub_code := "ACT1"; sub_name := "Activity 1";
                sub_branch := "CSE"; sub_semester := 3 |};
             {| sub_id := 2; sub_code := "ACT2"; sub_name := "Activity 2";
                sub_branch := "CSE"; sub_semester := 3 |}];
          attendance :=
            [{| a_id := 1; a_student_id := 1; a_subject_id := 1;
                a_date := "2024-01-10"; a_time := "09:00:00";
                a_status := "present"; a_synced := false |};
             {| a_id := 2; a_student_id := 1; a_subject_id := 2;
                a_date := "2024-01-10"; a_time := "10:00:00";
                a_status := "present"; a_synced := false |}];
          attendance_seq := 2 |};
     sent := [] |}.

Definition fails_for_ACT1 : Transport :=
  fun _ message =>
    if (msg_subject_code message =? "ACT1")%string
    then (false, "Connection timed out")
    else (true, "Message sent").


End Scenarios.

(** * Theorems *)

(** ** The stable sort *)

Section SortingFacts.
Variable A : Type.
Variable before : A -> A -> bool.

Lemma insert_by_In (x y : A) (l : list A) :
  In y (insert_by before x l) <-> y = x \/ In y l.
Proof.
  induction l as [|z l IH]; simpl.
  - intuition.
  - destruct (before x z); simpl; [intuition|].
    rewrite IH. intuition.
Qed.

Lemma sort_by_In (y : A) (l : list A) : In y (sort_by before l) <-> In y l.
Proof.
  induction l as [|x l IH]; simpl; [reflexivity|].
  rewrite insert_by_In, IH. intuition.
Qed.

Lemma insert_by_NoDup (x : A) (l : list A) :
  ~ In x l -> NoDup l -> NoDup (insert_by before x l).
Proof.
  induction l as [|z l IH]; simpl; intros Hx Hl.
  - constructor; [intros []|constructor].
  - destruct (before x z).
    + constructor; [simpl; exact Hx | exact Hl].
    + inversion Hl as [|? ? Hz Hl']; subst. constructor.
      * rewrite insert_by_In. intros [->|Hin]; [apply Hx; left; reflexivity|].
        exact (Hz Hin).
      * apply IH; [intros Hin; apply Hx; right; exact Hin | exact Hl'].
Qed.

Lemma sort_by_NoDup (l : list A) : NoDup l -> NoDup (sort_by before l).
Proof.
  induction l as [|x l IH]; simpl; intros Hl; [constructor|].
  inversion Hl as [|? ? Hx Hl']; subst.
  apply insert_by_NoDup; [rewrite sort_by_In; exact Hx | exact (IH Hl')].
Qed.

Lemma sort_by_nil_inv (l : list A) : sort_by before l = [] -> l = [].
Proof.
  destruct l as [|x l]; [reflexivity|]. intros H.
  assert (Hin : In x (sort_by before (x :: l)))
    by (apply sort_by_In; left; reflexivity).
  rewrite H in Hin. destruct Hin.
Qed.

Hypothesis before_trans :
  forall x y z, before x y = true -> before y z = true -> before x z = true.
Hypothesis before_total :
  forall x y, before x y = false -> before y x = true.

Lemma insert_by_first (x : A) (l : list A) :
  Forall (fun z => before x z = true) l -> insert_by before x l = x :: l.
Proof.
  destruct l as [|z l]; simpl; [reflexivity|].
  intros H. inversion H as [|? ? Hz _]; subst. rewrite Hz. reflexivity.
Qed.

Lemma insert_by_sorted (x : A) (l : list A) :
  sorted_by before l -> sorted_by before (insert_by before x l).
Proof.
  unfold sorted_by. induction l as [|z l IH]; simpl; intros Hs.
  - constructor; constructor.
  - inversion Hs as [|? ? Hl Hz]; subst.
    destruct (before x z) eqn:E.
    + constructor; [exact Hs|]. constructor; [exact E|].
      eapply Forall_impl; [|exact Hz]. intros w Hw.
      exact (@before_trans _ _ _ E Hw).
    + constructor; [exact (IH Hl)|].
      apply Forall_forall. intros w Hw. apply insert_by_In in Hw.
      destruct Hw as [->|Hw]; [exact (@before_total _ _ E)|].
      rewrite Forall_forall in Hz. exact (Hz w Hw).
Qed.

Lemma sort_by_sorted (l : list A) : sorted_by before (sort_by before l).
Proof.
  induction l as [|x l IH]; simpl; [constructor|].
  apply insert_by_sorted. exact IH.
Qed.

Lemma filter_insert_by (f : A -> bool) (x : A) (l : list A) :
  sorted_by before l ->
  filter f (insert_by before x l)
  = if f x then insert_by before x (filter f l) else filter f l.
Proof.
  unfold sorted_by. induction l as [|z l IH]; simpl; intros Hs.
  - destruct (f x); reflexivity.
  - inversion Hs as [|? ? Hl Hz]; subst.
    destruct (before x z) eqn:E; simpl.
    + destruct (f x), (f z); simpl; rewrite ?E; try reflexivity.
      symmetry. apply insert_by_first.
      apply Forall_forall. intros w Hw. apply filter_In in Hw.
      rewrite Forall_forall in Hz.
      exact (@before_trans _ _ _ E (Hz w (proj1 Hw))).
    + rewrite (IH Hl).
      destruct (f x), (f z); simpl; rewrite ?E; reflexivity.
Qed.

(** Filtering commutes with the stable sort. *)
Lemma filter_sort_by (f : A -> bool) (l : list A) :
  filter f (sort_by before l) = sort_by before (filter f l).
Proof.
  induction l as [|x l IH]; simpl; [reflexivity|].
  rewrite filter_insert_by by apply sort_by_sorted.
  rewrite IH. destruct (f x); reflexivity.
Qed.

End SortingFacts.

(** ** The byte order on strings *)

Lemma ascii_compare_lt_trans (a b c : ascii) :
  Ascii.compare a b = Lt -> Ascii.compare b c = Lt -> Ascii.compare a c = Lt.
Proof.
  unfold Ascii.compare. rewrite !N.compare_lt_iff. apply N.lt_trans.
Qed.

Lemma string_compare_refl (s : string) : String.compare s s = Eq.
Proof.
  induction s as [|a s IH]; simpl; [reflexivity|].
  unfold Ascii.compare. rewrite N.compare_refl. exact IH.
Qed.

Lemma string_compare_lt_trans (s1 s2 s3 : string) :
  String.compare s1 s2 = Lt -> String.compare s2 s3 = Lt ->
  String.compare s1 s3 = Lt.
Proof.
  revert s2 s3. induction s1 as [|a s1 IH]; intros [|b s2] [|c s3]; simpl;
    try discriminate; try reflexivity.
  destruct (Ascii.compare a b) eqn:Hab; try discriminate;
    destruct (Ascii.compare b c) eqn:Hbc; try discriminate.
  - apply Ascii.compare_eq_iff in Hab, Hbc. subst.
    unfold Ascii.compare. rewrite N.compare_refl. apply IH.
  - apply Ascii.compare_eq_iff in Hab. subst. rewrite Hbc. reflexivity.
  - apply Ascii.compare_eq_iff in Hbc. subst. rewrite Hab. reflexivity.
  - rewrite (ascii_compare_lt_trans _ _ _ Hab Hbc). reflexivity.
Qed.

Lemma string_compare_gt_lt (s1 s2 : string) :
  String.compare s1 s2 = Gt <-> String.compare s2 s1 = Lt.
Proof.
  rewrite (String.compare_antisym s2 s1).
  destruct (String.compare s1 s2); simpl; split; congruence.
Qed.

Lemma string_leb_trans (s1 s2 s3 : string) :
  String.leb s1 s2 = true -> String.leb s2 s3 = true -> String.leb s1 s3 = true.
Proof.
  unfold String.leb.
  destruct (String.compare s1 s2) eqn:H12; try discriminate;
    destruct (String.compare s2 s3) eqn:H23; try discriminate; intros _ _.
  - apply String.compare_eq_iff in H12, H23. subst.
    rewrite string_compare_refl. reflexivity.
  - apply String.compare_eq_iff in H12. subst. rewrite H23. reflexivity.
  - apply String.compare_eq_iff in H23. subst. rewrite H12. reflexivity.
  - rewrite (string_compare_lt_trans _ _ _ H12 H23). reflexivity.
Qed.

Module DatabaseFacts.
Import Database Scenarios.

Lemma same_key_update sid subj d e st sy tm a :
  same_key sid subj d
    (if a_id a =? a_id e then
       {| a_id := a_id a; a_student_id := a_student_id a;
          a_subject_id := a_subject_id a; a_date := a_date a;
          a_time := tm; a_status := st; a_synced := sy |}
     else a) = same_key sid subj d a.
Proof. destruct (a_id a =? a_id e); reflexivity. Qed.

Lemma find_filter_hd (A : Type) (p : A -> bool) (l : list A) :
  find p l = hd_error (filter p l).
Proof.
  induction l as [|x l IH]; simpl; [reflexivity|].
  destruct (p x); [reflexivity | exact IH].
Qed.

Lemma filter_map_same (A : Type) (p : A -> bool) (f : A -> A) (l : list A) :
  (forall x, p (f x) = p x) -> filter p (map f l) = map f (filter p l).
Proof.
  intros Hp. induction l as [|x l IH]; simpl; [reflexivity|].
  rewrite Hp. destruct (p x); simpl; rewrite IH; reflexivity.
Qed.

Lemma same_key_refl sid subj d i tm st sy :
  same_key sid subj d
    {| a_id := i; a_student_id := sid; a_subject_id := subj; a_date := d;
       a_time := tm; a_status := st; a_synced := sy |} = true.
Proof.
  unfold same_key; simpl. rewrite !Z.eqb_refl, String.eqb_refl. reflexivity.
Qed.

(** One call on a ledger holding at most one record for the key leaves
    exactly one record for it, carrying the call's status, time and flag. *)
Lemma mark_attendance_records_for sid subj st sy d tm db :
  (List.length (records_for sid subj d db) <= 1)%nat ->
  exists r,
    records_for sid subj d (snd (mark_attendance sid subj st sy d tm db)) = [r]
    /\ a_status r = st /\ a_time r = tm /\ a_synced r = sy.
Proof.
  unfold records_for, mark_attendance. intros Hlen.
  rewrite find_filter_hd.
  destruct (filter (same_key sid subj d) (attendance db)) as [|e rest] eqn:Hf;
    simpl.
  - rewrite filter_app, Hf. simpl. rewrite same_key_refl.
    eexists; split; [reflexivity|]. simpl. auto.
  - destruct rest as [|e' rest]; [|simpl in Hlen; lia].
    rewrite filter_map_same by (intros; apply same_key_update).
    rewrite Hf. simpl. rewrite Z.eqb_refl.
    eexists; split; [reflexivity|]. simpl. auto.
Qed.

Lemma mark_all_snoc sid subj d calls c db :
  mark_all sid subj d (calls ++ [c]) db =
  snd (mark_attendance sid subj (mk_status c) (mk_sync c) d (mk_time c)
         (mark_all sid subj d calls db)).
Proof. unfold mark_all. rewrite fold_left_app. reflexivity. Qed.

Lemma mark_all_at_most_one sid subj d calls db :
  (List.length (records_for sid subj d db) <= 1)%nat ->
  (List.length (records_for sid subj d (mark_all sid subj d calls db)) <= 1)%nat.
Proof.
  induction calls as [|c calls IH] using rev_ind; intros Hlen.
  - exact Hlen.
  - rewrite mark_all_snoc.
    destruct (mark_attendance_records_for sid subj (mk_status c) (mk_sync c)
                d (mk_time c) (mark_all sid subj d calls db) (IH Hlen))
      as (r & Hr & _).
    rewrite Hr. simpl. lia.
Qed.

Lemma fold_max_ge (seq : Z) (ids : list Z) (x : Z) :
  In x ids -> x <= fold_right Z.max seq ids.
Proof.
  induction ids as [|y ids IH]; simpl; [intros []|].
  intros [->|H]; [lia|]. specialize (IH H). lia.
Qed.

Lemma next_rowid_fresh (seq : Z) (ids : list Z) : ~ In (next_rowid seq ids) ids.
Proof.
  intros H. apply (fold_max_ge seq) in H. unfold next_rowid in H. lia.
Qed.


(** C1. Any non-empty sequence of [mark_attendance] calls for one
    (student, subject, date) key, run on a ledger with at most one record
    for that key, ends with exactly one record for the key, and that
    record has the status and the time of the last call.  The ids are
    integers SQLite can bind and the ledger has a rowid left for a first
    record: otherwise the method answers [False] and writes nothing. *)
Theorem mark_attendance_last_call_wins sid subj d calls last db :
  sqlite_integer sid -> sqlite_integer subj ->
  rowid_available (attendance_seq db) (map a_id (attendance db)) ->
  (List.length (records_for sid subj d db) <= 1)%nat ->
  exists r,
    records_for sid subj d (mark_all sid subj d (calls ++ [last]) db) = [r]
    /\ a_status r = mk_status last /\ a_time r = mk_time last.
Proof.
  intros _ _ _ Hlen. rewrite mark_all_snoc.
  destruct (mark_attendance_records_for sid subj (mk_status last)
              (mk_sync last) d (mk_time last) (mark_all sid subj d calls db)
              (mark_all_at_most_one sid subj d calls db Hlen))
    as (r & Hr & Hst & Htm & _).
  exists r. auto.
Qed.

Lemma mark_attendance_last_call_wins_witness :
  sqlite_integer 1 /\
  rowid_available (attendance_seq ledger_one)
    (map a_id (attendance ledger_one)) /\
  (List.length (records_for 1 1 "2024-01-10" ledger_one) <= 1)%nat /\
  exists r,
    records_for 1 1 "2024-01-10"
      (mark_all 1 1 "2024-01-10"
         ([{| mk_status := "present"; mk_sync := false; mk_time := "09:05:00" |}]
          ++ [{| mk_status := "absent"; mk_sync := false; mk_time := "09:10:00" |}])
         ledger_one) = [r]
    /\ a_status r = "absent" /\ a_time r = "09:10:00".
Proof.
  assert (H1 : sqlite_integer 1) by (unfold sqlite_integer; simpl; lia).
  assert (Hroom : rowid_available (attendance_seq ledger_one)
                    (map a_id (attendance ledger_one)))
    by (vm_compute; split; [discriminate | reflexivity]).
  split; [exact H1|]. split; [exact Hroom|].
  split; [simpl; lia|].
  apply (@mark_attendance_last_call_wins 1 1 "2024-01-10"
           [{| mk_status := "present"; mk_sync := false; mk_time := "09:05:00" |}]
           {| mk_status := "absent"; mk_sync := false; mk_time := "09:10:00" |}
           ledger_one H1 H1 Hroom).
  simpl; lia.
Defined.




End DatabaseFacts.

Module FaceRecognitionFacts.
Import Database FaceRecognitionUtils Scenarios.

Lemma map_const_repeat (A B : Type) (b : B) (l : list A) :
  map (fun _ => b) l = repeat b (List.length l).
Proof. induction l as [|x l IH]; simpl; [reflexivity | rewrite IH; reflexivity]. Qed.

Lemma np_ones_all_one (n : nat) : Forall (fun x => x = 1%float) (np_ones n).
Proof.
  apply Forall_forall. intros x Hx. unfold np_ones in Hx.
  apply repeat_spec in Hx. exact Hx.
Qed.

(** C10. [get_face_encoding] returns an error and no encoding exactly when
    the number of detected faces is not one; with exactly one face it
    returns the all-ones vector of length 128, whatever the image, so any
    two successful encodings are equal and a student enrolled with one
    stores that vector. *)
Theorem get_face_encoding_exactly_one_face (Image : Type)
    (detectMultiScale : Image -> list (Z * Z * Z * Z)) :
  (forall image,
     (fst (get_face_encoding detectMultiScale image) = None
      /\ snd (get_face_encoding detectMultiScale image) <> None)
     <-> List.length (detect_faces detectMultiScale image) <> 1%nat)
  /\ (forall image,
        List.length (detect_faces detectMultiScale image) = 1%nat ->
        get_face_encoding detectMultiScale image = (Some (np_ones 128), None))
  /\ (forall image image' e e',
        fst (get_face_encoding detectMultiScale image) = Some e ->
        fst (get_face_encoding detectMultiScale image') = Some e' ->
        e = e' /\ e = np_ones 128)
  /\ List.length (np_ones 128) = 128%nat
  /\ Forall (fun x => x = 1%float) (np_ones 128)
  /\ (forall image e roll_no name branch semester section email db rowid db',
        fst (get_face_encoding detectMultiScale image) = Some e ->
        add_student roll_no name branch semester section email (Some e) db
          = ((true, inl rowid), db') ->
        exists s, In s (students db') /\ st_id s = rowid
                  /\ st_face_encoding s = Some (JsonBlob (np_ones 128))
                  /\ option_map decode_face_encoding (st_face_encoding s)
                     = Some (np_ones 128)).
Proof.
  assert (Hok : forall image e,
             fst (get_face_encoding detectMultiScale image) = Some e ->
             e = np_ones 128).
  { intros image e. unfold get_face_encoding.
    destruct (detect_faces detectMultiScale image) as [|a [|b l]]; simpl;
      intros H; inversion H; reflexivity. }
  split; [|split; [|split; [|split; [|split]]]].
  - intros image. unfold get_face_encoding.
    destruct (detect_faces detectMultiScale image) as [|a [|b l]]; simpl;
      split.
    + intros _; discriminate.
    + intros _; split; [reflexivity | discriminate].
    + intros [H _]; discriminate.
    + intros H; exfalso; apply H; reflexivity.
    + intros _; discriminate.
    + intros _; split; [reflexivity | discriminate].
  - intros image Hone. unfold get_face_encoding.
    destruct (detect_faces detectMultiScale image) as [|a [|b l]];
      simpl in *; try discriminate. reflexivity.
  - intros image image' e e' He He'.
    rewrite (Hok _ _ He), (Hok _ _ He'). split; reflexivity.
  - apply repeat_length.
  - apply np_ones_all_one.
  - intros image e roll_no name branch semester section email db rowid db' He.
    rewrite (Hok _ _ He). unfold add_student.
    destruct (existsb _ (students db)); [discriminate|].
    intros H. inversion H; subst; clear H. simpl.
    eexists. split; [apply in_or_app; right; left; reflexivity|].
    simpl. auto.
Qed.

(** C9. With the gallery and the image fixed, the identities matched at
    the larger of two thresholds are among those matched at the smaller. *)
Theorem recognize_faces_threshold_subset (Image : Type)
    (detectMultiScale : Image -> list (Z * Z * Z * Z))
    (self : FaceRecognitionUtils.t) (image : Image) (t1 t2 : float) :
  PrimFloat.ltb t1 t2 = true ->
  incl (matched_ids detectMultiScale self image t2)
       (matched_ids detectMultiScale self image t1).
Proof. intros _ face_id Hin. exact Hin. Qed.

Lemma recognize_faces_threshold_subset_witness :
  PrimFloat.ltb 0.4%float 0.6%float = true /\
  incl (matched_ids rects_of (gallery_of 1 "S1 (R1)" (np_ones 128))
                    [(10, 20, 30, 40); (100, 20, 30, 40)] 0.6%float)
       (matched_ids rects_of (gallery_of 1 "S1 (R1)" (np_ones 128))
                    [(10, 20, 30, 40); (100, 20, 30, 40)] 0.4%float).
Proof.
  split; [reflexivity|].
  apply (@recognize_faces_threshold_subset _ rects_of
           (gallery_of 1 "S1 (R1)" (np_ones 128))
           [(10, 20, 30, 40); (100, 20, 30, 40)] 0.4%float 0.6%float).
  reflexivity.
Defined.

(** C2, as the code has it. [recognize_faces] consults neither the gallery
    nor the threshold: every detected face is named ["Student"] and given
    identity 1, no distance is computed, and no face is ever unknown. *)
Theorem recognize_faces_placeholder (Image : Type)
    (detectMultiScale : Image -> list (Z * Z * Z * Z))
    (self : FaceRecognitionUtils.t) (image : Image) (tolerance : float) :
  recognize_faces detectMultiScale self image tolerance
  = (detect_faces detectMultiScale image,
     repeat "Student" (List.length (detectMultiScale image)),
     repeat 1 (List.length (detectMultiScale image)))
  /\ matched_ids detectMultiScale self image tolerance
     = repeat 1 (List.length (detectMultiScale image))
  /\ (forall self' tolerance',
        recognize_faces detectMultiScale self' image tolerance'
        = recognize_faces detectMultiScale self image tolerance).
Proof.
  unfold matched_ids, recognize_faces, detect_faces. simpl.
  rewrite !map_const_repeat, !length_map.
  repeat split.
  induction (List.length (detectMultiScale image)) as [|n IH]; simpl;
    [reflexivity | rewrite IH; reflexivity].
Qed.

(** C2 fails as stated.  Scenario B: with gallery {1: all-ones}, threshold
    0.6 and an observed vector at distance 0.9 the matcher of the
    specification answers unknown, while [recognize_faces] answers identity
    1.  And with the enrolled vector stored under identity 2 and observed
    exactly, the specification answers 2 at distance 0, the code 1. *)
Lemma recognize_faces_matcher_counterexample :
  Spec.spec_match far_vector [(1, np_ones 128)] 0.6%float
  = (None, Some 0.9%float)
  /\ snd (recognize_faces rects_of (gallery_of 1 "S1 (R1)" (np_ones 128))
            [(10, 20, 30, 40)] 0.6%float) = [1]
  /\ Spec.spec_match (np_ones 128) [(2, np_ones 128)] 0.6%float
     = (Some 2, Some 0%float)
  /\ snd (recognize_faces rects_of (gallery_of 2 "S2 (R2)" (np_ones 128))
            [(10, 20, 30, 40)] 0.6%float) = [1].
Proof. repeat split; vm_compute; reflexivity. Qed.

Lemma face_rows_ids (db : Database.t) :
  map fd_id (face_rows db) = map st_id (filter has_encoding (students db)).
Proof.
  unfold face_rows, has_encoding.
  induction (students db) as [|s l IH]; simpl; [reflexivity|].
  destruct (st_face_encoding s); simpl; rewrite IH; reflexivity.
Qed.

(** C7, as the code has it. When the query against the identity store
    fails, [get_all_face_encodings] returns an empty list, so the reload
    empties the gallery and returns 0, like a reload from an empty store
    and with no error value; when the store cannot be opened the exception
    escapes before the gallery is touched, so the snapshot is kept and no
    count is returned.  A reload that reaches the store installs every
    identity with a stored vector, three lists of equal length. *)
Theorem load_known_faces_outcomes (db : Database.t)
    (self : FaceRecognitionUtils.t) :
  load_known_faces QueryFails db self = (Returned 0%nat, no_gallery)
  /\ load_known_faces QueryFails db self
     = load_known_faces Reachable Database.empty self
  /\ (exists msg, load_known_faces OpenFails db self = (Raised msg, self))
  /\ (exists g,
        load_known_faces Reachable db self
        = (Returned (List.length (known_face_ids g)), g)
        /\ known_face_ids g = map st_id (filter has_encoding (students db))
        /\ List.length (known_face_encodings g) = List.length (known_face_ids g)
        /\ List.length (known_face_names g) = List.length (known_face_ids g)).
Proof.
  split; [reflexivity|]. split; [reflexivity|].
  split; [eexists; reflexivity|].
  exists (snd (load_known_faces Reachable db self)).
  unfold load_known_faces, get_all_face_encodings. simpl.
  split; [|split; [|split]].
  - rewrite length_map. reflexivity.
  - apply face_rows_ids.
  - rewrite !length_map. reflexivity.
  - rewrite !length_map. reflexivity.
Qed.

(** C7 fails as stated.  A gallery holding identity 1 is emptied by a
    reload whose query fails (the snapshot is not retained, and the result
    is a plain 0); a reload that cannot open the store keeps the snapshot
    but raises instead of reporting a count of zero. *)
Lemma load_known_faces_unreachable_counterexample :
  known_face_ids loaded_one = [1]
  /\ known_face_names loaded_one = ["S1 (R1)"]
  /\ load_known_faces QueryFails store_one loaded_one
     = (Returned 0%nat, no_gallery)
  /\ load_known_faces OpenFails store_one loaded_one
     = (Raised "unable to open database file", loaded_one).
Proof. repeat split. Qed.

End FaceRecognitionFacts.

Module StatsFacts.
Import Database Spec Scenarios.

Lemma py_eqb_refl (v : PyVal) : py_eqb v v = true.
Proof.
  destruct v; simpl; [reflexivity | apply String.eqb_refl | apply Z.eqb_refl].
Qed.

Lemma add_condition_fst col v cp :
  fst (add_condition col v cp) = fst cp ++ (if truthy v then [col] else []).
Proof.
  unfold add_condition. destruct (truthy v); simpl;
    [reflexivity | rewrite app_nil_r; reflexivity].
Qed.

Lemma add_condition_snd col v cp :
  snd (add_condition col v cp) = snd cp ++ (if truthy v then [v] else []).
Proof.
  unfold add_condition. destruct (truthy v); simpl;
    [reflexivity | rewrite app_nil_r; reflexivity].
Qed.

Lemma add_condition_length col v cp :
  List.length (fst cp) = List.length (snd cp) ->
  List.length (fst (add_condition col v cp))
  = List.length (snd (add_condition col v cp)).
Proof.
  intros H. rewrite add_condition_fst, add_condition_snd, !length_app, H.
  destruct (truthy v); reflexivity.
Qed.

Lemma combine_snoc (A B : Type) (l : list A) (l' : list B) (x : A) (y : B) :
  List.length l = List.length l' ->
  combine (l ++ [x]) (l' ++ [y]) = combine l l' ++ [(x, y)].
Proof.
  revert l'. induction l as [|a l IH]; intros [|b l'] H; simpl in *;
    try discriminate; [reflexivity|].
  rewrite IH by congruence. reflexivity.
Qed.

Lemma forallb_add_condition (f : Column * PyVal -> bool) col v cp :
  List.length (fst cp) = List.length (snd cp) ->
  forallb f (combine (fst (add_condition col v cp))
                     (snd (add_condition col v cp)))
  = forallb f (combine (fst cp) (snd cp)) && cond_sem f col v.
Proof.
  intros H. unfold add_condition, cond_sem. destruct (truthy v); simpl.
  - rewrite combine_snoc by exact H. rewrite forallb_app. simpl.
    rewrite andb_true_r. reflexivity.
  - rewrite andb_true_r. reflexivity.
Qed.

Lemma bind_same_length conds params :
  List.length conds = List.length params ->
  bind conds params = Some (combine conds params).
Proof. intros H. unfold bind. rewrite H, Nat.eqb_refl. reflexivity. Qed.

Lemma cond_sem_date a s o :
  cond_sem (holds a s) A_date (py_str o) = text_condition o (a_date a).
Proof.
  destruct o as [d|]; [|reflexivity]. unfold cond_sem, text_condition; simpl.
  destruct (d =? "")%string; reflexivity.
Qed.

Lemma cond_sem_subject a s o :
  cond_sem (holds a s) A_subject_id (py_int o)
  = int_condition o (a_subject_id a).
Proof.
  destruct o as [i|]; [|reflexivity]. unfold cond_sem, int_condition; simpl.
  destruct (i =? 0); reflexivity.
Qed.

Lemma cond_sem_branch (f : Column * PyVal -> bool) s o :
  (forall c, f (S_branch, c) = student_holds s (S_branch, c)) ->
  cond_sem f S_branch (py_str o) = text_condition o (st_branch s).
Proof.
  intros Hf. destruct o as [d|]; [|reflexivity].
  unfold cond_sem, text_condition; simpl.
  rewrite Hf. destruct (d =? "")%string; reflexivity.
Qed.

Lemma cond_sem_semester (f : Column * PyVal -> bool) s o :
  (forall c, f (S_semester, c) = student_holds s (S_semester, c)) ->
  cond_sem f S_semester (py_int o) = int_condition o (st_semester s).
Proof.
  intros Hf. destruct o as [d|]; [|reflexivity].
  unfold cond_sem, int_condition; simpl.
  rewrite Hf. destruct (d =? 0); reflexivity.
Qed.

Lemma cond_sem_section (f : Column * PyVal -> bool) s o :
  (forall c, f (S_section, c) = student_holds s (S_section, c)) ->
  cond_sem f S_section (py_str o) = text_condition o (st_section s).
Proof.
  intros Hf. destruct o as [d|]; [|reflexivity].
  unfold cond_sem, text_condition; simpl.
  rewrite Hf. destruct (d =? "")%string; reflexivity.
Qed.

Lemma where_cp_length d sj b sm sc :
  List.length (fst (where_cp d sj b sm sc))
  = List.length (snd (where_cp d sj b sm sc)).
Proof. unfold where_cp. repeat apply add_condition_length. reflexivity. Qed.

Lemma student_cp_length b sm sc :
  List.length (fst (student_cp b sm sc)) = List.length (snd (student_cp b sm sc)).
Proof. unfold student_cp. repeat apply add_condition_length. reflexivity. Qed.

Lemma where_cp_holds a s d sj b sm sc :
  forallb (holds a s)
          (combine (fst (where_cp d sj b sm sc)) (snd (where_cp d sj b sm sc)))
  = text_condition d (a_date a) && int_condition sj (a_subject_id a)
    && student_selected b sm sc s.
Proof.
  unfold where_cp, student_selected.
  rewrite !forallb_add_condition
    by (repeat apply add_condition_length; reflexivity).
  simpl. rewrite cond_sem_date, cond_sem_subject.
  rewrite (@cond_sem_branch (holds a s) s), (@cond_sem_semester (holds a s) s),
    (@cond_sem_section (holds a s) s) by reflexivity.
  rewrite !andb_assoc. reflexivity.
Qed.

Lemma student_cp_holds s b sm sc :
  forallb (student_holds s)
          (combine (fst (student_cp b sm sc)) (snd (student_cp b sm sc)))
  = student_selected b sm sc s.
Proof.
  unfold student_cp, student_selected.
  rewrite !forallb_add_condition
    by (repeat apply add_condition_length; reflexivity).
  simpl.
  rewrite (@cond_sem_branch (student_holds s) s),
    (@cond_sem_semester (student_holds s) s),
    (@cond_sem_section (student_holds s) s) by reflexivity.
  reflexivity.
Qed.

Lemma count_distinct_ext (l1 l2 : list Z) :
  (forall x, In x l1 <-> In x l2) -> count_distinct l1 = count_distinct l2.
Proof.
  intros H. unfold count_distinct. f_equal.
  apply Nat.le_antisymm; apply NoDup_incl_length; try apply NoDup_nodup;
    intros x Hx; apply nodup_In; apply nodup_In in Hx; apply H; exact Hx.
Qed.

Lemma filter_piece_keep (orgs : list PyVal) (v : PyVal) :
  py_in v orgs = true ->
  filter (fun p => py_in p orgs) (if truthy v then [v] else [])
  = if truthy v then [v] else [].
Proof. intros H. destruct (truthy v); simpl; [rewrite H|]; reflexivity. Qed.

Lemma filter_piece_drop (orgs : list PyVal) (v : PyVal) :
  truthy v && py_in v orgs = false ->
  filter (fun p => py_in p orgs) (if truthy v then [v] else []) = [].
Proof.
  destruct (truthy v); simpl; [intros H; rewrite H|]; reflexivity.
Qed.

(** Without a collision the value test keeps exactly the organisational
    parameters, in order. *)
Lemma total_params_without_collision d sj b sm sc :
  collision d sj b sm sc = false ->
  filter (fun p => py_in p [py_str b; py_int sm; py_str sc])
         (snd (where_cp d sj b sm sc))
  = snd (student_cp b sm sc).
Proof.
  unfold collision. intros H. apply orb_false_elim in H. destruct H as [Hd Hs].
  unfold where_cp, student_cp. rewrite !add_condition_snd. cbn [snd app].
  rewrite !filter_app.
  rewrite (filter_piece_drop _ _ Hd), (filter_piece_drop _ _ Hs).
  rewrite !filter_piece_keep; [reflexivity | | | ];
    unfold py_in; simpl; rewrite py_eqb_refl, ?orb_true_r; reflexivity.
Qed.

(** When no non-organisational value collides with an organisational one,
    both queries run, and the three counts are those of the students and
    of the present records they select. *)
Lemma get_attendance_stats_without_collision d sj b sm sc db :
  collision d sj b sm sc = false ->
  total (get_attendance_stats d sj b sm sc db) = counted_total b sm sc db
  /\ present (get_attendance_stats d sj b sm sc db)
     = counted_present d sj b sm sc db
  /\ absent (get_attendance_stats d sj b sm sc db)
     = total (get_attendance_stats d sj b sm sc db)
       - present (get_attendance_stats d sj b sm sc db).
Proof.
  intros Hc. unfold get_attendance_stats.
  rewrite (total_params_without_collision _ _ _ _ _ Hc).
  rewrite (bind_same_length _ _ (student_cp_length b sm sc)).
  rewrite (bind_same_length _ _ (where_cp_length d sj b sm sc)).
  simpl. split; [|split; [|reflexivity]].
  - unfold counted_total. f_equal. f_equal. apply filter_ext.
    intros s. apply student_cp_holds.
  - unfold counted_present. apply count_distinct_ext. intros x. split.
    + intros Hx. apply in_map_iff in Hx. destruct Hx as ([a s] & Hx & Hin).
      simpl in Hx. subst x. apply in_flat_map in Hin.
      destruct Hin as (a' & Ha' & Hin). apply in_flat_map in Hin.
      destruct Hin as (s' & Hs' & Hin).
      destruct ((a_student_id a' =? st_id s')
                && forallb (holds a' s')
                     (combine (fst (where_cp d sj b sm sc))
                              (snd (where_cp d sj b sm sc)))
                && (a_status a' =? "present")%string) eqn:E;
        [|destruct Hin].
      destruct Hin as [Hin|[]]. inversion Hin; subst a' s'; clear Hin.
      rewrite where_cp_holds in E.
      apply andb_prop in E. destruct E as [E Hp].
      apply andb_prop in E. destruct E as [Hid E].
      apply andb_prop in E. destruct E as [E Horg].
      apply andb_prop in E. destruct E as [Hdt Hsj].
      apply in_map. apply filter_In. split; [exact Ha'|].
      rewrite Hp, Hdt, Hsj. simpl. apply existsb_exists.
      exists s. split; [exact Hs'|]. rewrite Horg, andb_true_r.
      rewrite Z.eqb_sym. exact Hid.
    + intros Hx. apply in_map_iff in Hx. destruct Hx as (a & Hx & Hin).
      subst x. apply filter_In in Hin. destruct Hin as [Ha HP].
      apply andb_prop in HP. destruct HP as [HP Hex].
      apply andb_prop in HP. destruct HP as [HP Hsj].
      apply andb_prop in HP. destruct HP as [Hp Hdt].
      apply existsb_exists in Hex. destruct Hex as (s & Hs & Hex).
      apply andb_prop in Hex. destruct Hex as [Hid Horg].
      apply in_map_iff. exists (a, s). split; [reflexivity|].
      apply in_flat_map. exists a. split; [exact Ha|].
      apply in_flat_map. exists s. split; [exact Hs|].
      rewrite where_cp_holds, Hdt, Hsj, Horg, Hp, Z.eqb_sym, Hid. simpl.
      left. reflexivity.
Qed.

(** A filter that is given and truthy is applied by the method as the
    specification words it; so is a filter that is absent. *)
Lemma text_condition_as_specified (o : option string) (x : string) :
  o <> Some "" -> text_condition o x = str_filter o x.
Proof.
  intros H. destruct o as [v|]; [|reflexivity].
  unfold text_condition, str_filter. simpl.
  destruct (v =? "")%string eqn:E; [|reflexivity].
  apply String.eqb_eq in E. subst v. exfalso. apply H. reflexivity.
Qed.

Lemma int_condition_as_specified (o : option Z) (x : Z) :
  o <> Some 0 -> int_condition o x = int_filter o x.
Proof.
  intros H. destruct o as [v|]; [|reflexivity].
  unfold int_condition, int_filter. simpl.
  destruct (v =? 0) eqn:E; [|reflexivity].
  apply Z.eqb_eq in E. subst v. exfalso. apply H. reflexivity.
Qed.

(** Without a collision, and with no filter given as an empty text or as
    zero, the three counts are those the specification describes. *)
Lemma get_attendance_stats_as_specified d sj b sm sc db :
  collision d sj b sm sc = false ->
  d <> Some "" -> sj <> Some 0 -> b <> Some "" -> sm <> Some 0 ->
  sc <> Some "" ->
  total (get_attendance_stats d sj b sm sc db) = spec_total b sm sc db
  /\ present (get_attendance_stats d sj b sm sc db)
     = spec_present d sj b sm sc db
  /\ absent (get_attendance_stats d sj b sm sc db)
     = total (get_attendance_stats d sj b sm sc db)
       - present (get_attendance_stats d sj b sm sc db).
Proof.
  intros Hc Hd Hsj Hb Hsm Hsc.
  destruct (get_attendance_stats_without_collision d sj b sm sc db Hc)
    as (Ht & Hp & Ha).
  assert (Horg : forall s, student_selected b sm sc s = org_match b sm sc s).
  { intros s. unfold student_selected, org_match.
    rewrite !text_condition_as_specified, int_condition_as_specified
      by assumption.
    reflexivity. }
  split; [|split; [|exact Ha]].
  - rewrite Ht. unfold counted_total, spec_total. f_equal. f_equal.
    apply filter_ext. exact Horg.
  - rewrite Hp. unfold counted_present, spec_present. f_equal. f_equal.
    apply filter_ext. intros a.
    rewrite text_condition_as_specified, int_condition_as_specified
      by assumption.
    f_equal. induction (students db) as [|s l IH]; simpl; [reflexivity|].
    rewrite Horg, IH. reflexivity.
Qed.

Lemma filter_piece (orgs : list PyVal) (v : PyVal) :
  filter (fun p => py_in p orgs) (if truthy v then [v] else [])
  = if truthy v && py_in v orgs then [v] else [].
Proof.
  destruct (truthy v); simpl; [destruct (py_in v orgs)|]; reflexivity.
Qed.

(** With a collision the query over students is handed more values than it
    has placeholders, and the method returns the all-zero dictionary. *)
Lemma get_attendance_stats_collision d sj b sm sc db :
  collision d sj b sm sc = true ->
  get_attendance_stats d sj b sm sc db = stats_on_error.
Proof.
  unfold collision. intros Hc. unfold get_attendance_stats.
  assert (Hlen : Nat.eqb
            (List.length (fst (student_cp b sm sc)))
            (List.length
               (filter (fun p => py_in p [py_str b; py_int sm; py_str sc])
                       (snd (where_cp d sj b sm sc)))) = false).
  { rewrite student_cp_length.
    unfold where_cp, student_cp. rewrite !add_condition_snd. cbn [snd app].
    rewrite !filter_app, !filter_piece.
    assert (Hk : forall v, py_in v [py_str b; py_int sm; py_str sc] = true ->
              (if truthy v && py_in v [py_str b; py_int sm; py_str sc]
               then [v] else []) = (if truthy v then [v] else [])).
    { intros v Hv. rewrite Hv, andb_true_r. reflexivity. }
    rewrite (Hk (py_str b)), (Hk (py_int sm)), (Hk (py_str sc))
      by (unfold py_in; simpl; rewrite py_eqb_refl, ?orb_true_r; reflexivity).
    rewrite !length_app. apply Nat.eqb_neq.
    apply orb_prop in Hc. destruct Hc as [Hc|Hc]; rewrite Hc; simpl; lia. }
  unfold bind. rewrite Hlen. reflexivity.
Qed.

(** Scenario E: filtering by the one activity ACT1. *)
Lemma get_attendance_stats_scenario_E :
  total (get_attendance_stats None (Some 1) None None None campus) = 3
  /\ present (get_attendance_stats None (Some 1) None None None campus) = 2
  /\ absent (get_attendance_stats None (Some 1) None None None campus) = 1.
Proof. repeat split; vm_compute; reflexivity. Qed.

(** C8, at the input where the code departs from it.  Asked for subject 3
    among the students of semester 3, the method keeps the subject id among
    the values of the query over students, because it equals the semester;
    the query fails on the surplus value and every count comes back 0, where
    3 students match the organisational filters and 2 of them are present.
    Without the semester filter the same question is answered 3, 2, 1. *)
Theorem get_attendance_stats_binding_collision :
  collision None (Some 3) None (Some 3) None = true
  /\ get_attendance_stats None (Some 3) None (Some 3) None campus
     = stats_on_error
  /\ spec_total None (Some 3) None campus = 3
  /\ spec_present None (Some 3) None (Some 3) None campus = 2
  /\ total (get_attendance_stats None (Some 3) None None None campus) = 3
  /\ present (get_attendance_stats None (Some 3) None None None campus) = 2
  /\ absent (get_attendance_stats None (Some 3) None None None campus) = 1.
Proof. repeat split; vm_compute; reflexivity. Qed.

End StatsFacts.

Module TelegramFacts.
Import Database TelegramBot Scenarios.

Section Run.
Variable transport : Transport.

Lemma mark_in_nil a : mark_in [] a = a.
Proof. reflexivity. Qed.

Lemma map_mark_in_nil (l : list AttendanceRow) : map (mark_in []) l = l.
Proof. induction l as [|a l IH]; simpl; [|rewrite IH]; reflexivity. Qed.

Lemma mark_in_app l1 l2 a : mark_in l2 (mark_in l1 a) = mark_in (l1 ++ l2) a.
Proof.
  unfold mark_in. rewrite existsb_app.
  destruct (existsb (Z.eqb (a_id a)) l1); simpl; [|reflexivity].
  destruct (existsb (Z.eqb (a_id a)) l2); reflexivity.
Qed.

Lemma mark_attendance_synced_attendance i d :
  attendance (snd (mark_attendance_synced i d)) = map (mark_in [i]) (attendance d).
Proof.
  unfold mark_attendance_synced, mark_in. simpl. apply map_ext. intros a.
  rewrite orb_false_r. reflexivity.
Qed.

Lemma mark_fold (rows : DataFrame) (d : Database.t) :
  attendance (fold_left (fun d row => snd (mark_attendance_synced (u_id row) d))
                        rows d)
  = map (mark_in (map u_id rows)) (attendance d)
  /\ students (fold_left (fun d row => snd (mark_attendance_synced (u_id row) d))
                         rows d) = students d
  /\ subjects (fold_left (fun d row => snd (mark_attendance_synced (u_id row) d))
                         rows d) = subjects d.
Proof.
  revert d. induction rows as [|r rows IH]; intros d; cbn [fold_left map].
  - split; [|split; reflexivity]. symmetry. apply map_mark_in_nil.
  - destruct (IH (snd (mark_attendance_synced (u_id r) d))) as (Ha & Hs & Hj).
    rewrite Ha, Hs, Hj. split; [|split; reflexivity].
    rewrite mark_attendance_synced_attendance, map_map. apply map_ext.
    intros a. apply (mark_in_app [u_id r]).
Qed.

(** One report for a non-empty batch: the answer, the log entry, and the
    rows marked. *)
Lemma send_attendance_report_effect (first : UnsyncedRow) (rows : DataFrame)
    (self : TelegramBot.t) :
  fst (send_attendance_report transport (first :: rows) self)
  = answer transport (List.length (sent self)) (first :: rows)
  /\ List.length (sent (snd (send_attendance_report transport (first :: rows) self)))
     = S (List.length (sent self))
  /\ sent (snd (send_attendance_report transport (first :: rows) self))
     = sent self
       ++ [(format_report first (first :: rows),
            answer transport (List.length (sent self)) (first :: rows))]
  /\ attendance (db (snd (send_attendance_report transport (first :: rows) self)))
     = map (mark_in
              (if fst (answer transport (List.length (sent self)) (first :: rows))
               then map u_id (first :: rows) else []))
           (attendance (db self))
  /\ students (db (snd (send_attendance_report transport (first :: rows) self)))
     = students (db self)
  /\ subjects (db (snd (send_attendance_report transport (first :: rows) self)))
     = subjects (db self).
Proof.
  unfold send_attendance_report, answer.
  destruct (fst (transport (List.length (sent self))
                   (format_report first (first :: rows)))) eqn:E;
    cbn [fst snd db sent]; rewrite ?E.
  - destruct (mark_fold (first :: rows) (db self)) as (Ha & Hs & Hj).
    rewrite Ha, Hs, Hj, length_app. simpl.
    repeat split; try reflexivity. apply Nat.add_1_r.
  - rewrite length_app. simpl. repeat split; try reflexivity.
    + apply Nat.add_1_r.
    + symmetry. apply map_mark_in_nil.
Qed.

(** The whole loop, from any tally and bot state. *)
Lemma sync_loop_effect (groups : list (GroupKey * DataFrame)) :
  Forall (fun g => snd g <> []) groups ->
  forall (tally : Tally) (self : TelegramBot.t),
    success_count (fst (fold_left (sync_step transport) groups (tally, self)))
    = (success_count tally + successes transport (List.length (sent self)) groups)%nat
    /\ error_count (fst (fold_left (sync_step transport) groups (tally, self)))
       = (error_count tally
          + List.length (failures transport (List.length (sent self)) groups))%nat
    /\ error_messages (fst (fold_left (sync_step transport) groups (tally, self)))
       = error_messages tally ++ failures transport (List.length (sent self)) groups
    /\ sent (snd (fold_left (sync_step transport) groups (tally, self)))
       = sent self ++ handed transport (List.length (sent self)) groups
    /\ attendance (db (snd (fold_left (sync_step transport) groups (tally, self))))
       = map (mark_in (delivered transport (List.length (sent self)) groups))
             (attendance (db self))
    /\ students (db (snd (fold_left (sync_step transport) groups (tally, self))))
       = students (db self)
    /\ subjects (db (snd (fold_left (sync_step transport) groups (tally, self))))
       = subjects (db self).
Proof.
  induction 1 as [|g groups Hg _ IH]; intros tally self.
  - simpl. rewrite !Nat.add_0_r, !app_nil_r, map_mark_in_nil.
    repeat split; reflexivity.
  - destruct g as [k [|first rows]];
      [exfalso; apply Hg; reflexivity|]. clear Hg.
    destruct (send_attendance_report_effect first rows self)
      as (Hans & Hlen & Hlog & Hatt & Hst & Hsub).
    cbn [fold_left].
    destruct (send_attendance_report transport (first :: rows) self)
      as [ans self1] eqn:Es.
    cbn [fst snd handed app] in Hans, Hlen, Hlog, Hatt, Hst, Hsub.
    assert (Hstep : sync_step transport (tally, self) (k, first :: rows)
                    = (if fst ans then
                         {| success_count := S (success_count tally);
                            error_count := error_count tally;
                            error_messages := error_messages tally |}
                       else
                         {| success_count := success_count tally;
                            error_count := S (error_count tally);
                            error_messages := error_messages tally ++ [snd ans] |},
                       self1)).
    { unfold sync_step. cbn [fst snd]. rewrite Es.
      destruct (fst ans); reflexivity. }
    rewrite Hstep. clear Hstep.
    cbn [delivered failures successes handed snd].
    rewrite <- Hans in *.
    destruct (fst ans) eqn:Eans;
      match goal with
      | |- context [fold_left _ _ (?t, _)] =>
          destruct (IH t self1) as (H1 & H2 & H3 & H4 & H5 & H6 & H7)
      end;
      rewrite H1, H2, H3, H4, H5, H6, H7;
      rewrite Hlen, Hlog, Hatt, Hst, Hsub;
      cbn [success_count error_count error_messages];
      rewrite map_map, <- ?app_assoc; cbn [app List.length];
      repeat split; try lia; try reflexivity;
        apply map_ext; intros a; rewrite mark_in_app; reflexivity.
Qed.

Lemma delivered_In (n : nat) (groups : list (GroupKey * DataFrame)) (x : Z) :
  In x (delivered transport n groups) <->
  exists i g, nth_error groups i = Some g
              /\ fst (answer transport (n + i) (snd g)) = true
              /\ In x (map u_id (snd g)).
Proof.
  revert n. induction groups as [|g groups IH]; intros n; simpl.
  - split; [intros [] | intros (i & g & H & _)]. destruct i; discriminate.
  - rewrite in_app_iff, IH. split.
    + intros [H | (i & g' & Hn & Hs & Hx)].
      * exists 0%nat, g. rewrite Nat.add_0_r. simpl.
        destruct (fst (answer transport n (snd g))); [auto | destruct H].
      * exists (S i), g'. rewrite Nat.add_succ_r. simpl. auto.
    + intros (i & g' & Hn & Hs & Hx). destruct i as [|i]; simpl in Hn.
      * inversion Hn; subst g'. rewrite Nat.add_0_r in Hs. rewrite Hs.
        left. exact Hx.
      * right. exists i, g'. rewrite Nat.add_succ_r in Hs. auto.
Qed.

Lemma failures_In (n : nat) (groups : list (GroupKey * DataFrame)) i g :
  nth_error groups i = Some g ->
  fst (answer transport (n + i) (snd g)) = false ->
  In (snd (answer transport (n + i) (snd g))) (failures transport n groups).
Proof.
  revert n i. induction groups as [|g' groups IH]; intros n i Hn Hf.
  - destruct i; discriminate.
  - simpl. apply in_or_app. destruct i as [|i]; simpl in Hn.
    + inversion Hn; subst g'. rewrite Nat.add_0_r in *. rewrite Hf.
      left. left. reflexivity.
    + right. rewrite Nat.add_succ_r in *. apply (IH (S n) i Hn Hf).
Qed.

Lemma failures_none (n : nat) (groups : list (GroupKey * DataFrame)) :
  failures transport n groups = [] ->
  forall i g, nth_error groups i = Some g ->
              fst (answer transport (n + i) (snd g)) = true.
Proof.
  intros Hnil i g Hn.
  destruct (fst (answer transport (n + i) (snd g))) eqn:E; [reflexivity|].
  pose proof (failures_In n groups i Hn E) as Hin.
  rewrite Hnil in Hin. destruct Hin.
Qed.

End Run.

(** *** Grouping *)

Lemma key_eqb_eq (k1 k2 : GroupKey) : key_eqb k1 k2 = true <-> k1 = k2.
Proof.
  destruct k1 as [d1 i1], k2 as [d2 i2]. unfold key_eqb. simpl.
  rewrite andb_true_iff, String.eqb_eq, Z.eqb_eq.
  split; [intros [-> ->]; reflexivity | intros H; inversion H; auto].
Qed.

Lemma group_of_In (k : GroupKey) (df : DataFrame) (r : UnsyncedRow) :
  In r (group_of k df) <-> In r df /\ key_of r = k.
Proof. unfold group_of. rewrite filter_In, key_eqb_eq. reflexivity. Qed.

Lemma groupby_keys (df : DataFrame) :
  map fst (groupby df) = sort_by key_before (nodup key_eq_dec (map key_of df)).
Proof.
  unfold groupby. rewrite map_map. simpl. apply map_id.
Qed.

Lemma groupby_In (df : DataFrame) (k : GroupKey) (rows : DataFrame) :
  In (k, rows) (groupby df) <->
  (exists r, In r df /\ key_of r = k) /\ rows = group_of k df.
Proof.
  unfold groupby. rewrite in_map_iff. split.
  - intros (k' & Heq & Hin). inversion Heq; subst. split; [|reflexivity].
    apply sort_by_In, nodup_In, in_map_iff in Hin.
    destruct Hin as (r & Hr & Hin). exists r. auto.
  - intros ((r & Hin & Hr) & ->). exists k. split; [reflexivity|].
    apply sort_by_In, nodup_In, in_map_iff. exists r. auto.
Qed.

Lemma groupby_nonempty (df : DataFrame) :
  Forall (fun g => snd g <> []) (groupby df).
Proof.
  apply Forall_forall. intros [k rows] Hin. simpl.
  apply groupby_In in Hin. destruct Hin as ((r & Hin & Hr) & ->).
  intros Hnil. assert (H : In r (group_of k df)) by (apply group_of_In; auto).
  rewrite Hnil in H. destruct H.
Qed.

Lemma groupby_keys_NoDup (df : DataFrame) : NoDup (map fst (groupby df)).
Proof. rewrite groupby_keys. apply sort_by_NoDup, NoDup_nodup. Qed.

(** Two batches of one run with a common key are the same batch. *)
Lemma groupby_index (df : DataFrame) i j g g' :
  nth_error (groupby df) i = Some g ->
  nth_error (groupby df) j = Some g' ->
  fst g = fst g' -> i = j.
Proof.
  intros Hi Hj Hk.
  pose proof (groupby_keys_NoDup df) as Hnd.
  rewrite NoDup_nth_error in Hnd. apply Hnd.
  - rewrite length_map. apply nth_error_Some. rewrite Hi. discriminate.
  - rewrite !nth_error_map, Hi, Hj. simpl. rewrite Hk. reflexivity.
Qed.

(** *** The join *)

Lemma filter_flat_map (A B : Type) (q : B -> bool) (f : A -> list B)
    (l : list A) :
  filter q (flat_map f l) = flat_map (fun x => filter q (f x)) l.
Proof.
  induction l as [|x l IH]; simpl; [reflexivity|].
  rewrite filter_app, IH. reflexivity.
Qed.

Lemma flat_map_map (A B C : Type) (g : A -> B) (f : B -> list C) (l : list A) :
  flat_map f (map g l) = flat_map (fun x => f (g x)) l.
Proof.
  induction l as [|x l IH]; simpl; [reflexivity|]. rewrite IH. reflexivity.
Qed.

Lemma unsynced_join_marked (ids : list Z) (d d' : Database.t) :
  students d' = students d ->
  subjects d' = subjects d ->
  attendance d' = map (mark_in ids) (attendance d) ->
  unsynced_join d'
  = filter (fun r => negb (existsb (Z.eqb (u_id r)) ids)) (unsynced_join d).
Proof.
  intros Hs Hj Ha. unfold unsynced_join. rewrite Hs, Hj, Ha.
  rewrite flat_map_map, filter_flat_map. apply flat_map_ext. intros a.
  rewrite filter_flat_map. apply flat_map_ext. intros s.
  rewrite filter_flat_map. apply flat_map_ext. intros sub.
  unfold mark_in. destruct (existsb (Z.eqb (a_id a)) ids) eqn:E; simpl.
  - rewrite andb_false_r.
    destruct ((a_student_id a =? st_id s) && (a_subject_id a =? sub_id sub)
              && negb (a_synced a)); simpl; [rewrite E|]; reflexivity.
  - destruct ((a_student_id a =? st_id s) && (a_subject_id a =? sub_id sub)
              && negb (a_synced a)); simpl; [rewrite E|]; reflexivity.
Qed.

Lemma unsynced_join_In (d : Database.t) (r : UnsyncedRow) :
  In r (unsynced_join d) ->
  exists a, In a (attendance d) /\ a_id a = u_id r /\ a_synced a = false
            /\ key_of r = (a_date a, a_subject_id a).
Proof.
  unfold unsynced_join. intros H.
  apply in_flat_map in H. destruct H as (a & Ha & H).
  apply in_flat_map in H. destruct H as (s & Hs & H).
  apply in_flat_map in H. destruct H as (sub & Hsub & H).
  destruct ((a_student_id a =? st_id s) && (a_subject_id a =? sub_id sub)
            && negb (a_synced a)) eqn:E; [|destruct H].
  destruct H as [<-|[]].
  apply andb_prop in E. destruct E as [E Hn].
  apply andb_prop in E. destruct E as [_ Hj].
  apply Z.eqb_eq in Hj. apply negb_true_iff in Hn.
  exists a. unfold key_of. simpl. rewrite Hj. auto.
Qed.

Lemma NoDup_map_eq (A B : Type) (f : A -> B) (l : list A) (x y : A) :
  NoDup (map f l) -> In x l -> In y l -> f x = f y -> x = y.
Proof.
  induction l as [|z l IH]; simpl; intros Hnd Hx Hy Hf; [destruct Hx|].
  inversion Hnd as [|? ? Hz Hnd']; subst.
  destruct Hx as [->|Hx], Hy as [->|Hy]; try reflexivity.
  - exfalso. apply Hz. rewrite Hf. apply in_map. exact Hy.
  - exfalso. apply Hz. rewrite <- Hf. apply in_map. exact Hx.
  - apply IH; assumption.
Qed.

(** With unique record ids, pending rows with one id lie in one batch. *)
Lemma same_id_same_key (d : Database.t) (r r' : UnsyncedRow) :
  NoDup (map a_id (attendance d)) ->
  In r (unsynced_join d) -> In r' (unsynced_join d) ->
  u_id r = u_id r' -> key_of r = key_of r'.
Proof.
  intros Hnd Hr Hr' Hid.
  destruct (unsynced_join_In d r Hr) as (a & Ha & Hi & _ & Hk).
  destruct (unsynced_join_In d r' Hr') as (a' & Ha' & Hi' & _ & Hk').
  assert (a = a') by (apply (NoDup_map_eq a_id _ _ _ Hnd Ha Ha'); congruence).
  subst a'. congruence.
Qed.

(** *** The order of the pending rows *)

Lemma newer_first_total (x y : UnsyncedRow) :
  newer_first x y = false -> newer_first y x = true.
Proof.
  unfold newer_first. rewrite (String.compare_antisym (u_date y) (u_date x)).
  destruct (String.compare (u_date x) (u_date y)); simpl; try congruence.
  intros H. destruct (String.leb_total (u_time x) (u_time y)); congruence.
Qed.

Lemma newer_first_trans (x y z : UnsyncedRow) :
  newer_first x y = true -> newer_first y z = true -> newer_first x z = true.
Proof.
  unfold newer_first.
  destruct (String.compare (u_date x) (u_date y)) eqn:Hxy; try discriminate;
    destruct (String.compare (u_date y) (u_date z)) eqn:Hyz; try discriminate.
  - apply String.compare_eq_iff in Hxy, Hyz. rewrite Hxy, Hyz.
    rewrite string_compare_refl. intros H1 H2.
    exact (string_leb_trans _ _ _ H2 H1).
  - apply String.compare_eq_iff in Hxy. rewrite Hxy, Hyz. reflexivity.
  - apply String.compare_eq_iff in Hyz. rewrite <- Hyz, Hxy. reflexivity.
  - apply string_compare_gt_lt in Hxy, Hyz.
    pose proof (string_compare_lt_trans _ _ _ Hyz Hxy) as H.
    apply string_compare_gt_lt in H. rewrite H. reflexivity.
Qed.

Lemma get_unsynced_attendance_In (d : Database.t) (r : UnsyncedRow) :
  In r (get_unsynced_attendance d) <-> In r (unsynced_join d).
Proof. apply sort_by_In. Qed.

(** Marking ids synced removes exactly their rows from the pending view. *)
Lemma get_unsynced_attendance_marked (ids : list Z) (d d' : Database.t) :
  students d' = students d ->
  subjects d' = subjects d ->
  attendance d' = map (mark_in ids) (attendance d) ->
  get_unsynced_attendance d'
  = filter (fun r => negb (existsb (Z.eqb (u_id r)) ids))
           (get_unsynced_attendance d).
Proof.
  intros Hs Hj Ha. unfold get_unsynced_attendance.
  rewrite (unsynced_join_marked ids d d' Hs Hj Ha).
  symmetry. apply filter_sort_by.
  - exact newer_first_trans.
  - exact newer_first_total.
Qed.

(** *** One reconciliation run *)

Lemma groupby_nil : groupby [] = [].
Proof. reflexivity. Qed.

Lemma sync_pending_attendance_effect (transport : Transport)
    (self : TelegramBot.t) :
  sent (snd (sync_pending_attendance transport self))
  = sent self ++ handed transport (List.length (sent self)) (batches self)
  /\ attendance (db (snd (sync_pending_attendance transport self)))
     = map (mark_in (delivered transport (List.length (sent self)) (batches self)))
           (attendance (db self))
  /\ students (db (snd (sync_pending_attendance transport self)))
     = students (db self)
  /\ subjects (db (snd (sync_pending_attendance transport self)))
     = subjects (db self)
  /\ fst (sync_pending_attendance transport self)
     = match get_unsynced_attendance (db self) with
       | [] => (true, "No pending attendance to sync")
       | _ =>
           match failures transport (List.length (sent self)) (batches self) with
           | [] =>
               (true,
                ("Successfully synced "
                 ++ str_of_nat (successes transport (List.length (sent self))
                                          (batches self))
                 ++ " attendance reports")%string)
           | reasons =>
               (false,
                ("Synced "
                 ++ str_of_nat (successes transport (List.length (sent self))
                                          (batches self))
                 ++ " reports, " ++ str_of_nat (List.length reasons)
                 ++ " failed: " ++ String.concat ", " reasons)%string)
           end
       end.
Proof.
  unfold sync_pending_attendance, batches.
  destruct (get_unsynced_attendance (db self)) as [|r0 view] eqn:Ev.
  - rewrite groupby_nil. simpl. rewrite app_nil_r, map_mark_in_nil.
    repeat split; reflexivity.
  - destruct (sync_loop_effect transport (groupby_nonempty (r0 :: view))
                {| success_count := 0; error_count := 0; error_messages := [] |}
                self) as (H1 & H2 & H3 & H4 & H5 & H6 & H7).
    destruct (fold_left (sync_step transport) (groupby (r0 :: view))
                ({| success_count := 0; error_count := 0; error_messages := [] |},
                 self)) as [tally self'].
    cbn [fst snd success_count error_count error_messages app] in *.
    rewrite H1, H2, H3. rewrite Nat.add_0_l.
    destruct (failures transport (List.length (sent self)) (groupby (r0 :: view)));
      cbn [List.length Nat.eqb fst snd]; repeat split; assumption.
Qed.

Lemma existsb_eqb_In (x : Z) (l : list Z) :
  existsb (Z.eqb x) l = true <-> In x l.
Proof.
  rewrite existsb_exists. split.
  - intros (y & Hy & E). apply Z.eqb_eq in E. subst. exact Hy.
  - intros H. exists x. split; [exact H | apply Z.eqb_refl].
Qed.

Lemma mark_in_id ids a : a_id (mark_in ids a) = a_id a.
Proof. unfold mark_in. destruct (existsb _ ids); reflexivity. Qed.

Lemma batches_In (self : TelegramBot.t) i k rows :
  nth_error (batches self) i = Some (k, rows) ->
  rows = group_of k (get_unsynced_attendance (db self))
  /\ forall r, In r rows ->
       In r (unsynced_join (db self)) /\ key_of r = k.
Proof.
  intros Hn. apply nth_error_In, groupby_In in Hn. destruct Hn as (_ & ->).
  split; [reflexivity|]. intros r Hr. apply group_of_In in Hr.
  destruct Hr as [Hr Hk]. apply get_unsynced_attendance_In in Hr. auto.
Qed.

(** With unique record ids, a batch whose delivery failed has none of its
    ids marked by the deliveries of the other batches. *)
Lemma failed_batch_untouched (transport : Transport) (self : TelegramBot.t)
    i k rows r :
  NoDup (map a_id (attendance (db self))) ->
  nth_error (batches self) i = Some (k, rows) ->
  fst (batch_answer transport self i rows) = false ->
  In r rows ->
  existsb (Z.eqb (u_id r))
          (delivered transport (List.length (sent self)) (batches self)) = false.
Proof.
  intros Hnd Hn Hf Hr.
  destruct (existsb _ _) eqn:E; [exfalso|reflexivity].
  apply existsb_eqb_In, delivered_In in E.
  destruct E as (j & [k' rows'] & Hj & Hs & Hx). simpl in Hs, Hx.
  apply in_map_iff in Hx. destruct Hx as (r' & Hid & Hr').
  destruct (batches_In self i Hn) as (_ & Hrows).
  destruct (batches_In self j Hj) as (_ & Hrows').
  destruct (Hrows r Hr) as [Hjoin Hk].
  destruct (Hrows' r' Hr') as [Hjoin' Hk'].
  assert (Hkk : k = k').
  { rewrite <- Hk, <- Hk'.
    apply (same_id_same_key (db self)); auto. }
  assert (i = j) by (eapply groupby_index; [exact Hn | exact Hj | exact Hkk]).
  subst j. unfold batches in *. rewrite Hn in Hj. inversion Hj; subst.
  unfold batch_answer in Hf. congruence.
Qed.

Lemma filter_all (A : Type) (q : A -> bool) (l : list A) :
  (forall x, In x l -> q x = true) -> filter q l = l.
Proof.
  induction l as [|x l IH]; simpl; intros H; [reflexivity|].
  rewrite (H x (or_introl eq_refl)), IH; [reflexivity|].
  intros y Hy. apply H. right. exact Hy.
Qed.

Lemma filter_swap (A : Type) (p q : A -> bool) (l : list A) :
  filter p (filter q l) = filter q (filter p l).
Proof.
  induction l as [|x l IH]; simpl; [reflexivity|].
  destruct (p x) eqn:Ep, (q x) eqn:Eq; simpl; rewrite ?Ep, ?Eq, IH; reflexivity.
Qed.

(** A run changes no record id, so it keeps them pairwise different. *)
Lemma sync_pending_attendance_ids_unique (transport : Transport)
    (self : TelegramBot.t) :
  NoDup (map a_id (attendance (db self))) ->
  NoDup (map a_id
           (attendance (db (snd (sync_pending_attendance transport self))))).
Proof.
  intros Hnd.
  destruct (sync_pending_attendance_effect transport self) as (_ & Hatt & _).
  rewrite Hatt, map_map.
  replace (map _ (attendance (db self))) with (map a_id (attendance (db self)));
    [exact Hnd|].
  apply map_ext. intros a. symmetry. apply mark_in_id.
Qed.

(** C3. A run of the reconciler sets a synced flag only for records of a
    batch the transport confirmed; and, record ids being unique, every
    record of a batch whose delivery failed is still unsynced after the run
    and the batch is formed again, unchanged, by the next run. *)
Theorem sync_pending_attendance_only_confirmed (transport : Transport)
    (self : TelegramBot.t) :
  NoDup (map a_id (attendance (db self))) ->
  (forall a',
     In a' (attendance (db (snd (sync_pending_attendance transport self)))) ->
     a_synced a' = true ->
     (exists a, In a (attendance (db self)) /\ a_id a = a_id a'
                /\ a_synced a = true)
     \/ (exists i k rows,
           nth_error (batches self) i = Some (k, rows)
           /\ In (a_id a') (map u_id rows)
           /\ fst (batch_answer transport self i rows) = true))
  /\ (forall i k rows,
        nth_error (batches self) i = Some (k, rows) ->
        fst (batch_answer transport self i rows) = false ->
        (forall r, In r rows ->
           (exists a',
              In a' (attendance (db (snd (sync_pending_attendance transport self))))
              /\ a_id a' = u_id r)
           /\ (forall a',
                 In a' (attendance (db (snd (sync_pending_attendance transport self)))) ->
                 a_id a' = u_id r -> a_synced a' = false))
        /\ In (k, rows) (batches (snd (sync_pending_attendance transport self)))).
Proof.
  intros Hnd.
  destruct (sync_pending_attendance_effect transport self)
    as (_ & Hatt & Hst & Hsub & _).
  split.
  - intros a' Hin Hs. rewrite Hatt in Hin. apply in_map_iff in Hin.
    destruct Hin as (a & <- & Ha). unfold mark_in in *.
    destruct (existsb (Z.eqb (a_id a)) _) eqn:E.
    + right. apply existsb_eqb_In, delivered_In in E.
      destruct E as (i & [k rows] & Hn & Hok & Hx).
      exists i, k, rows. auto.
    + left. exists a. auto.
  - intros i k rows Hn Hf.
    destruct (batches_In self i Hn) as (Hrows & Hjoin).
    assert (Hfree : forall r, In r rows ->
              negb (existsb (Z.eqb (u_id r))
                      (delivered transport (List.length (sent self))
                                 (batches self))) = true).
    { intros r Hr.
      rewrite (failed_batch_untouched transport self i r Hnd Hn Hf Hr).
      reflexivity. }
    split.
    + intros r Hr. destruct (Hjoin r Hr) as [Hj _].
      destruct (unsynced_join_In _ _ Hj) as (a & Ha & Hid & Hsy & _).
      split.
      * exists (mark_in (delivered transport (List.length (sent self))
                                   (batches self)) a).
        split; [rewrite Hatt; apply in_map; exact Ha|].
        rewrite mark_in_id. exact Hid.
      * intros a' Hin Hid'. rewrite Hatt in Hin. apply in_map_iff in Hin.
        destruct Hin as (a0 & <- & Ha0). rewrite mark_in_id in Hid'.
        assert (a0 = a)
          by (apply (NoDup_map_eq a_id _ _ _ Hnd Ha0 Ha); congruence).
        subst a0. unfold mark_in. rewrite Hid.
        specialize (Hfree r Hr). apply negb_true_iff in Hfree.
        rewrite Hfree. exact Hsy.
    + unfold batches at 1.
      rewrite (get_unsynced_attendance_marked _ _ _ Hst Hsub Hatt).
      apply groupby_In. split.
      * pose proof (groupby_nonempty (get_unsynced_attendance (db self))) as Hne.
        rewrite Forall_forall in Hne.
        specialize (Hne _ (nth_error_In _ _ Hn)). simpl in Hne.
        destruct rows as [|r rows']; [exfalso; apply Hne; reflexivity|].
        exists r. assert (Hr : In r (r :: rows')) by (left; reflexivity).
        split; [|exact (proj2 (Hjoin r Hr))].
        apply filter_In. split; [|exact (Hfree r Hr)].
        apply get_unsynced_attendance_In. exact (proj1 (Hjoin r Hr)).
      * unfold group_of. rewrite filter_swap. fold (group_of k (get_unsynced_attendance (db self))).
        rewrite <- Hrows. symmetry. apply filter_all. exact Hfree.
Qed.

Lemma scenario_D_ids_unique : NoDup (map a_id (attendance (db scenario_D))).
Proof.
  simpl. constructor; [simpl; intros [H|[]]; discriminate|].
  constructor; [intros []|constructor].
Qed.

Lemma sync_pending_attendance_only_confirmed_witness :
  NoDup (map a_id (attendance (db scenario_D)))
  /\ ((forall a',
         In a' (attendance (db (snd (sync_pending_attendance fails_for_ACT1
                                       scenario_D)))) ->
         a_synced a' = true ->
         (exists a, In a (attendance (db scenario_D)) /\ a_id a = a_id a'
                    /\ a_synced a = true)
         \/ (exists i k rows,
               nth_error (batches scenario_D) i = Some (k, rows)
               /\ In (a_id a') (map u_id rows)
               /\ fst (batch_answer fails_for_ACT1 scenario_D i rows) = true))
      /\ (forall i k rows,
            nth_error (batches scenario_D) i = Some (k, rows) ->
            fst (batch_answer fails_for_ACT1 scenario_D i rows) = false ->
            (forall r, In r rows ->
               (exists a',
                  In a' (attendance (db (snd (sync_pending_attendance
                                                fails_for_ACT1 scenario_D))))
                  /\ a_id a' = u_id r)
               /\ (forall a',
                     In a' (attendance (db (snd (sync_pending_attendance
                                                   fails_for_ACT1 scenario_D)))) ->
                     a_id a' = u_id r -> a_synced a' = false))
            /\ In (k, rows)
                  (batches (snd (sync_pending_attendance fails_for_ACT1
                                   scenario_D))))).
Proof.
  split; [exact scenario_D_ids_unique|].
  apply (sync_pending_attendance_only_confirmed fails_for_ACT1 scenario_D).
  exact scenario_D_ids_unique.
Defined.

Lemma filter_none (A : Type) (q : A -> bool) (l : list A) :
  (forall x, In x l -> q x = false) -> filter q l = [].
Proof.
  induction l as [|x l IH]; simpl; intros H; [reflexivity|].
  rewrite (H x (or_introl eq_refl)). apply IH.
  intros y Hy. apply H. right. exact Hy.
Qed.

(** Every pending row lies in the batch of its key. *)
Lemma batches_cover (self : TelegramBot.t) (r : UnsyncedRow) :
  In r (get_unsynced_attendance (db self)) ->
  exists i rows, nth_error (batches self) i = Some (key_of r, rows)
                 /\ In r rows.
Proof.
  intros Hr.
  assert (Hin : In (key_of r, group_of (key_of r) (get_unsynced_attendance (db self)))
                   (batches self)).
  { apply groupby_In. split; [exists r; auto | reflexivity]. }
  apply In_nth_error in Hin. destruct Hin as (i & Hi).
  exists i, (group_of (key_of r) (get_unsynced_attendance (db self))).
  split; [exact Hi|]. apply group_of_In. auto.
Qed.

(** C4. When every delivery of a run succeeds, a second run right after it
    finds nothing pending and hands nothing to the transport: each record
    that was pending has been marked synced. *)
Theorem sync_pending_attendance_twice (transport : Transport)
    (self : TelegramBot.t) :
  (forall i k rows,
     nth_error (batches self) i = Some (k, rows) ->
     fst (batch_answer transport self i rows) = true) ->
  sync_pending_attendance transport
    (snd (sync_pending_attendance transport self))
  = ((true, "No pending attendance to sync"),
     snd (sync_pending_attendance transport self))
  /\ sent (snd (sync_pending_attendance transport
                  (snd (sync_pending_attendance transport self))))
     = sent (snd (sync_pending_attendance transport self))
  /\ get_unsynced_attendance (db (snd (sync_pending_attendance transport self)))
     = []
  /\ (forall r a',
        In r (get_unsynced_attendance (db self)) ->
        In a' (attendance (db (snd (sync_pending_attendance transport self)))) ->
        a_id a' = u_id r -> a_synced a' = true).
Proof.
  intros Hall.
  destruct (sync_pending_attendance_effect transport self)
    as (_ & Hatt & Hst & Hsub & _).
  assert (Hdel : forall r, In r (get_unsynced_attendance (db self)) ->
            existsb (Z.eqb (u_id r))
              (delivered transport (List.length (sent self)) (batches self))
            = true).
  { intros r Hr. destruct (batches_cover self r Hr) as (i & rows & Hn & Hin).
    apply existsb_eqb_In, delivered_In. exists i, (key_of r, rows).
    split; [exact Hn|]. split; [exact (Hall i _ _ Hn)|].
    simpl. apply in_map. exact Hin. }
  assert (Hnone : get_unsynced_attendance
                    (db (snd (sync_pending_attendance transport self))) = []).
  { rewrite (get_unsynced_attendance_marked _ _ _ Hst Hsub Hatt).
    apply filter_none. intros r Hr. rewrite (Hdel r Hr). reflexivity. }
  assert (Hagain : sync_pending_attendance transport
                     (snd (sync_pending_attendance transport self))
                   = ((true, "No pending attendance to sync"),
                      snd (sync_pending_attendance transport self))).
  { unfold sync_pending_attendance at 1. rewrite Hnone. reflexivity. }
  split; [exact Hagain|]. split; [rewrite Hagain; reflexivity|].
  split; [exact Hnone|].
  intros r a' Hr Hin Hid. rewrite Hatt in Hin. apply in_map_iff in Hin.
  destruct Hin as (a & <- & Ha). rewrite mark_in_id in Hid.
  unfold mark_in. rewrite Hid, (Hdel r Hr). reflexivity.
Qed.

Lemma sync_pending_attendance_twice_witness :
  (forall i k rows,
     nth_error (batches scenario_D) i = Some (k, rows) ->
     fst (batch_answer send_message_sync scenario_D i rows) = true)
  /\ (sync_pending_attendance send_message_sync
        (snd (sync_pending_attendance send_message_sync scenario_D))
      = ((true, "No pending attendance to sync"),
         snd (sync_pending_attendance send_message_sync scenario_D))
      /\ sent (snd (sync_pending_attendance send_message_sync
                      (snd (sync_pending_attendance send_message_sync
                              scenario_D))))
         = sent (snd (sync_pending_attendance send_message_sync scenario_D))
      /\ get_unsynced_attendance
           (db (snd (sync_pending_attendance send_message_sync scenario_D)))
         = []
      /\ (forall r a',
            In r (get_unsynced_attendance (db scenario_D)) ->
            In a' (attendance (db (snd (sync_pending_attendance
                                          send_message_sync scenario_D)))) ->
            a_id a' = u_id r -> a_synced a' = true)).
Proof.
  assert (H : forall i k rows,
             nth_error (batches scenario_D) i = Some (k, rows) ->
             fst (batch_answer send_message_sync scenario_D i rows) = true).
  { intros [|[|i]] k rows Hn; vm_compute in Hn;
      [inversion Hn; reflexivity | inversion Hn; reflexivity|].
    destruct i; discriminate. }
  split; [exact H|].
  apply (sync_pending_attendance_twice send_message_sync scenario_D H).
Defined.

Lemma handed_nth (transport : Transport) (groups : list (GroupKey * DataFrame)) :
  Forall (fun g => snd g <> []) groups ->
  forall n i k first rows,
    nth_error groups i = Some (k, first :: rows) ->
    nth_error (handed transport n groups) i
    = Some (format_report first (first :: rows),
            answer transport (n + i) (first :: rows)).
Proof.
  induction 1 as [|g groups Hg _ IH]; intros n i k first rows Hn.
  - destruct i; discriminate.
  - destruct g as [k' [|first' rows']]; [exfalso; apply Hg; reflexivity|].
    cbn [handed snd]. destruct i as [|i]; simpl in Hn.
    + inversion Hn; subst. rewrite Nat.add_0_r. reflexivity.
    + rewrite Nat.add_succ_r. simpl. apply (IH (S n) i k first rows Hn).
Qed.

(** C5. Whatever the other batches met, every batch of a run is handed to
    the transport; a batch the transport accepts has all its records marked
    synced, and the reason of every refused batch is part of the text the
    run returns.  In scenario D, where only the report for ACT1 is refused,
    the record of ACT2 ends synced, the record of ACT1 stays pending, and
    the result carries the reason. *)
Theorem sync_pending_attendance_partial_failure :
  (forall (transport : Transport) (self : TelegramBot.t) i k rows,
     nth_error (batches self) i = Some (k, rows) ->
     (exists first,
        hd_error rows = Some first
        /\ nth_error (sent (snd (sync_pending_attendance transport self)))
                     (List.length (sent self) + i)
           = Some (format_report first rows,
                   batch_answer transport self i rows))
     /\ (fst (batch_answer transport self i rows) = true ->
         forall r, In r rows ->
           (exists a',
              In a' (attendance (db (snd (sync_pending_attendance transport self))))
              /\ a_id a' = u_id r)
           /\ (forall a',
                 In a' (attendance (db (snd (sync_pending_attendance transport self)))) ->
                 a_id a' = u_id r -> a_synced a' = true))
     /\ (fst (batch_answer transport self i rows) = false ->
         exists done reasons,
           In (snd (batch_answer transport self i rows)) reasons
           /\ fst (sync_pending_attendance transport self)
              = (false,
                 ("Synced " ++ str_of_nat done ++ " reports, "
                  ++ str_of_nat (List.length reasons) ++ " failed: "
                  ++ String.concat ", " reasons)%string)))
  /\ (map fst (batches scenario_D) = [("2024-01-10", 1); ("2024-01-10", 2)]
      /\ fst (sync_pending_attendance fails_for_ACT1 scenario_D)
         = (false, "Synced 1 reports, 1 failed: Connection timed out")
      /\ map (fun a => (a_subject_id a, a_synced a))
             (attendance (db (snd (sync_pending_attendance fails_for_ACT1
                                     scenario_D))))
         = [(1, false); (2, true)]
      /\ map (fun e => (msg_subject_code (fst e), snd e))
             (sent (snd (sync_pending_attendance fails_for_ACT1 scenario_D)))
         = [("ACT1", (false, "Connection timed out"));
            ("ACT2", (true, "Message sent"))]).
Proof.
  split; [|repeat split].
  intros transport self i k rows Hn.
  destruct (sync_pending_attendance_effect transport self)
    as (Hsent & Hatt & _ & _ & Hres).
  pose proof (groupby_nonempty (get_unsynced_attendance (db self))) as Hne.
  assert (Hrows : rows <> []).
  { rewrite Forall_forall in Hne. exact (Hne _ (nth_error_In _ _ Hn)). }
  split; [|split].
  - destruct rows as [|first rows']; [exfalso; apply Hrows; reflexivity|].
    exists first. split; [reflexivity|].
    rewrite Hsent, nth_error_app2 by lia.
    replace (List.length (sent self) + i - List.length (sent self))%nat
      with i by lia.
    apply (handed_nth transport Hne _ _ Hn).
  - intros Hok r Hr.
    destruct (batches_In self i Hn) as (_ & Hjoin).
    destruct (unsynced_join_In _ _ (proj1 (Hjoin r Hr)))
      as (a & Ha & Hid & _ & _).
    assert (Hdel : existsb (Z.eqb (u_id r))
                     (delivered transport (List.length (sent self))
                                (batches self)) = true).
    { apply existsb_eqb_In, delivered_In. exists i, (k, rows).
      split; [exact Hn|]. split; [exact Hok|]. simpl. apply in_map. exact Hr. }
    split.
    + exists (mark_in (delivered transport (List.length (sent self))
                                 (batches self)) a).
      split; [rewrite Hatt; apply in_map; exact Ha|].
      rewrite mark_in_id. exact Hid.
    + intros a' Hin Hid'. rewrite Hatt in Hin. apply in_map_iff in Hin.
      destruct Hin as (a0 & <- & _). rewrite mark_in_id in Hid'.
      unfold mark_in. rewrite Hid', Hdel. reflexivity.
  - intros Hf.
    pose proof (failures_In transport (List.length (sent self))
                  (batches self) i Hn Hf) as Hin.
    exists (successes transport (List.length (sent self)) (batches self)),
           (failures transport (List.length (sent self)) (batches self)).
    split; [exact Hin|]. rewrite Hres.
    destruct (get_unsynced_attendance (db self)) eqn:Ev.
    + unfold batches in Hn. rewrite Ev in Hn. destruct i; discriminate.
    + destruct (failures transport (List.length (sent self)) (batches self));
        [destruct Hin | reflexivity].
Qed.

End TelegramFacts.

(** ** Students: insertion, update, deletion, lookup and listing *)

Module StudentFacts.
Import Database Scenarios.

Lemma find_none_iff (A : Type) (p : A -> bool) (l : list A) :
  find p l = None <-> forall x, In x l -> p x = false.
Proof.
  split; [intros H x Hx; exact (find_none p l H x Hx)|].
  induction l as [|y l IH]; simpl; intros H; [reflexivity|].
  rewrite (H y (or_introl eq_refl)). apply IH. intros x Hx. apply H. right. exact Hx.
Qed.

Lemma find_app (A : Type) (p : A -> bool) (l l' : list A) :
  find p (l ++ l') = match find p l with Some x => Some x | None => find p l' end.
Proof.
  induction l as [|y l IH]; simpl; [reflexivity|].
  destruct (p y); [reflexivity | exact IH].
Qed.

Lemma find_map_same (A : Type) (p : A -> bool) (f : A -> A) (l : list A) :
  (forall x, p (f x) = p x) -> find p (map f l) = option_map f (find p l).
Proof.
  intros Hp. induction l as [|y l IH]; simpl; [reflexivity|].
  rewrite Hp. destruct (p y); [reflexivity | exact IH].
Qed.

Lemma find_filter_out (A : Type) (p q : A -> bool) (l : list A) :
  (forall x, p x = true -> q x = true) -> find p (filter q l) = find p l.
Proof.
  intros Hpq. induction l as [|y l IH]; simpl; [reflexivity|].
  destruct (p y) eqn:Ep.
  - rewrite (Hpq y Ep). simpl. rewrite Ep. reflexivity.
  - destruct (q y); simpl; rewrite ?Ep; exact IH.
Qed.

Lemma existsb_false_iff (A : Type) (p : A -> bool) (l : list A) :
  existsb p l = false <-> forall x, In x l -> p x = false.
Proof.
  induction l as [|y l IH]; simpl.
  - split; [intros _ x [] | reflexivity].
  - rewrite orb_false_iff, IH. split.
    + intros [Hy Hl] x [<-|Hx]; auto.
    + intros H. split; [apply H; left; reflexivity|].
      intros x Hx. apply H. right. exact Hx.
Qed.

(** X1. A student that [add_student] accepts can be read back with
    [get_student] under the returned id, field for field and with the face
    encoding that was handed in; the lookup of every other id is as before. *)
Theorem add_student_then_get_student roll_no name branch semester section
    email face_encoding db rowid db' :
  add_student roll_no name branch semester section email face_encoding db
  = ((true, inl rowid), db') ->
  get_student rowid db'
  = Some {| sd_id := rowid; sd_roll_no := roll_no; sd_name := name;
            sd_branch := branch; sd_semester := semester;
            sd_section := section; sd_email := email;
            sd_face_encoding := face_encoding |}
  /\ (forall other, other <> rowid ->
        get_student other db' = get_student other db).
Proof.
  unfold add_student.
  destruct (existsb _ (students db)); [discriminate|].
  intros H. inversion H; subst; clear H. unfold get_student. simpl.
  split.
  - rewrite find_app.
    assert (Hnone : find (fun s => st_id s =?
                            next_rowid (students_seq db) (map st_id (students db)))
                         (students db) = None).
    { apply find_none_iff. intros s Hs. apply Z.eqb_neq. intros E.
      apply (DatabaseFacts.next_rowid_fresh (students_seq db)
               (map st_id (students db))).
      rewrite <- E. apply in_map. exact Hs. }
    rewrite Hnone. simpl. rewrite Z.eqb_refl.
    destruct face_encoding; reflexivity.
  - intros other Hother. rewrite find_app. simpl.
    destruct (find (fun s => st_id s =? other) (students db)); [reflexivity|].
    replace (_ =? other) with false; [reflexivity|].
    symmetry. apply Z.eqb_neq. congruence.
Qed.

Lemma add_student_then_get_student_witness :
  add_student "R1" "S1" "CSE" 3 "A" None (Some (np_ones 128)) Database.empty
  = ((true, inl 1), store_one)
  /\ (get_student 1 store_one
      = Some {| sd_id := 1; sd_roll_no := "R1"; sd_name := "S1";
                sd_branch := "CSE"; sd_semester := 3; sd_section := "A";
                sd_email := None; sd_face_encoding := Some (np_ones 128) |}
      /\ (forall other, other <> 1 ->
            get_student other store_one = get_student other Database.empty)).
Proof.
  split; [reflexivity|].
  apply (add_student_then_get_student "R1" "S1" "CSE" 3 "A" None
           (Some (np_ones 128)) Database.empty).
  reflexivity.
Defined.

(** X2. Given a semester SQLite can bind and a rowid left for a new row,
    [add_student] refuses exactly the roll numbers that are taken, and then
    changes nothing; whatever it answers, student ids stay pairwise
    different and so do roll numbers. *)
Theorem add_student_keeps_keys_unique roll_no name branch semester section
    email face_encoding db :
  sqlite_integer semester ->
  rowid_available (students_seq db) (map st_id (students db)) ->
  NoDup (map st_id (students db)) ->
  NoDup (map st_roll_no (students db)) ->
  (fst (fst (add_student roll_no name branch semester section email
               face_encoding db)) = false
   <-> In roll_no (map st_roll_no (students db)))
  /\ (In roll_no (map st_roll_no (students db)) ->
      add_student roll_no name branch semester section email face_encoding db
      = ((false, inr "Roll number already exists"), db))
  /\ NoDup (map st_id (students (snd (add_student roll_no name branch semester
                                        section email face_encoding db))))
  /\ NoDup (map st_roll_no
              (students (snd (add_student roll_no name branch semester
                                section email face_encoding db)))).
Proof.
  intros _ _ Hid Hroll. unfold add_student.
  destruct (existsb (fun s => (st_roll_no s =? roll_no)%string) (students db))
    eqn:E; simpl.
  - assert (Hin : In roll_no (map st_roll_no (students db))).
    { apply existsb_exists in E. destruct E as (s & Hs & Heq).
      apply String.eqb_eq in Heq. subst. apply in_map. exact Hs. }
    repeat split; auto.
  - assert (Hout : ~ In roll_no (map st_roll_no (students db))).
    { intros Hin. apply in_map_iff in Hin. destruct Hin as (s & Heq & Hs).
      rewrite existsb_false_iff in E. specialize (E s Hs). simpl in E.
      rewrite Heq, String.eqb_refl in E. discriminate. }
    split; [split; [discriminate | contradiction]|].
    split; [contradiction|].
    rewrite !map_app. simpl. split.
    + apply NoDup_app; [exact Hid | constructor; [intros []|constructor] |].
      intros x Hx [<-|[]]. exact (DatabaseFacts.next_rowid_fresh _ _ Hx).
    + apply NoDup_app; [exact Hroll | constructor; [intros []|constructor] |].
      intros x Hx [<-|[]]. exact (Hout Hx).
Qed.

Lemma add_student_keeps_keys_unique_witness :
  sqlite_integer 1
  /\ rowid_available (students_seq store_one) (map st_id (students store_one))
  /\ NoDup (map st_id (students store_one))
  /\ NoDup (map st_roll_no (students store_one))
  /\ ((fst (fst (add_student "R1" "S2" "ECE" 1 "B" None None store_one)) = false
       <-> In "R1" (map st_roll_no (students store_one)))
      /\ (In "R1" (map st_roll_no (students store_one)) ->
          add_student "R1" "S2" "ECE" 1 "B" None None store_one
          = ((false, inr "Roll number already exists"), store_one))
      /\ NoDup (map st_id (students (snd (add_student "R1" "S2" "ECE" 1 "B"
                                            None None store_one))))
      /\ NoDup (map st_roll_no
                  (students (snd (add_student "R1" "S2" "ECE" 1 "B" None None
                                    store_one))))).
Proof.
  assert (H1 : NoDup (map st_id (students store_one)))
    by (simpl; constructor; [intros []|constructor]).
  assert (H2 : NoDup (map st_roll_no (students store_one)))
    by (simpl; constructor; [intros []|constructor]).
  assert (Hs : sqlite_integer 1) by (unfold sqlite_integer; simpl; lia).
  assert (Hroom : rowid_available (students_seq store_one)
                    (map st_id (students store_one)))
    by (vm_compute; split; [discriminate | reflexivity]).
  split; [exact Hs|]. split; [exact Hroom|].
  split; [exact H1|]. split; [exact H2|].
  apply (@add_student_keeps_keys_unique "R1" "S2" "ECE" 1 "B" None None
           store_one Hs Hroom H1 H2).
Defined.

(** *** Rewriting the rows with one id under a [UNIQUE] column *)

Section UniqueUpdate.
Variable A : Type.
Variable is_target : A -> bool.
Variable key : A -> string.
Variable value : string.
Variable upd : A -> A.
Hypothesis upd_key : forall x, key (upd x) = value.

Lemma no_target_map (l : list A) :
  filter is_target l = [] ->
  map (fun x => if is_target x then upd x else x) l = l.
Proof.
  induction l as [|x l IH]; simpl; [reflexivity|].
  destruct (is_target x); [discriminate|]. intros H. rewrite (IH H). reflexivity.
Qed.

Lemma unique_violation_false (l : list A) :
  unique_violation is_target (fun x => (key x =? value)%string) l = false ->
  filter is_target l = []
  \/ ((forall x, In x l -> is_target x = false -> key x <> value)
      /\ (List.length (filter is_target l) <= 1)%nat).
Proof.
  unfold unique_violation.
  destruct (filter is_target l) as [|t ts] eqn:Et; [left; reflexivity|].
  intros H. right. apply orb_false_elim in H. destruct H as [Ho Hl]. split.
  - intros x Hx Hnt Hk.
    rewrite existsb_false_iff in Ho.
    specialize (Ho x). rewrite Hk, String.eqb_refl in Ho.
    assert (Hf : In x (filter (fun r => negb (is_target r)) l))
      by (apply filter_In; rewrite Hnt; auto).
    specialize (Ho Hf). discriminate.
  - apply Nat.ltb_ge in Hl. exact Hl.
Qed.

Lemma unique_after_update (l : list A) :
  NoDup (map key l) ->
  (forall x, In x l -> is_target x = false -> key x <> value) ->
  (List.length (filter is_target l) <= 1)%nat ->
  NoDup (map key (map (fun x => if is_target x then upd x else x) l)).
Proof.
  induction l as [|x l IH]; simpl; intros Hnd Hother Hone; [constructor|].
  inversion Hnd as [|? ? Hx Hnd']; subst.
  destruct (is_target x) eqn:Ex.
  - simpl in Hone.
    assert (Hnil : filter is_target l = [])
      by (destruct (filter is_target l); [reflexivity | simpl in Hone; lia]).
    rewrite (no_target_map l Hnil), upd_key. constructor; [|exact Hnd'].
    intros Hin. apply in_map_iff in Hin. destruct Hin as (y & Hy & Hin).
    assert (Hty : is_target y = false).
    { destruct (is_target y) eqn:Ey; [|reflexivity].
      assert (In y (filter is_target l)) by (apply filter_In; auto).
      rewrite Hnil in H. destruct H. }
    exact (Hother y (or_intror Hin) Hty Hy).
  - constructor.
    + intros Hin. apply in_map_iff in Hin. destruct Hin as (z & Hz & Hin).
      apply in_map_iff in Hin. destruct Hin as (y & <- & Hy).
      destruct (is_target y).
      * rewrite upd_key in Hz.
        exact (Hother x (or_introl eq_refl) Ex (eq_sym Hz)).
      * apply Hx. rewrite <- Hz. apply in_map. exact Hy.
    + apply IH; [exact Hnd' | | exact Hone].
      intros y Hy. apply Hother. right. exact Hy.
Qed.

(** Whether or not the statement is refused, a [UNIQUE] column that held
    pairwise different values holds pairwise different values afterwards. *)
Lemma unique_update_NoDup (l : list A) :
  NoDup (map key l) ->
  unique_violation is_target (fun x => (key x =? value)%string) l = false ->
  NoDup (map key (map (fun x => if is_target x then upd x else x) l)).
Proof.
  intros Hnd Hv. destruct (unique_violation_false l Hv) as [Hnil|[Ho Hl]].
  - rewrite (no_target_map l Hnil). exact Hnd.
  - apply unique_after_update; assumption.
Qed.

End UniqueUpdate.

Lemma get_student_found sid db old :
  get_student sid db = Some old ->
  exists s, find (fun s => st_id s =? sid) (students db) = Some s
            /\ st_id s = sid
            /\ old = {| sd_id := st_id s; sd_roll_no := st_roll_no s;
                        sd_name := st_name s; sd_branch := st_branch s;
                        sd_semester := st_semester s; sd_section := st_section s;
                        sd_email := st_email s;
                        sd_face_encoding :=
                          student_face_encoding (st_face_encoding s) |}.
Proof.
  unfold get_student.
  destruct (find (fun s => st_id s =? sid) (students db)) as [s|] eqn:E;
    [|discriminate].
  intros H. inversion H. exists s. split; [reflexivity|].
  split; [|reflexivity].
  apply find_some in E. apply Z.eqb_eq. exact (proj2 E).
Qed.

(** X3. After an accepted [update_student] of an existing student,
    [get_student] returns the new roll number, name, branch, semester,
    section and email; the face encoding is the new one when one was
    given and the stored one otherwise; no other student's lookup changes. *)
Theorem update_student_then_get_student sid roll_no name branch semester
    section email face_encoding db old :
  get_student sid db = Some old ->
  fst (fst (update_student sid roll_no name branch semester section email
              face_encoding db)) = true ->
  get_student sid (snd (update_student sid roll_no name branch semester
                          section email face_encoding db))
  = Some {| sd_id := sid; sd_roll_no := roll_no; sd_name := name;
            sd_branch := branch; sd_semester := semester;
            sd_section := section; sd_email := email;
            sd_face_encoding :=
              match face_encoding with
              | Some v => Some v
              | None => sd_face_encoding old
              end |}
  /\ (forall other, other <> sid ->
        get_student other (snd (update_student sid roll_no name branch semester
                                  section email face_encoding db))
        = get_student other db).
Proof.
  intros Hold. destruct (get_student_found sid db Hold) as (s & Hf & Hid & ->).
  unfold update_student.
  destruct (unique_violation _ _ (students db)); [discriminate|]. intros _.
  unfold get_student. simpl. split.
  - rewrite find_map_same
      by (intros x; destruct (st_id x =? sid) eqn:E; simpl; rewrite ?E; reflexivity).
    rewrite Hf. simpl. rewrite Hid, Z.eqb_refl. simpl.
    destruct face_encoding; reflexivity.
  - intros other Hother.
    rewrite find_map_same
      by (intros x; destruct (st_id x =? sid) eqn:E; simpl; reflexivity).
    destruct (find (fun s0 => st_id s0 =? other) (students db)) as [s0|] eqn:E0;
      [|reflexivity].
    simpl. apply find_some in E0. destruct E0 as [_ E0].
    apply Z.eqb_eq in E0.
    replace (st_id s0 =? sid) with false; [reflexivity|].
    symmetry. apply Z.eqb_neq. congruence.
Qed.

Lemma update_student_then_get_student_witness :
  get_student 1 store_one
  = Some {| sd_id := 1; sd_roll_no := "R1"; sd_name := "S1";
            sd_branch := "CSE"; sd_semester := 3; sd_section := "A";
            sd_email := None; sd_face_encoding := Some (np_ones 128) |}
  /\ fst (fst (update_student 1 "R9" "S1" "ECE" 4 "B" (Some "s1@x.org") None
                 store_one)) = true
  /\ (get_student 1 (snd (update_student 1 "R9" "S1" "ECE" 4 "B"
                            (Some "s1@x.org") None store_one))
      = Some {| sd_id := 1; sd_roll_no := "R9"; sd_name := "S1";
                sd_branch := "ECE"; sd_semester := 4; sd_section := "B";
                sd_email := Some "s1@x.org";
                sd_face_encoding := Some (np_ones 128) |}
      /\ (forall other, other <> 1 ->
            get_student other (snd (update_student 1 "R9" "S1" "ECE" 4 "B"
                                      (Some "s1@x.org") None store_one))
            = get_student other store_one)).
Proof.
  split; [reflexivity|]. split; [reflexivity|].
  apply (@update_student_then_get_student 1 "R9" "S1" "ECE" 4 "B"
           (Some "s1@x.org") None store_one
           {| sd_id := 1; sd_roll_no := "R1"; sd_name := "S1";
              sd_branch := "CSE"; sd_semester := 3; sd_section := "A";
              sd_email := None; sd_face_encoding := Some (np_ones 128) |});
    reflexivity.
Defined.

(** X4. [update_student] for an id that no student has reports success and
    leaves every student as it was (the id and the semester being integers
    SQLite can bind). *)
Theorem update_student_unknown_id sid roll_no name branch semester section
    email face_encoding db :
  sqlite_integer sid -> sqlite_integer semester ->
  get_student sid db = None ->
  fst (update_student sid roll_no name branch semester section email
         face_encoding db) = (true, "Student updated successfully")
  /\ students (snd (update_student sid roll_no name branch semester section
                      email face_encoding db)) = students db.
Proof.
  intros _ _. unfold get_student.
  destruct (find (fun s => st_id s =? sid) (students db)) eqn:E; [discriminate|].
  intros _.
  assert (Hnil : filter (fun s => st_id s =? sid) (students db) = []).
  { rewrite DatabaseFacts.find_filter_hd in E.
    destruct (filter _ (students db)); [reflexivity | discriminate]. }
  unfold update_student, unique_violation. rewrite Hnil. simpl.
  split; [reflexivity|].
  apply (no_target_map (fun s => st_id s =? sid)
           (fun s => {| st_id := st_id s; st_roll_no := roll_no; st_name := name;
                        st_branch := branch; st_semester := semester;
                        st_section := section; st_email := email;
                        st_face_encoding :=
                          match face_encoding with
                          | Some v => Some (JsonBlob v)
                          | None => st_face_encoding s
                          end |})).
  exact Hnil.
Qed.

Lemma update_student_unknown_id_witness :
  sqlite_integer 7 /\ sqlite_integer 1
  /\ get_student 7 store_one = None
  /\ (fst (update_student 7 "R7" "S7" "CSE" 1 "A" None None store_one)
      = (true, "Student updated successfully")
      /\ students (snd (update_student 7 "R7" "S7" "CSE" 1 "A" None None
                          store_one)) = students store_one).
Proof.
  assert (H7 : sqlite_integer 7) by (unfold sqlite_integer; simpl; lia).
  assert (H1 : sqlite_integer 1) by (unfold sqlite_integer; simpl; lia).
  split; [exact H7|]. split; [exact H1|]. split; [reflexivity|].
  apply (@update_student_unknown_id 7 "R7" "S7" "CSE" 1 "A" None None store_one
           H7 H1).
  reflexivity.
Defined.

(** X5. [update_student], called with an id and a semester SQLite can
    bind, never changes a student id, and roll numbers that were pairwise
    different stay pairwise different: an update is refused only when it
    would give two students one roll number, and a refused update changes
    nothing. *)
Theorem update_student_keeps_keys_unique sid roll_no name branch semester
    section email face_encoding db :
  sqlite_integer sid -> sqlite_integer semester ->
  NoDup (map st_id (students db)) ->
  NoDup (map st_roll_no (students db)) ->
  map st_id (students (snd (update_student sid roll_no name branch semester
                              section email face_encoding db)))
  = map st_id (students db)
  /\ NoDup (map st_roll_no
              (students (snd (update_student sid roll_no name branch semester
                                section email face_encoding db))))
  /\ (fst (fst (update_student sid roll_no name branch semester section email
                  face_encoding db)) = false ->
      snd (update_student sid roll_no name branch semester section email
             face_encoding db) = db
      /\ exists s, In s (students db) /\ st_id s <> sid
                   /\ st_roll_no s = roll_no).
Proof.
  intros _ _ Hids Hnd. unfold update_student.
  destruct (unique_violation (fun s => st_id s =? sid)
              (fun s => (st_roll_no s =? roll_no)%string) (students db)) eqn:Ev;
    simpl.
  - split; [reflexivity|]. split; [exact Hnd|]. intros _.
    split; [reflexivity|].
    unfold unique_violation in Ev.
    destruct (filter (fun s => st_id s =? sid) (students db)) as [|t ts] eqn:Et;
      [discriminate|].
    apply orb_prop in Ev. destruct Ev as [Ev|Ev].
    + apply existsb_exists in Ev. destruct Ev as (s & Hs & Hr).
      apply filter_In in Hs. destruct Hs as [Hs Hn].
      apply negb_true_iff, Z.eqb_neq in Hn. apply String.eqb_eq in Hr.
      exists s. auto.
    + exfalso. apply Nat.ltb_lt in Ev.
      assert (Hin : forall x, In x (t :: ts) -> In x (students db) /\ st_id x = sid).
      { intros x Hx. rewrite <- Et in Hx. apply filter_In in Hx.
        destruct Hx as [Hx E]. apply Z.eqb_eq in E. auto. }
      destruct ts as [|t' ts]; [simpl in Ev; lia|].
      assert (Hsub : NoDup (map st_id (t :: t' :: ts))).
      { rewrite <- Et. clear - Hids.
        induction (students db) as [|x l IH]; simpl; [constructor|].
        inversion Hids as [|? ? Hx Hids']; subst.
        destruct (st_id x =? sid); [|exact (IH Hids')].
        simpl. constructor; [|exact (IH Hids')].
        intros H. apply Hx. apply in_map_iff in H.
        destruct H as (y & Hy & Hin). apply filter_In in Hin.
        rewrite <- Hy. apply in_map. exact (proj1 Hin). }
      simpl in Hsub. inversion Hsub as [|? ? Hn _]; subst. apply Hn.
      left. rewrite (proj2 (Hin t (or_introl eq_refl))).
      exact (proj2 (Hin t' (or_intror (or_introl eq_refl)))).
  - split; [|split; [|discriminate]].
    + rewrite map_map. apply map_ext. intros s.
      destruct (st_id s =? sid); reflexivity.
    + apply (@unique_update_NoDup _ (fun s => st_id s =? sid) st_roll_no roll_no
               (fun s => {| st_id := st_id s; st_roll_no := roll_no;
                            st_name := name; st_branch := branch;
                            st_semester := semester; st_section := section;
                            st_email := email;
                            st_face_encoding :=
                              match face_encoding with
                              | Some v => Some (JsonBlob v)
                              | None => st_face_encoding s
                              end |}));
        [reflexivity | exact Hnd | exact Ev].
Qed.

Lemma update_student_keeps_keys_unique_witness :
  sqlite_integer 1 /\ sqlite_integer 3
  /\ NoDup (map st_id (students campus))
  /\ NoDup (map st_roll_no (students campus))
  /\ fst (fst (update_student 1 "R2" "S1" "CSE" 3 "A" None None campus)) = false
  /\ (map st_id (students (snd (update_student 1 "R2" "S1" "CSE" 3 "A" None
                                  None campus)))
      = map st_id (students campus)
      /\ NoDup (map st_roll_no
                  (students (snd (update_student 1 "R2" "S1" "CSE" 3 "A" None
                                    None campus))))
      /\ (fst (fst (update_student 1 "R2" "S1" "CSE" 3 "A" None None campus))
          = false ->
          snd (update_student 1 "R2" "S1" "CSE" 3 "A" None None campus)
          = campus
          /\ exists s, In s (students campus) /\ st_id s <> 1
                       /\ st_roll_no s = "R2")).
Proof.
  assert (H1 : sqlite_integer 1) by (unfold sqlite_integer; simpl; lia).
  assert (H3 : sqlite_integer 3) by (unfold sqlite_integer; simpl; lia).
  assert (Hids : NoDup (map st_id (students campus))).
  { simpl. repeat constructor; simpl; intuition discriminate. }
  assert (Hrolls : NoDup (map st_roll_no (students campus))).
  { simpl. repeat constructor; simpl; intuition discriminate. }
  split; [exact H1|]. split; [exact H3|].
  split; [exact Hids|]. split; [exact Hrolls|]. split; [reflexivity|].
  apply (@update_student_keeps_keys_unique 1 "R2" "S1" "CSE" 3 "A" None None
           campus H1 H3 Hids Hrolls).
Defined.

Lemma flat_map_filter (A B : Type) (p : A -> bool) (f : A -> list B)
    (l : list A) :
  flat_map f (filter p l) = flat_map (fun x => if p x then f x else []) l.
Proof.
  induction l as [|x l IH]; simpl; [reflexivity|].
  destruct (p x); simpl; rewrite IH; reflexivity.
Qed.

(** X6. [delete_student] removes the student and nothing else: the id can
    no longer be looked up, other students are untouched, and no attendance
    record is deleted.  The student's pending records drop out of
    [get_unsynced_attendance], whose other rows keep their order, and a
    reloaded gallery no longer holds the id. *)
Theorem delete_student_effect (sid : Z) (db : Database.t) :
  get_student sid (snd (delete_student sid db)) = None
  /\ (forall other, other <> sid ->
        get_student other (snd (delete_student sid db)) = get_student other db)
  /\ attendance (snd (delete_student sid db)) = attendance db
  /\ get_unsynced_attendance (snd (delete_student sid db))
     = filter (fun r => negb (u_student_id r =? sid))
              (get_unsynced_attendance db)
  /\ (forall gallery,
        ~ In sid (FaceRecognitionUtils.known_face_ids
                    (snd (FaceRecognitionUtils.load_known_faces Reachable
                            (snd (delete_student sid db)) gallery)))).
Proof.
  split; [|split; [|split; [reflexivity|split]]].
  - unfold get_student, delete_student. simpl.
    replace (find _ _) with (@None StudentRow); [reflexivity|].
    symmetry. apply find_none_iff. intros s Hs. apply filter_In in Hs.
    apply negb_true_iff. exact (proj2 Hs).
  - intros other Hother. unfold get_student, delete_student. simpl.
    rewrite find_filter_out; [reflexivity|].
    intros s Hs. apply Z.eqb_eq in Hs. apply negb_true_iff, Z.eqb_neq.
    congruence.
  - unfold get_unsynced_attendance.
    rewrite (@filter_sort_by _ newer_first TelegramFacts.newer_first_trans
               TelegramFacts.newer_first_total).
    f_equal. unfold unsynced_join, delete_student. simpl.
    rewrite TelegramFacts.filter_flat_map. apply flat_map_ext. intros a.
    rewrite flat_map_filter, TelegramFacts.filter_flat_map.
    apply flat_map_ext. intros s.
    rewrite TelegramFacts.filter_flat_map.
    induction (subjects db) as [|sub l IH]; simpl.
    + destruct (negb (st_id s =? sid)); reflexivity.
    + rewrite <- IH.
      destruct ((a_student_id a =? st_id s) && (a_subject_id a =? sub_id sub)
                && negb (a_synced a)); simpl;
        destruct (negb (st_id s =? sid)); reflexivity.
  - intros gallery Hin. simpl in Hin.
    rewrite FaceRecognitionFacts.face_rows_ids in Hin.
    apply in_map_iff in Hin. destruct Hin as (s & Hid & Hs).
    apply filter_In in Hs. destruct Hs as [Hs _]. simpl in Hs.
    apply filter_In in Hs. destruct Hs as [_ Hs].
    apply negb_true_iff, Z.eqb_neq in Hs. exact (Hs Hid).
Qed.

(** *** Listing *)

Lemma insert_by_length (A : Type) (before : A -> A -> bool) (x : A) (l : list A) :
  List.length (insert_by before x l) = S (List.length l).
Proof.
  induction l as [|y l IH]; simpl; [reflexivity|].
  destruct (before x y); simpl; [reflexivity | rewrite IH; reflexivity].
Qed.

Lemma sort_by_length (A : Type) (before : A -> A -> bool) (l : list A) :
  List.length (sort_by before l) = List.length l.
Proof.
  induction l as [|x l IH]; simpl; [reflexivity|].
  rewrite insert_by_length, IH. reflexivity.
Qed.

Lemma StronglySorted_map (A B : Type) (f : A -> B) (R : B -> B -> Prop)
    (l : list A) :
  StronglySorted (fun x y => R (f x) (f y)) l -> StronglySorted R (map f l).
Proof.
  induction 1 as [|x l Hs IH Hx]; simpl; constructor; [exact IH|].
  apply Forall_forall. intros y Hy. apply in_map_iff in Hy.
  destruct Hy as (z & <- & Hz). rewrite Forall_forall in Hx. exact (Hx z Hz).
Qed.

Lemma string_leb_total (x y : string) :
  String.leb x y = false -> String.leb y x = true.
Proof. intros H. destruct (String.leb_total x y); congruence. Qed.

Lemma text_condition_spec (o : option string) (x : string) :
  text_condition o x = true <->
  (forall v, o = Some v -> v <> "" -> x = v).
Proof.
  unfold text_condition. destruct o as [v|]; simpl.
  - destruct (v =? "")%string eqn:E; simpl.
    + apply String.eqb_eq in E. split; [|reflexivity].
      intros _ w Hw Hne. inversion Hw; subst. contradiction.
    + apply String.eqb_neq in E. rewrite String.eqb_eq. split.
      * intros -> w Hw _. inversion Hw. reflexivity.
      * intros H. exact (H v eq_refl E).
  - split; [intros _ v Hv; discriminate | reflexivity].
Qed.

Lemma int_condition_spec (o : option Z) (x : Z) :
  int_condition o x = true <->
  (forall v, o = Some v -> v <> 0 -> x = v).
Proof.
  unfold int_condition. destruct o as [v|]; simpl.
  - destruct (v =? 0) eqn:E; simpl.
    + apply Z.eqb_eq in E. split; [|reflexivity].
      intros _ w Hw Hne. inversion Hw; subst. contradiction.
    + apply Z.eqb_neq in E. rewrite Z.eqb_eq. split.
      * intros -> w Hw _. inversion Hw. reflexivity.
      * intros H. exact (H v eq_refl E).
  - split; [intros _ v Hv; discriminate | reflexivity].
Qed.

(** X7. [get_students] lists exactly the students that meet every filter
    given (a filter that is absent, empty or zero excludes nobody), each
    once per stored row, in ascending order of roll number. *)
Theorem get_students_selected_and_sorted (branch : option string)
    (semester : option Z) (section : option string) (db : Database.t) :
  (forall x,
     In x (get_students branch semester section db) <->
     exists s, In s (students db) /\ x = listed s
               /\ (forall b, branch = Some b -> b <> "" -> st_branch s = b)
               /\ (forall n, semester = Some n -> n <> 0 -> st_semester s = n)
               /\ (forall c, section = Some c -> c <> "" -> st_section s = c))
  /\ List.length (get_students branch semester section db)
     = List.length (filter (student_selected branch semester section)
                           (students db))
  /\ StronglySorted (fun x y => String.leb (sl_roll_no x) (sl_roll_no y) = true)
                    (get_students branch semester section db)
  /\ List.length (get_students None None None db) = List.length (students db).
Proof.
  unfold get_students. split; [|split; [|split]].
  - intros x. rewrite in_map_iff. split.
    + intros (s & <- & Hs). apply sort_by_In, filter_In in Hs.
      destruct Hs as [Hs Hsel]. unfold student_selected in Hsel.
      apply andb_prop in Hsel. destruct Hsel as [Hsel Hc].
      apply andb_prop in Hsel. destruct Hsel as [Hb Hn].
      exists s. split; [exact Hs|]. split; [reflexivity|].
      split; [apply text_condition_spec; exact Hb|].
      split; [apply int_condition_spec; exact Hn
             | apply text_condition_spec; exact Hc].
    + intros (s & Hs & -> & Hb & Hn & Hc). exists s. split; [reflexivity|].
      apply sort_by_In, filter_In. split; [exact Hs|].
      unfold student_selected.
      rewrite (proj2 (text_condition_spec branch (st_branch s)) Hb),
        (proj2 (int_condition_spec semester (st_semester s)) Hn),
        (proj2 (text_condition_spec section (st_section s)) Hc).
      reflexivity.
  - rewrite length_map, sort_by_length. reflexivity.
  - apply StronglySorted_map.
    apply (@sort_by_sorted _ by_roll_no).
    + intros x y z. unfold by_roll_no. apply string_leb_trans.
    + intros x y. unfold by_roll_no. apply string_leb_total.
  - rewrite length_map, sort_by_length.
    f_equal. apply TelegramFacts.filter_all. reflexivity.
Qed.

End StudentFacts.

(** ** Subjects *)

Module SubjectFacts.
Import Database Scenarios StudentFacts.

(** X8. Given a semester SQLite can bind and a rowid left for a new row,
    [add_subject] accepts every subject whose code is free, and the subject
    is then returned by [get_subject] under the new id exactly as given; a
    subject code already in the table is refused without any change, so
    codes that were pairwise different stay so. *)
Theorem add_subject_then_get_subject subject_code subject_name branch semester
    seq db :
  sqlite_integer semester ->
  rowid_available seq (map sub_id (subjects db)) ->
  NoDup (map sub_code (subjects db)) ->
  NoDup (map sub_code
           (subjects (fst (snd (add_subject subject_code subject_name branch
                                  semester seq db)))))
  /\ (In subject_code (map sub_code (subjects db)) ->
      add_subject subject_code subject_name branch semester seq db
      = ((false, inr "Subject code already exists"), (db, seq)))
  /\ (~ In subject_code (map sub_code (subjects db)) ->
      exists rowid,
        fst (add_subject subject_code subject_name branch semester seq db)
        = (true, inl rowid)
        /\ ~ In rowid (map sub_id (subjects db))
        /\ get_subject rowid
             (fst (snd (add_subject subject_code subject_name branch semester
                          seq db)))
           = Some {| sub_id := rowid; sub_code := subject_code;
                     sub_name := subject_name; sub_branch := branch;
                     sub_semester := semester |}).
Proof.
  intros _ _ Hnd. unfold add_subject.
  destruct (existsb (fun s => (sub_code s =? subject_code)%string) (subjects db))
    eqn:E; simpl.
  - assert (Hin : In subject_code (map sub_code (subjects db))).
    { apply existsb_exists in E. destruct E as (s & Hs & Heq).
      apply String.eqb_eq in Heq. subst. apply in_map. exact Hs. }
    split; [exact Hnd|]. split; [reflexivity | contradiction].
  - assert (Hout : ~ In subject_code (map sub_code (subjects db))).
    { intros Hin. apply in_map_iff in Hin. destruct Hin as (s & Heq & Hs).
      rewrite existsb_false_iff in E. specialize (E s Hs). simpl in E.
      rewrite Heq, String.eqb_refl in E. discriminate. }
    split; [|split; [contradiction|]].
    + rewrite map_app. simpl.
      apply NoDup_app; [exact Hnd | constructor; [intros []|constructor] |].
      intros x Hx [<-|[]]. exact (Hout Hx).
    + intros _. eexists. split; [reflexivity|].
      split; [apply DatabaseFacts.next_rowid_fresh|].
      unfold get_subject. simpl. rewrite find_app.
      replace (find _ (subjects db)) with (@None SubjectRow).
      * simpl. rewrite Z.eqb_refl. reflexivity.
      * symmetry. apply find_none_iff. intros s Hs. apply Z.eqb_neq. intros Eq.
        apply (DatabaseFacts.next_rowid_fresh seq (map sub_id (subjects db))).
        rewrite <- Eq. apply in_map. exact Hs.
Qed.

Lemma add_subject_then_get_subject_witness :
  sqlite_integer 3
  /\ rowid_available 3 (map sub_id (subjects campus))
  /\ NoDup (map sub_code (subjects campus))
  /\ (NoDup (map sub_code
               (subjects (fst (snd (add_subject "ACT9" "Activity 9" "CSE" 3 3
                                      campus)))))
      /\ (In "ACT9" (map sub_code (subjects campus)) ->
          add_subject "ACT9" "Activity 9" "CSE" 3 3 campus
          = ((false, inr "Subject code already exists"), (campus, 3)))
      /\ (~ In "ACT9" (map sub_code (subjects campus)) ->
          exists rowid,
            fst (add_subject "ACT9" "Activity 9" "CSE" 3 3 campus)
            = (true, inl rowid)
            /\ ~ In rowid (map sub_id (subjects campus))
            /\ get_subject rowid
                 (fst (snd (add_subject "ACT9" "Activity 9" "CSE" 3 3 campus)))
               = Some {| sub_id := rowid; sub_code := "ACT9";
                         sub_name := "Activity 9"; sub_branch := "CSE";
                         sub_semester := 3 |})).
Proof.
  assert (H : NoDup (map sub_code (subjects campus))).
  { simpl. constructor; [intros [E|[]]; discriminate|].
    constructor; [intros []|constructor]. }
  assert (H3 : sqlite_integer 3) by (unfold sqlite_integer; simpl; lia).
  assert (Hroom : rowid_available 3 (map sub_id (subjects campus)))
    by (vm_compute; split; [discriminate | reflexivity]).
  split; [exact H3|]. split; [exact Hroom|]. split; [exact H|].
  apply (@add_subject_then_get_subject "ACT9" "Activity 9" "CSE" 3 3 campus
           H3 Hroom H).
Defined.

(** X9. [update_subject] never changes a subject id and keeps pairwise
    different subject codes pairwise different; after an accepted update
    of an existing subject, [get_subject] returns the new values. *)
Theorem update_subject_effect sid subject_code subject_name branch semester
    db old :
  NoDup (map sub_code (subjects db)) ->
  get_subject sid db = Some old ->
  map sub_id (subjects (snd (update_subject sid subject_code subject_name
                               branch semester db)))
  = map sub_id (subjects db)
  /\ NoDup (map sub_code
              (subjects (snd (update_subject sid subject_code subject_name
                                branch semester db))))
  /\ (fst (fst (update_subject sid subject_code subject_name branch semester db))
      = true ->
      get_subject sid (snd (update_subject sid subject_code subject_name
                              branch semester db))
      = Some {| sub_id := sid; sub_code := subject_code;
                sub_name := subject_name; sub_branch := branch;
                sub_semester := semester |})
  /\ (fst (fst (update_subject sid subject_code subject_name branch semester db))
      = false ->
      snd (update_subject sid subject_code subject_name branch semester db) = db).
Proof.
  intros Hnd Hold. unfold update_subject.
  destruct (unique_violation (fun s => sub_id s =? sid)
              (fun s => (sub_code s =? subject_code)%string) (subjects db))
    eqn:Ev; simpl.
  - split; [reflexivity|]. split; [exact Hnd|].
    split; [discriminate | reflexivity].
  - split; [|split; [|split; [|discriminate]]].
    + rewrite map_map. apply map_ext. intros s.
      destruct (sub_id s =? sid); reflexivity.
    + apply (@unique_update_NoDup _ (fun s => sub_id s =? sid) sub_code
               subject_code
               (fun s => {| sub_id := sub_id s; sub_code := subject_code;
                            sub_name := subject_name; sub_branch := branch;
                            sub_semester := semester |}));
        [reflexivity | exact Hnd | exact Ev].
    + intros _. unfold get_subject in *. simpl.
      rewrite find_map_same
        by (intros x; destruct (sub_id x =? sid) eqn:E; simpl; rewrite ?E;
            reflexivity).
      rewrite Hold. simpl.
      apply find_some in Hold. destruct Hold as [_ Hid].
      rewrite Hid. apply Z.eqb_eq in Hid. rewrite Hid. reflexivity.
Qed.

Lemma update_subject_effect_witness :
  NoDup (map sub_code (subjects campus))
  /\ get_subject 1 campus
     = Some {| sub_id := 1; sub_code := "ACT1"; sub_name := "Activity 1";
               sub_branch := "CSE"; sub_semester := 3 |}
  /\ (map sub_id (subjects (snd (update_subject 1 "ACT7" "Renamed" "CSE" 3
                                   campus)))
      = map sub_id (subjects campus)
      /\ NoDup (map sub_code
                  (subjects (snd (update_subject 1 "ACT7" "Renamed" "CSE" 3
                                    campus))))
      /\ (fst (fst (update_subject 1 "ACT7" "Renamed" "CSE" 3 campus)) = true ->
          get_subject 1 (snd (update_subject 1 "ACT7" "Renamed" "CSE" 3 campus))
          = Some {| sub_id := 1; sub_code := "ACT7"; sub_name := "Renamed";
                    sub_branch := "CSE"; sub_semester := 3 |})
      /\ (fst (fst (update_subject 1 "ACT7" "Renamed" "CSE" 3 campus)) = false ->
          snd (update_subject 1 "ACT7" "Renamed" "CSE" 3 campus) = campus)).
Proof.
  assert (H : NoDup (map sub_code (subjects campus))).
  { simpl. constructor; [intros [E|[]]; discriminate|].
    constructor; [intros []|constructor]. }
  split; [exact H|]. split; [reflexivity|].
  apply (@update_subject_effect 1 "ACT7" "Renamed" "CSE" 3 campus
           {| sub_id := 1; sub_code := "ACT1"; sub_name := "Activity 1";
              sub_branch := "CSE"; sub_semester := 3 |} H).
  reflexivity.
Defined.

(** X10. [delete_subject] removes the subject and no attendance record;
    the pending records of the subject drop out of
    [get_unsynced_attendance], the other rows keeping their order. *)
Theorem delete_subject_effect (sid : Z) (db : Database.t) :
  get_subject sid (snd (delete_subject sid db)) = None
  /\ (forall other, other <> sid ->
        get_subject other (snd (delete_subject sid db)) = get_subject other db)
  /\ attendance (snd (delete_subject sid db)) = attendance db
  /\ students (snd (delete_subject sid db)) = students db
  /\ get_unsynced_attendance (snd (delete_subject sid db))
     = filter (fun r => negb (u_subject_id r =? sid))
              (get_unsynced_attendance db).
Proof.
  split; [|split; [|split; [reflexivity|split; [reflexivity|]]]].
  - unfold get_subject, delete_subject. simpl.
    apply find_none_iff. intros s Hs. apply filter_In in Hs.
    apply negb_true_iff. exact (proj2 Hs).
  - intros other Hother. unfold get_subject, delete_subject. simpl.
    apply find_filter_out.
    intros s Hs. apply Z.eqb_eq in Hs. apply negb_true_iff, Z.eqb_neq.
    congruence.
  - unfold get_unsynced_attendance.
    rewrite (@filter_sort_by _ newer_first TelegramFacts.newer_first_trans
               TelegramFacts.newer_first_total).
    f_equal. unfold unsynced_join, delete_subject. simpl.
    rewrite TelegramFacts.filter_flat_map. apply flat_map_ext. intros a.
    rewrite TelegramFacts.filter_flat_map. apply flat_map_ext. intros s.
    rewrite flat_map_filter, TelegramFacts.filter_flat_map.
    apply flat_map_ext. intros sub.
    destruct ((a_student_id a =? st_id s) && (a_subject_id a =? sub_id sub)
              && negb (a_synced a)); simpl;
      destruct (negb (sub_id sub =? sid)); reflexivity.
Qed.

(** X11. [get_subjects] lists exactly the subjects that meet every filter
    given, in ascending order of subject code; without filters it lists
    them all. *)
Theorem get_subjects_selected_and_sorted (branch : option string)
    (semester : option Z) (db : Database.t) :
  (forall s,
     In s (get_subjects branch semester db) <->
     In s (subjects db)
     /\ (forall b, branch = Some b -> b <> "" -> sub_branch s = b)
     /\ (forall n, semester = Some n -> n <> 0 -> sub_semester s = n))
  /\ StronglySorted (fun x y => String.leb (sub_code x) (sub_code y) = true)
                    (get_subjects branch semester db)
  /\ List.length (get_subjects None None db) = List.length (subjects db).
Proof.
  unfold get_subjects. split; [|split].
  - intros s. rewrite sort_by_In, filter_In. unfold subject_selected.
    rewrite andb_true_iff, text_condition_spec, int_condition_spec.
    reflexivity.
  - apply (@sort_by_sorted _ by_subject_code).
    + intros x y z. unfold by_subject_code. apply string_leb_trans.
    + intros x y. unfold by_subject_code. apply string_leb_total.
  - rewrite sort_by_length. f_equal. apply TelegramFacts.filter_all. reflexivity.
Qed.

End SubjectFacts.

(** ** Settings, faculty and login *)

Module ConfigFacts.
Import DatabaseConfig Pages StudentFacts.


Lemma update_setting_then_get_setting_aux (key value : string)
    (c : DatabaseConfig.t) :
  fst (update_setting key value c) = true
  /\ (get_setting key c <> None ->
      get_setting key (snd (update_setting key value c)) = Some value)
  /\ (get_setting key c = None ->
      get_setting key (snd (update_setting key value c)) = None)
  /\ (forall other, other <> key ->
        get_setting other (snd (update_setting key value c))
        = get_setting other c)
  /\ map fst (settings (snd (update_setting key value c)))
     = map fst (settings c).
Proof.
  split; [reflexivity|].
  assert (Hfind : forall k,
            find (fun kv => (fst kv =? k)%string)
                 (settings (snd (update_setting key value c)))
            = option_map
                (fun kv => if (fst kv =? key)%string then (fst kv, value) else kv)
                (find (fun kv => (fst kv =? k)%string) (settings c))).
  { intros k. unfold update_setting. simpl. apply find_map_same.
    intros kv. destruct (fst kv =? key)%string; reflexivity. }
  unfold get_setting.
  split; [|split; [|split]].
  - rewrite Hfind.
    destruct (find (fun kv => (fst kv =? key)%string) (settings c)) as [kv|] eqn:E;
      [|intros H; exfalso; apply H; reflexivity].
    intros _. simpl. apply find_some in E. destruct E as [_ E].
    rewrite E. reflexivity.
  - rewrite Hfind.
    destruct (find (fun kv => (fst kv =? key)%string) (settings c));
      [discriminate | reflexivity].
  - intros other Hother. rewrite Hfind.
    destruct (find (fun kv => (fst kv =? other)%string) (settings c)) as [kv|] eqn:E;
      [|reflexivity].
    simpl. apply find_some in E. destruct E as [_ E].
    apply String.eqb_eq in E.
    replace (fst kv =? key)%string with false; [reflexivity|].
    symmetry. apply String.eqb_neq. congruence.
  - unfold update_setting. simpl. rewrite map_map. apply map_ext.
    intros kv. destruct (fst kv =? key)%string; reflexivity.
Qed.

(** X12. [update_setting] changes the value of a key that exists, so that
    [get_setting] returns the new value; it never creates a key (for a
    missing key it answers [True] and [get_setting] still returns
    nothing), and it leaves every other key's value alone. *)
Theorem update_setting_then_get_setting (key value : string)
    (c : DatabaseConfig.t) :
  fst (update_setting key value c) = true
  /\ (get_setting key c <> None ->
      get_setting key (snd (update_setting key value c)) = Some value)
  /\ (get_setting key c = None ->
      get_setting key (snd (update_setting key value c)) = None)
  /\ (forall other, other <> key ->
        get_setting other (snd (update_setting key value c))
        = get_setting other c)
  /\ map fst (settings (snd (update_setting key value c)))
     = map fst (settings c).
Proof. exact (update_setting_then_get_setting_aux key value c). Qed.











(** X14. [login] succeeds exactly when some faculty row carries both the
    id and the password typed in; a failed login leaves the session as it
    was, a successful one marks it logged in with the name and the admin
    flag of the matching row.  On a fresh install the account
    admin/admin123 logs in as administrator. *)
Theorem login_checks_credentials (faculty_id password : string)
    (c : DatabaseConfig.t) (session : SessionState) :
  (fst (login faculty_id password c session) = true <->
   exists f, In f (faculty c) /\ fa_faculty_id f = faculty_id
             /\ fa_password f = password)
  /\ (fst (login faculty_id password c session) = false ->
      snd (login faculty_id password c session) = session)
  /\ (fst (login faculty_id password c session) = true ->
      logged_in (snd (login faculty_id password c session)) = true
      /\ exists f, In f (faculty c) /\ fa_faculty_id f = faculty_id
                   /\ fa_password f = password
                   /\ faculty_name (snd (login faculty_id password c session))
                      = fa_name f
                   /\ is_admin (snd (login faculty_id password c session))
                      = fa_is_admin f)
  /\ login "admin" "admin123" (create_tables DatabaseConfig.empty) session
     = (true, {| logged_in := true; faculty_name := "Administrator";
                 is_admin := true |}).
Proof.
  unfold login, verify_credentials.
  destruct (find (fun f => (fa_faculty_id f =? faculty_id)%string
                           && (fa_password f =? password)%string) (faculty c))
    as [f|] eqn:E; simpl.
  - apply find_some in E. destruct E as [Hf E].
    apply andb_prop in E. destruct E as [E1 E2].
    apply String.eqb_eq in E1, E2.
    split; [split; [intros _; exists f; auto | reflexivity]|].
    split; [discriminate|]. split; [|reflexivity].
    intros _. split; [reflexivity|]. exists f. auto.
  - split; [|split; [reflexivity | split; [discriminate | reflexivity]]].
    split; [discriminate|]. intros (f & Hf & H1 & H2).
    rewrite find_none_iff in E. specialize (E f Hf). simpl in E.
    rewrite H1, H2, !String.eqb_refl in E. discriminate.
Qed.

(** X15. The "Update Admin Password" form writes the setting
    [admin_password] and nothing else: no faculty row changes, so every
    login is answered as before.  After a fresh install and a change to
    any other password, admin/admin123 still logs in and the new password
    does not. *)
Theorem change_admin_password_leaves_login (new_admin_password
    confirm_password : string) (c : DatabaseConfig.t) :
  faculty (snd (change_admin_password new_admin_password confirm_password c))
  = faculty c
  /\ (forall faculty_id password session,
        login faculty_id password
          (snd (change_admin_password new_admin_password confirm_password c))
          session
        = login faculty_id password c session)
  /\ (new_admin_password = confirm_password -> new_admin_password <> "" ->
      get_setting "admin_password" c <> None ->
      get_setting "admin_password"
        (snd (change_admin_password new_admin_password confirm_password c))
      = Some new_admin_password)
  /\ (new_admin_password <> "admin123" -> forall session,
        fst (login "admin" "admin123"
               (snd (change_admin_password new_admin_password
                       confirm_password (create_tables DatabaseConfig.empty)))
               session) = true
        /\ fst (login "admin" new_admin_password
                  (snd (change_admin_password new_admin_password
                          confirm_password (create_tables DatabaseConfig.empty)))
                  session) = false).
Proof.
  assert (Hfac : forall c0,
            faculty (snd (change_admin_password new_admin_password
                            confirm_password c0)) = faculty c0).
  { intros c0. unfold change_admin_password.
    destruct (negb _); [reflexivity|].
    destruct (new_admin_password =? "")%string; reflexivity. }
  assert (Hlogin : forall c0 faculty_id password session,
            login faculty_id password
              (snd (change_admin_password new_admin_password confirm_password c0))
              session
            = login faculty_id password c0 session).
  { intros c0 fid pw session. unfold login, verify_credentials.
    rewrite Hfac. reflexivity. }
  split; [apply Hfac|]. split; [apply Hlogin|]. split.
  - intros Heq Hne Hset. unfold change_admin_password.
    rewrite Heq, String.eqb_refl. simpl.
    rewrite <- Heq. apply String.eqb_neq in Hne. rewrite Hne.
    apply (proj1 (proj2 (update_setting_then_get_setting_aux _ _ _)) Hset).
  - intros Hne session. rewrite !Hlogin. split; [reflexivity|].
    unfold login, verify_credentials.
    replace (faculty (create_tables DatabaseConfig.empty))
      with [{| fa_id := 1; fa_faculty_id := "admin"; fa_name := "Administrator";
               fa_email := None; fa_password := "admin123";
               fa_is_admin := true |}] by reflexivity.
    cbn [find fa_faculty_id fa_password].
    rewrite String.eqb_refl. cbn [andb].
    replace ("admin123" =? new_admin_password)%string with false; [reflexivity|].
    symmetry. apply String.eqb_neq. congruence.
Qed.

End ConfigFacts.

(** ** The attendance views *)

Module ViewFacts.
Import Database Scenarios StudentFacts.

(** The order [ORDER BY date DESC, time DESC] puts [r1] before [r2]. *)
Lemma newer_first_spec (r1 r2 : UnsyncedRow) :
  newer_first r1 r2 = true <->
  String.ltb (u_date r2) (u_date r1) = true
  \/ (u_date r1 = u_date r2 /\ String.leb (u_time r2) (u_time r1) = true).
Proof.
  unfold newer_first, String.ltb.
  rewrite (String.compare_antisym (u_date r2) (u_date r1)).
  destruct (String.compare (u_date r1) (u_date r2)) eqn:E; simpl.
  - apply String.compare_eq_iff in E. split; [auto|].
    intros [H|[_ H]]; [discriminate | exact H].
  - split; [discriminate|]. intros [H|[H _]]; [discriminate|].
    rewrite H, string_compare_refl in E. discriminate.
  - split; [auto | reflexivity].
Qed.

Lemma StronglySorted_weaken (A : Type) (R S : A -> A -> Prop) (l : list A) :
  (forall x y, R x y -> S x y) -> StronglySorted R l -> StronglySorted S l.
Proof.
  intros H. induction 1 as [|x l Hs IH Hx]; constructor; [exact IH|].
  eapply Forall_impl; [|exact Hx]. intros y. apply H.
Qed.

Lemma mark_in_one (i : Z) (r : UnsyncedRow) :
  negb (existsb (Z.eqb (u_id r)) [i]) = negb (u_id r =? i).
Proof. simpl. rewrite orb_false_r. reflexivity. Qed.

(** X16. [mark_attendance_synced] takes the rows of one record id out of
    the pending view and keeps the order of the rest; it changes nothing
    but synced flags, marking twice is marking once, and an id that no
    record has changes nothing at all. *)
Theorem mark_attendance_synced_effect (attendance_id : Z) (db : Database.t) :
  get_unsynced_attendance (snd (mark_attendance_synced attendance_id db))
  = filter (fun r => negb (u_id r =? attendance_id))
           (get_unsynced_attendance db)
  /\ map (fun a => (a_id a, a_student_id a, a_subject_id a, a_date a,
                    a_time a, a_status a))
         (attendance (snd (mark_attendance_synced attendance_id db)))
     = map (fun a => (a_id a, a_student_id a, a_subject_id a, a_date a,
                      a_time a, a_status a))
           (attendance db)
  /\ attendance (snd (mark_attendance_synced attendance_id
                        (snd (mark_attendance_synced attendance_id db))))
     = attendance (snd (mark_attendance_synced attendance_id db))
  /\ (~ In attendance_id (map a_id (attendance db)) ->
      attendance (snd (mark_attendance_synced attendance_id db))
      = attendance db).
Proof.
  split; [|split; [|split]].
  - rewrite (TelegramFacts.get_unsynced_attendance_marked [attendance_id] db
               (snd (mark_attendance_synced attendance_id db))
               eq_refl eq_refl
               (TelegramFacts.mark_attendance_synced_attendance attendance_id db)).
    apply filter_ext. intros r. apply mark_in_one.
  - rewrite TelegramFacts.mark_attendance_synced_attendance, map_map.
    apply map_ext. intros a. unfold mark_in.
    destruct (existsb _ _); reflexivity.
  - rewrite !TelegramFacts.mark_attendance_synced_attendance, map_map.
    apply map_ext. intros a. rewrite TelegramFacts.mark_in_app.
    unfold mark_in. simpl. destruct (a_id a =? attendance_id); reflexivity.
  - intros Hout. rewrite TelegramFacts.mark_attendance_synced_attendance.
    rewrite <- (map_id (attendance db)) at 2. apply map_ext_in.
    intros a Ha. unfold mark_in. simpl.
    replace (a_id a =? attendance_id) with false; [reflexivity|].
    symmetry. apply Z.eqb_neq. intros E. apply Hout. rewrite <- E.
    apply in_map. exact Ha.
Qed.

(** X17. [get_unsynced_attendance] returns exactly the unsynced records
    whose student and subject both exist, joined with them, newest first:
    a later date comes before an earlier one, and within a date a later
    time before an earlier one. *)
Theorem get_unsynced_attendance_pending_newest_first (db : Database.t) :
  (forall r,
     In r (get_unsynced_attendance db) <->
     exists a s sub,
       In a (attendance db) /\ In s (students db) /\ In sub (subjects db)
       /\ a_student_id a = st_id s /\ a_subject_id a = sub_id sub
       /\ a_synced a = false /\ r = unsynced_row a s sub)
  /\ StronglySorted
       (fun r1 r2 =>
          String.ltb (u_date r2) (u_date r1) = true
          \/ (u_date r1 = u_date r2
              /\ String.leb (u_time r2) (u_time r1) = true))
       (get_unsynced_attendance db).
Proof.
  split.
  - intros r. rewrite TelegramFacts.get_unsynced_attendance_In.
    unfold unsynced_join. rewrite in_flat_map. split.
    + intros (a & Ha & H). apply in_flat_map in H. destruct H as (s & Hs & H).
      apply in_flat_map in H. destruct H as (sub & Hsub & H).
      destruct ((a_student_id a =? st_id s) && (a_subject_id a =? sub_id sub)
                && negb (a_synced a)) eqn:E; [|destruct H].
      destruct H as [<-|[]].
      apply andb_prop in E. destruct E as [E Hn].
      apply andb_prop in E. destruct E as [E1 E2].
      apply Z.eqb_eq in E1, E2. apply negb_true_iff in Hn.
      exists a, s, sub. auto 10.
    + intros (a & s & sub & Ha & Hs & Hsub & E1 & E2 & Hn & ->).
      exists a. split; [exact Ha|]. apply in_flat_map. exists s.
      split; [exact Hs|]. apply in_flat_map. exists sub. split; [exact Hsub|].
      rewrite E1, E2, Hn, !Z.eqb_refl. left. reflexivity.
  - apply (StronglySorted_weaken
             (R := fun r1 r2 => newer_first r1 r2 = true)).
    + intros x y. apply newer_first_spec.
    + apply (@sort_by_sorted _ newer_first
               TelegramFacts.newer_first_trans TelegramFacts.newer_first_total).
Qed.

Lemma view_newer_first_total (x y : AttendanceView) :
  view_newer_first x y = false -> view_newer_first y x = true.
Proof.
  unfold view_newer_first. rewrite (String.compare_antisym (v_date y) (v_date x)).
  destruct (String.compare (v_date x) (v_date y)); simpl; try congruence.
  intros H. destruct (String.leb_total (v_time x) (v_time y)); congruence.
Qed.

Lemma view_newer_first_trans (x y z : AttendanceView) :
  view_newer_first x y = true -> view_newer_first y z = true ->
  view_newer_first x z = true.
Proof.
  unfold view_newer_first.
  destruct (String.compare (v_date x) (v_date y)) eqn:Hxy; try discriminate;
    destruct (String.compare (v_date y) (v_date z)) eqn:Hyz; try discriminate.
  - apply String.compare_eq_iff in Hxy, Hyz. rewrite Hxy, Hyz.
    rewrite string_compare_refl. intros H1 H2.
    exact (string_leb_trans _ _ _ H2 H1).
  - apply String.compare_eq_iff in Hxy. rewrite Hxy, Hyz. reflexivity.
  - apply String.compare_eq_iff in Hyz. rewrite <- Hyz, Hxy. reflexivity.
  - apply string_compare_gt_lt in Hxy, Hyz.
    pose proof (string_compare_lt_trans _ _ _ Hyz Hxy) as H.
    apply string_compare_gt_lt in H. rewrite H. reflexivity.
Qed.

Lemma view_newer_first_spec (r1 r2 : AttendanceView) :
  view_newer_first r1 r2 = true <->
  String.ltb (v_date r2) (v_date r1) = true
  \/ (v_date r1 = v_date r2 /\ String.leb (v_time r2) (v_time r1) = true).
Proof.
  unfold view_newer_first, String.ltb.
  rewrite (String.compare_antisym (v_date r2) (v_date r1)).
  destruct (String.compare (v_date r1) (v_date r2)) eqn:E; simpl.
  - apply String.compare_eq_iff in E. split; [auto|].
    intros [H|[_ H]]; [discriminate | exact H].
  - split; [discriminate|]. intros [H|[H _]]; [discriminate|].
    rewrite H, string_compare_refl in E. discriminate.
  - split; [auto | reflexivity].
Qed.

Lemma get_attendance_In date_filter subject_id student_id branch semester
    section db (v : AttendanceView) :
  In v (get_attendance date_filter subject_id student_id branch semester
          section db) <->
  exists a s sub,
    In a (attendance db) /\ In s (students db) /\ In sub (subjects db)
    /\ a_student_id a = st_id s /\ a_subject_id a = sub_id sub
    /\ attendance_selected date_filter subject_id student_id branch semester
         section a s = true
    /\ v = attendance_view a s sub.
Proof.
  unfold get_attendance. rewrite sort_by_In, in_flat_map. split.
  - intros (a & Ha & H). apply in_flat_map in H. destruct H as (s & Hs & H).
    apply in_flat_map in H. destruct H as (sub & Hsub & H).
    destruct ((a_student_id a =? st_id s) && (a_subject_id a =? sub_id sub)
              && attendance_selected date_filter subject_id student_id branch
                   semester section a s) eqn:E; [|destruct H].
    destruct H as [<-|[]].
    apply andb_prop in E. destruct E as [E Hn].
    apply andb_prop in E. destruct E as [E1 E2].
    apply Z.eqb_eq in E1, E2.
    exists a, s, sub. auto 10.
  - intros (a & s & sub & Ha & Hs & Hsub & E1 & E2 & Hn & ->).
    exists a. split; [exact Ha|]. apply in_flat_map. exists s.
    split; [exact Hs|]. apply in_flat_map. exists sub. split; [exact Hsub|].
    rewrite E1, E2, Hn, !Z.eqb_refl. left. reflexivity.
Qed.

(** X18. Every row [get_attendance] returns is a stored record joined with
    an existing student and an existing subject, and it meets every filter
    given; the rows come newest first.  A record whose student or subject
    row is gone is therefore never shown. *)
Theorem get_attendance_joined_filtered_newest_first date_filter subject_id
    student_id branch semester section (db : Database.t) :
  (forall v,
     In v (get_attendance date_filter subject_id student_id branch semester
             section db) ->
     (exists a s sub,
        In a (attendance db) /\ In s (students db) /\ In sub (subjects db)
        /\ st_id s = a_student_id a /\ sub_id sub = a_subject_id a
        /\ v = attendance_view a s sub)
     /\ (forall d, date_filter = Some d -> d <> "" -> v_date v = d)
     /\ (forall i, subject_id = Some i -> i <> 0 -> v_subject_id v = i)
     /\ (forall i, student_id = Some i -> i <> 0 -> v_student_id v = i)
     /\ (forall b, branch = Some b -> b <> "" -> v_branch v = b)
     /\ (forall n, semester = Some n -> n <> 0 -> v_semester v = n)
     /\ (forall c, section = Some c -> c <> "" -> v_section v = c))
  /\ StronglySorted
       (fun r1 r2 =>
          String.ltb (v_date r2) (v_date r1) = true
          \/ (v_date r1 = v_date r2
              /\ String.leb (v_time r2) (v_time r1) = true))
       (get_attendance date_filter subject_id student_id branch semester
          section db).
Proof.
  split.
  - intros v Hv. apply get_attendance_In in Hv.
    destruct Hv as (a & s & sub & Ha & Hs & Hsub & E1 & E2 & Hsel & ->).
    unfold attendance_selected, student_selected in Hsel.
    apply andb_prop in Hsel. destruct Hsel as [Hsel Horg].
    apply andb_prop in Hsel. destruct Hsel as [Hsel Hst].
    apply andb_prop in Hsel. destruct Hsel as [Hd Hsj].
    apply andb_prop in Horg. destruct Horg as [Horg Hc].
    apply andb_prop in Horg. destruct Horg as [Hb Hn].
    split; [exists a, s, sub; auto 10|]. simpl.
    rewrite <- E1, <- E2.
    split; [apply text_condition_spec; exact Hd|].
    split; [apply int_condition_spec; exact Hsj|].
    split; [apply int_condition_spec; exact Hst|].
    split; [apply text_condition_spec; exact Hb|].
    split; [apply int_condition_spec; exact Hn
           | apply text_condition_spec; exact Hc].
  - apply (StronglySorted_weaken
             (R := fun r1 r2 => view_newer_first r1 r2 = true)).
    + intros x y. apply view_newer_first_spec.
    + apply (@sort_by_sorted _ view_newer_first
               view_newer_first_trans view_newer_first_total).
Qed.






End ViewFacts.

(** ** Reports, batches and runs of the reconciler *)

Module ReconcilerFacts.
Import Database TelegramBot Scenarios.

Lemma status_counts (rows : DataFrame) :
  (List.length (filter (fun r => (u_status r =? "present")%string) rows)
   + List.length (filter (fun r => (u_status r =? "absent")%string) rows)
   <= List.length rows)%nat
  /\ ((List.length (filter (fun r => (u_status r =? "present")%string) rows)
       + List.length (filter (fun r => (u_status r =? "absent")%string) rows)
       = List.length rows)%nat
      <-> forall r, In r rows -> u_status r = "present" \/ u_status r = "absent").
Proof.
  induction rows as [|r rows [IHle IHeq]]; simpl.
  - split; [lia|]. split; [intros _ r [] | reflexivity].
  - destruct (u_status r =? "present")%string eqn:Ep.
    + apply String.eqb_eq in Ep. rewrite Ep. simpl. split; [lia|].
      split.
      * intros H r' [<-|Hr']; [left; exact Ep|].
        apply IHeq; [lia | exact Hr'].
      * intros H. f_equal. apply IHeq. intros r' Hr'. apply H. right. exact Hr'.
    + destruct (u_status r =? "absent")%string eqn:Ea; simpl.
      * apply String.eqb_eq in Ea. split; [lia|]. split.
        -- intros H r' [<-|Hr']; [right; exact Ea|].
           apply IHeq; [lia | exact Hr'].
        -- intros H. rewrite Nat.add_succ_r. f_equal. apply IHeq.
           intros r' Hr'. apply H. right. exact Hr'.
      * apply String.eqb_neq in Ep, Ea. split; [lia|]. split; [lia|].
        intros H. destruct (H r (or_introl eq_refl)); contradiction.
Qed.

(** X20. In the report built for a batch, total is the number of rows and
    equals present plus absent, and the list of present students has
    exactly [present] entries.  The list of absent students holds only the
    rows whose status is ["absent"]: it is as long as the absent count
    exactly when every row is either present or absent, and shorter
    otherwise. *)
Theorem format_report_counts (first : UnsyncedRow) (rows : DataFrame) :
  msg_total (format_report first rows) = Z.of_nat (List.length rows)
  /\ msg_total (format_report first rows)
     = msg_present (format_report first rows)
       + msg_absent (format_report first rows)
  /\ 0 <= msg_present (format_report first rows)
       <= msg_total (format_report first rows)
  /\ Z.of_nat (List.length (msg_present_students (format_report first rows)))
     = msg_present (format_report first rows)
  /\ Z.of_nat (List.length (msg_absent_students (format_report first rows)))
     <= msg_absent (format_report first rows)
  /\ (Z.of_nat (List.length (msg_absent_students (format_report first rows)))
      = msg_absent (format_report first rows)
      <-> forall r, In r rows -> u_status r = "present" \/ u_status r = "absent").
Proof.
  destruct (status_counts rows) as [Hle Heq].
  unfold format_report, student_lines. simpl. rewrite !length_map.
  split; [reflexivity|]. split; [lia|]. split; [lia|]. split; [reflexivity|].
  split; [lia|].
  rewrite <- Heq. lia.
Qed.

(** *** Batches *)

Lemma key_before_total (k1 k2 : GroupKey) :
  key_before k1 k2 = false -> key_before k2 k1 = true.
Proof.
  unfold key_before. rewrite (String.compare_antisym (fst k2) (fst k1)).
  destruct (String.compare (fst k1) (fst k2)); simpl; try congruence.
  rewrite !Z.leb_le, Z.leb_gt. lia.
Qed.

Lemma key_before_trans (k1 k2 k3 : GroupKey) :
  key_before k1 k2 = true -> key_before k2 k3 = true -> key_before k1 k3 = true.
Proof.
  unfold key_before.
  destruct (String.compare (fst k1) (fst k2)) eqn:H12; try discriminate;
    destruct (String.compare (fst k2) (fst k3)) eqn:H23; try discriminate.
  - apply String.compare_eq_iff in H12, H23. rewrite H12, H23.
    rewrite string_compare_refl, !Z.leb_le. lia.
  - apply String.compare_eq_iff in H12. rewrite H12, H23. reflexivity.
  - apply String.compare_eq_iff in H23. rewrite <- H23, H12. reflexivity.
  - rewrite (string_compare_lt_trans _ _ _ H12 H23). reflexivity.
Qed.

Lemma key_before_spec (k1 k2 : GroupKey) :
  key_before k1 k2 = true <->
  String.ltb (fst k1) (fst k2) = true \/ (fst k1 = fst k2 /\ snd k1 <= snd k2).
Proof.
  unfold key_before, String.ltb.
  destruct (String.compare (fst k1) (fst k2)) eqn:E.
  - apply String.compare_eq_iff in E. rewrite Z.leb_le. split; [auto|].
    intros [H|[_ H]]; [discriminate | exact H].
  - split; [auto | reflexivity].
  - split; [discriminate|]. intros [H|[H _]]; [discriminate|].
    rewrite H, string_compare_refl in E. discriminate.
Qed.

Lemma list_sum_map_add (A : Type) (f g : A -> nat) (l : list A) :
  list_sum (map (fun x => (f x + g x)%nat) l)
  = (list_sum (map f l) + list_sum (map g l))%nat.
Proof. induction l as [|x l IH]; simpl; [reflexivity | rewrite IH; lia]. Qed.

Lemma one_key_counts_once (x : GroupKey) (ks : list GroupKey) :
  NoDup ks -> In x ks ->
  list_sum (map (fun k => if key_eqb x k then 1%nat else 0%nat) ks) = 1%nat.
Proof.
  induction ks as [|k ks IH]; simpl; intros Hnd Hin; [destruct Hin|].
  inversion Hnd as [|? ? Hk Hnd']; subst.
  destruct (key_eqb x k) eqn:E.
  - apply TelegramFacts.key_eqb_eq in E. subst k. f_equal.
    clear IH Hin Hnd Hnd'. induction ks as [|k ks IH]; simpl; [reflexivity|].
    destruct (key_eqb x k) eqn:E.
    + apply TelegramFacts.key_eqb_eq in E. subst k.
      exfalso. apply Hk. left. reflexivity.
    + apply IH. intros H. apply Hk. right. exact H.
  - destruct Hin as [->|Hin].
    + assert (key_eqb x x = true) by (apply TelegramFacts.key_eqb_eq; reflexivity).
      congruence.
    + simpl. exact (IH Hnd' Hin).
Qed.

Lemma group_sizes_add_up (ks : list GroupKey) (df : DataFrame) :
  NoDup ks -> (forall r, In r df -> In (key_of r) ks) ->
  list_sum (map (fun k => List.length (group_of k df)) ks) = List.length df.
Proof.
  intros Hnd. induction df as [|r df IH]; intros Hin.
  - clear. induction ks as [|k ks IHk]; simpl; [reflexivity | exact IHk].
  - replace (map (fun k => List.length (group_of k (r :: df))) ks)
      with (map (fun k => ((if key_eqb (key_of r) k then 1 else 0)
                           + List.length (group_of k df))%nat) ks).
    + rewrite list_sum_map_add.
      rewrite (@one_key_counts_once (key_of r) ks Hnd
                 (Hin r (or_introl eq_refl))).
      rewrite IH; [reflexivity|].
      intros r' Hr'. apply Hin. right. exact Hr'.
    + apply map_ext. intros k. unfold group_of. simpl.
      destruct (key_eqb (key_of r) k); reflexivity.
Qed.

(** X21. [groupby] partitions a data frame by (date, subject): the keys
    are pairwise different and ascend by date and then by subject id; a
    group is never empty and holds, in data-frame order, exactly the rows
    with its key; every row lies in the group of its key; and the sizes of
    the groups add up to the number of rows. *)
Theorem groupby_partitions (df : DataFrame) :
  NoDup (map fst (groupby df))
  /\ StronglySorted
       (fun k1 k2 =>
          String.ltb (fst k1) (fst k2) = true
          \/ (fst k1 = fst k2 /\ snd k1 <= snd k2))
       (map fst (groupby df))
  /\ (forall k rows,
        In (k, rows) (groupby df) ->
        rows <> []
        /\ rows = filter (fun r => key_eqb (key_of r) k) df
        /\ (forall r, In r rows -> In r df /\ key_of r = k))
  /\ (forall r, In r df ->
        exists rows, In (key_of r, rows) (groupby df) /\ In r rows)
  /\ list_sum (map (fun g => List.length (snd g)) (groupby df))
     = List.length df.
Proof.
  split; [apply TelegramFacts.groupby_keys_NoDup|].
  split; [|split; [|split]].
  - rewrite TelegramFacts.groupby_keys.
    apply (ViewFacts.StronglySorted_weaken
             (R := fun k1 k2 => key_before k1 k2 = true)).
    + intros x y. apply key_before_spec.
    + apply (@sort_by_sorted _ key_before key_before_trans key_before_total).
  - intros k rows Hin.
    pose proof (TelegramFacts.groupby_nonempty df) as Hne.
    rewrite Forall_forall in Hne. specialize (Hne _ Hin). simpl in Hne.
    apply TelegramFacts.groupby_In in Hin. destruct Hin as [_ ->].
    split; [exact Hne|]. split; [reflexivity|].
    intros r Hr. apply TelegramFacts.group_of_In. exact Hr.
  - intros r Hr. exists (group_of (key_of r) df). split.
    + apply TelegramFacts.groupby_In. split; [exists r; auto | reflexivity].
    + apply TelegramFacts.group_of_In. auto.
  - unfold groupby. rewrite map_map. simpl.
    apply group_sizes_add_up.
    + apply sort_by_NoDup, NoDup_nodup.
    + intros r Hr. apply sort_by_In, nodup_In, in_map. exact Hr.
Qed.

(** *** Runs of the reconciler *)

Lemma handed_length (transport : Transport)
    (groups : list (GroupKey * DataFrame)) :
  Forall (fun g => snd g <> []) groups ->
  forall n, List.length (handed transport n groups) = List.length groups.
Proof.
  induction 1 as [|g groups Hg _ IH]; intros n; [reflexivity|].
  destruct g as [k [|first rows]]; [exfalso; apply Hg; reflexivity|].
  cbn [handed snd List.length]. rewrite IH. reflexivity.
Qed.

Lemma tally_total (transport : Transport)
    (groups : list (GroupKey * DataFrame)) (n : nat) :
  (successes transport n groups + List.length (failures transport n groups))%nat
  = List.length groups.
Proof.
  revert n. induction groups as [|g groups IH]; intros n; simpl; [reflexivity|].
  rewrite length_app. specialize (IH (S n)).
  destruct (fst (answer transport n (snd g))); simpl; lia.
Qed.

Lemma failures_nil_iff (transport : Transport)
    (groups : list (GroupKey * DataFrame)) (n : nat) :
  failures transport n groups = [] <->
  forall i g, nth_error groups i = Some g ->
              fst (answer transport (n + i) (snd g)) = true.
Proof.
  split; [apply TelegramFacts.failures_none|].
  revert n. induction groups as [|g groups IH]; intros n H; simpl;
    [reflexivity|].
  pose proof (H 0%nat g eq_refl) as H0. rewrite Nat.add_0_r in H0.
  rewrite H0. simpl. apply IH. intros i g' Hi.
  specialize (H (S i) g' Hi). rewrite Nat.add_succ_r in H. exact H.
Qed.

Lemma batches_nil (self : TelegramBot.t) :
  get_unsynced_attendance (db self) = [] -> batches self = [].
Proof. unfold batches. intros ->. reflexivity. Qed.

(** X22. The bookkeeping of one run, for any transport: the log grows by
    exactly one entry per batch; every batch is counted once, as a success
    or as a failure; the run returns True exactly when the transport
    accepted every batch; and when something was pending the text it
    returns carries those two counts. *)
Theorem sync_pending_attendance_accounting (transport : Transport)
    (self : TelegramBot.t) :
  List.length (sent (snd (sync_pending_attendance transport self)))
  = (List.length (sent self) + List.length (batches self))%nat
  /\ (successes transport (List.length (sent self)) (batches self)
      + List.length (failures transport (List.length (sent self))
                              (batches self)))%nat
     = List.length (batches self)
  /\ (fst (fst (sync_pending_attendance transport self)) = true <->
      forall i k rows,
        nth_error (batches self) i = Some (k, rows) ->
        fst (batch_answer transport self i rows) = true)
  /\ (get_unsynced_attendance (db self) <> [] ->
      snd (fst (sync_pending_attendance transport self))
      = if Nat.eqb (List.length (failures transport (List.length (sent self))
                                          (batches self))) 0
        then ("Successfully synced "
              ++ str_of_nat (successes transport (List.length (sent self))
                                       (batches self))
              ++ " attendance reports")%string
        else ("Synced "
              ++ str_of_nat (successes transport (List.length (sent self))
                                       (batches self))
              ++ " reports, "
              ++ str_of_nat (List.length
                               (failures transport (List.length (sent self))
                                         (batches self)))
              ++ " failed: "
              ++ String.concat ", "
                   (failures transport (List.length (sent self))
                             (batches self)))%string).
Proof.
  destruct (TelegramFacts.sync_pending_attendance_effect transport self)
    as (Hsent & _ & _ & _ & Hres).
  split; [|split; [|split]].
  - rewrite Hsent, length_app. f_equal. apply handed_length.
    apply TelegramFacts.groupby_nonempty.
  - apply tally_total.
  - rewrite Hres.
    assert (Hiff : failures transport (List.length (sent self)) (batches self)
                   = [] <->
                   forall i k rows,
                     nth_error (batches self) i = Some (k, rows) ->
                     fst (batch_answer transport self i rows) = true).
    { rewrite failures_nil_iff. unfold batch_answer. split.
      - intros H i k rows Hn. exact (H i (k, rows) Hn).
      - intros H i [k rows] Hn. exact (H i k rows Hn). }
    destruct (get_unsynced_attendance (db self)) as [|r0 view] eqn:Ev.
    + split; [intros _|reflexivity]. apply Hiff.
      rewrite (batches_nil self Ev). reflexivity.
    + destruct (failures transport (List.length (sent self)) (batches self))
        as [|e reasons] eqn:Ef.
      * split; [intros _; apply Hiff|]; reflexivity.
      * split; [discriminate|]. intros H. apply Hiff in H. discriminate.
  - intros Hpending. rewrite Hres.
    destruct (get_unsynced_attendance (db self)) as [|r0 view];
      [exfalso; apply Hpending; reflexivity|].
    destruct (failures transport (List.length (sent self)) (batches self));
      reflexivity.
Qed.

Lemma mark_in_cases (ids : list Z) (a : AttendanceRow) :
  mark_in ids a = a \/ mark_in ids a = synced_true a.
Proof. unfold mark_in. destruct (existsb _ ids); auto. Qed.

(** X23. What a run may change, for any transport: it leaves the students
    and the subjects as they were, adds and removes no attendance record,
    and each record is either untouched or differs from what it was only in
    a synced flag that is now set.  No flag is ever cleared. *)
Theorem sync_pending_attendance_frame (transport : Transport)
    (self : TelegramBot.t) :
  students (db (snd (sync_pending_attendance transport self)))
  = students (db self)
  /\ subjects (db (snd (sync_pending_attendance transport self)))
     = subjects (db self)
  /\ Forall2 (fun a a' => a' = a \/ a' = synced_true a)
       (attendance (db self))
       (attendance (db (snd (sync_pending_attendance transport self))))
  /\ Forall2 (fun a a' => a_synced a = true -> a_synced a' = true)
       (attendance (db self))
       (attendance (db (snd (sync_pending_attendance transport self)))).
Proof.
  destruct (TelegramFacts.sync_pending_attendance_effect transport self)
    as (_ & Hatt & Hst & Hsub & _).
  split; [exact Hst|]. split; [exact Hsub|]. rewrite Hatt. clear Hatt.
  split.
  - induction (attendance (db self)) as [|a l IH]; simpl; constructor.
    + apply mark_in_cases.
    + exact IH.
  - induction (attendance (db self)) as [|a l IH]; simpl; constructor.
    + intros Hs. destruct (mark_in_cases
        (delivered transport (List.length (sent self)) (batches self)) a)
        as [-> | ->]; [exact Hs | reflexivity].
    + exact IH.
Qed.

(** X24. With the sender the source ships, which answers True to every
    message, a run always returns True, leaves nothing pending, and reports
    as many synced reports as there were (date, subject) batches. *)
Theorem sync_pending_attendance_demo_mode (self : TelegramBot.t) :
  fst (sync_pending_attendance send_message_sync self)
  = match get_unsynced_attendance (db self) with
    | [] => (true, "No pending attendance to sync")
    | _ => (true,
            ("Successfully synced " ++ str_of_nat (List.length (batches self))
             ++ " attendance reports")%string)
    end
  /\ get_unsynced_attendance
       (db (snd (sync_pending_attendance send_message_sync self))) = []
  /\ List.length (sent (snd (sync_pending_attendance send_message_sync self)))
     = (List.length (sent self) + List.length (batches self))%nat.
Proof.
  destruct (TelegramFacts.sync_pending_attendance_effect send_message_sync self)
    as (Hsent & Hatt & Hst & Hsub & Hres).
  assert (Hall : forall i g, nth_error (batches self) i = Some g ->
            fst (answer send_message_sync (List.length (sent self) + i) (snd g))
            = true).
  { intros i g Hn. apply nth_error_In in Hn.
    pose proof (TelegramFacts.groupby_nonempty
                  (get_unsynced_attendance (db self))) as Hne.
    rewrite Forall_forall in Hne. specialize (Hne g Hn).
    destruct g as [k [|first rows]];
      [exfalso; apply Hne; reflexivity | reflexivity]. }
  assert (Hnil : failures send_message_sync (List.length (sent self))
                   (batches self) = []).
  { apply failures_nil_iff. exact Hall. }
  split; [|split].
  - rewrite Hres, Hnil.
    pose proof (tally_total send_message_sync (batches self)
                  (List.length (sent self))) as Ht.
    rewrite Hnil in Ht. simpl in Ht. rewrite Nat.add_0_r in Ht. rewrite Ht.
    reflexivity.
  - rewrite (TelegramFacts.get_unsynced_attendance_marked _ _ _ Hst Hsub Hatt).
    apply TelegramFacts.filter_none. intros r Hr.
    destruct (TelegramFacts.batches_cover self r Hr) as (i & rows & Hn & Hin).
    assert (Hd : existsb (Z.eqb (u_id r))
                   (delivered send_message_sync (List.length (sent self))
                              (batches self)) = true).
    { apply TelegramFacts.existsb_eqb_In, TelegramFacts.delivered_In.
      exists i, (key_of r, rows). split; [exact Hn|].
      split; [exact (Hall i _ Hn)|]. simpl. apply in_map. exact Hin. }
    rewrite Hd. reflexivity.
  - rewrite Hsent, length_app. f_equal. apply handed_length.
    apply TelegramFacts.groupby_nonempty.
Qed.

End ReconcilerFacts.

(** * The pages *)

Module PagesFacts.
Import Database FaceRecognitionUtils Pages Scenarios.

(** X25. The subjects the attendance page offers: an administrator is
    offered every subject, in [get_subjects] order; anyone else is offered
    none, whatever the store holds, because the dictionaries of
    [get_subjects] carry no [faculty_name] and [None] equals no name. *)
Theorem offered_subjects_by_role (session : SessionState) (db : Database.t) :
  offered_subjects session db
  = if is_admin session then get_subjects None None db else [].
Proof.
  unfold offered_subjects. destruct (is_admin session); [reflexivity|].
  cbn [negb]. apply TelegramFacts.filter_none. intros s _. reflexivity.
Qed.



(** *** Marking from an uploaded image *)








(** *** Statistics *)

(** X28. The three counts of [get_attendance_stats] are consistent for
    every choice of filters and every store: present never exceeds total,
    and absent is their difference, hence never negative. *)
Theorem get_attendance_stats_counts_bounded (date_filter : option string)
    (subject_id : option Z) (branch : option string) (semester : option Z)
    (section : option string) (db : Database.t) :
  0 <= present (get_attendance_stats date_filter subject_id branch semester
                  section db)
    <= total (get_attendance_stats date_filter subject_id branch semester
                section db)
  /\ absent (get_attendance_stats date_filter subject_id branch semester
               section db)
     = total (get_attendance_stats date_filter subject_id branch semester
                section db)
       - present (get_attendance_stats date_filter subject_id branch semester
                    section db)
  /\ 0 <= absent (get_attendance_stats date_filter subject_id branch semester
                    section db).
Proof.
  destruct (Spec.collision date_filter subject_id branch semester section)
    eqn:Ec.
  - rewrite (StatsFacts.get_attendance_stats_collision _ _ _ _ _ db Ec).
    cbn. lia.
  - destruct (StatsFacts.get_attendance_stats_without_collision
                _ _ _ _ _ db Ec) as (Ht & Hp & Ha).
    rewrite Ha, Ht, Hp.
    assert (Hle : counted_present date_filter subject_id branch semester
                    section db
                  <= counted_total branch semester section db).
    { unfold counted_present, counted_total, count_distinct.
      apply Nat2Z.inj_le. apply NoDup_incl_length; [apply NoDup_nodup|].
      intros x Hx. apply nodup_In. apply nodup_In in Hx.
      apply in_map_iff in Hx. destruct Hx as (a & <- & Ha').
      apply filter_In in Ha'. destruct Ha' as [_ HP].
      apply andb_prop in HP. destruct HP as [_ Hex].
      apply existsb_exists in Hex. destruct Hex as (s & Hs & Hex).
      apply andb_prop in Hex. destruct Hex as [Hid Horg].
      apply Z.eqb_eq in Hid. rewrite <- Hid. apply in_map.
      apply filter_In. auto. }
    assert (H0 : 0 <= counted_present date_filter subject_id branch semester
                        section db).
    { unfold counted_present, count_distinct. lia. }
    lia.
Qed.

End PagesFacts.
